(** * Superstore sales dashboard: the filter-and-aggregate pipeline of [app.py]

    The script loads a table of retail transactions, filters it with the
    values of five sidebar widgets, derives a fixed catalogue of grouped
    summaries and top-N selections from the filtered frame and offers
    three CSV exports.  This development embeds that pipeline and proves
    the properties its specification states.

    Modelling conventions.
    - A pandas [DataFrame] is a list of labelled records (index label,
      row), in row order; a [Series] is the list of its values.
    - A [datetime64] value is the number of nanoseconds since the epoch;
      a [datetime.date] is a number of days since the epoch.
    - The amounts read from the file are finite numbers and are kept as
      exact rationals; a [float64] is such a rational or one of the three
      IEEE special values.  Rounding (and overflow to infinity) is not
      modelled, the special values are: where a statement gives the
      value of a sum, a quotient or a mean, it is the exact value, which
      the script computes up to the rounding of binary64.
    - The text columns hold strings.  A cell that [read_csv] reads as
      missing (a blank cell of the file, NaN in the frame) is the empty
      string, which is the text of no other cell: [isin] and [unique]
      take it as a value like any other, [groupby] and [nunique] leave
      it out, and [sorted] cannot compare it with a string. *)

From Stdlib Require Import ZArith QArith Qcanon Lia.
From stdpp Require Import base list strings gmap numbers sorting.

Set Default Proof Using "Type".
Local Open Scope Z_scope.

(** ** Numbers *)

Module Float.

(** A [float64]: a finite value or an IEEE special value. *)
Inductive float64 : Type :=
  | Fin (q : Qc)
  | PInf
  | NInf
  | NaN.

#[global] Instance float64_eq_dec : EqDecision float64.
Proof. solve_decision. Defined.

Definition isnan (x : float64) : bool :=
  match x with NaN => true | _ => false end.

Definition isfinite (x : float64) : bool :=
  match x with Fin _ => true | _ => false end.

Definition isinf (x : float64) : bool :=
  match x with PInf | NInf => true | _ => false end.

Definition neg (x : float64) : float64 :=
  match x with
  | Fin q => Fin (- q)%Qc
  | PInf => NInf
  | NInf => PInf
  | NaN => NaN
  end.

(** The infinity with the sign of [q]; [0 * inf] is not a number. *)
Definition signed_inf (q : Qc) : float64 :=
  if decide (0 < q)%Qc then PInf
  else if decide (q < 0)%Qc then NInf
  else NaN.

Definition add (x y : float64) : float64 :=
  match x, y with
  | NaN, _ | _, NaN => NaN
  | PInf, NInf | NInf, PInf => NaN
  | PInf, _ | _, PInf => PInf
  | NInf, _ | _, NInf => NInf
  | Fin a, Fin b => Fin (a + b)%Qc
  end.

Definition mul (x y : float64) : float64 :=
  match x, y with
  | NaN, _ | _, NaN => NaN
  | Fin a, Fin b => Fin (a * b)%Qc
  | PInf, Fin b | Fin b, PInf => signed_inf b
  | NInf, Fin b | Fin b, NInf => neg (signed_inf b)
  | PInf, PInf | NInf, NInf => PInf
  | PInf, NInf | NInf, PInf => NInf
  end.

(** numpy division: no exception, [x / 0] is an infinity with the sign
    of [x] and [0 / 0] is not a number. *)
Definition div (x y : float64) : float64 :=
  match x, y with
  | NaN, _ | _, NaN => NaN
  | Fin a, Fin b =>
      if decide (b = 0)%Qc then signed_inf a else Fin (a / b)%Qc
  | Fin _, (PInf | NInf) => Fin 0%Qc
  | (PInf | NInf), (PInf | NInf) => NaN
  | PInf, Fin b => if decide (b < 0)%Qc then NInf else PInf
  | NInf, Fin b => if decide (b < 0)%Qc then PInf else NInf
  end.

Definition of_Z (z : Z) : float64 := Fin (Q2Qc (inject_Z z)).
Definition of_nat (n : nat) : float64 := of_Z (Z.of_nat n).

End Float.

Export Float.

(** [Series.sum] of a column of amounts. *)
Definition series_sum (l : list Qc) : Qc := foldr Qcplus 0%Qc l.
#[global] Arguments series_sum : simpl never.

(** [Series.mean] of a float column (pandas [nanmean], [skipna=True]):
    the values that are not NaN are added and divided by their count;
    with no such value the mean is NaN.  Infinite values are values. *)
Definition float_mean (l : list float64) : float64 :=
  let valid := filter (λ x, isnan x = false) l in
  match valid with
  | [] => NaN
  | _ => Float.div (foldr Float.add (Fin 0%Qc) valid)
                   (Float.of_nat (length valid))
  end.

(** [Series.mean] of an integer column with at least one value. *)
Definition int_mean (l : list Z) : float64 :=
  Float.div (Float.of_Z (foldr Z.add 0 l)) (Float.of_nat (length l)).

(** ** Dates *)

Definition ns_per_day : Z := 86400000000000.

(** [pd.to_datetime] of a [datetime.date]: midnight of that day. *)
Definition to_datetime (d : Z) : Z := d * ns_per_day.

(** [Timedelta.days]: whole days, rounded towards minus infinity. *)
Definition timedelta_days (delta : Z) : Z := delta `div` ns_per_day.

(** Civil date (year, month, day) of a day number. *)
Definition civil_from_days (z : Z) : Z * Z * Z :=
  let z := z + 719468 in
  let era := z `div` 146097 in
  let doe := z - era * 146097 in
  let yoe := (doe - doe `div` 1460 + doe `div` 36524 - doe `div` 146096) `div` 365 in
  let doy := doe - (365 * yoe + yoe `div` 4 - yoe `div` 100) in
  let mp := (5 * doy + 2) `div` 153 in
  let d := doy - (153 * mp + 2) `div` 5 + 1 in
  let m := if decide (mp < 10) then mp + 3 else mp - 9 in
  let y := yoe + era * 400 in
  (if decide (m ≤ 2) then y + 1 else y, m, d).

(** [Series.dt.year] and [Series.dt.month]. *)
Definition dt_year (t : Z) : Z := (civil_from_days (t `div` ns_per_day)).1.1.
Definition dt_month (t : Z) : Z := (civil_from_days (t `div` ns_per_day)).1.2.

(** [Series.dt.to_period('M')]: the ordinal of the month, counted from
    January 1970. *)
Definition to_period_M (t : Z) : Z := (dt_year t - 1970) * 12 + (dt_month t - 1).

(** ** Data model *)

(** Modelled from the spec: the columns of the input file
    [src/data/Superstore.csv], which is not part of the sources, in the
    order in which the specification lists them.  The file writes a date
    as day/month/year; the two date columns hold the day number of the
    date read.  A text column holds the text of its cell, the empty
    string for a cell that is read as missing. *)
Module Csv.
Record row : Type := {
  Order_Date : Z;
  Ship_Date : Z;
  Ship_Mode : string;
  Region : string;
  Category : string;
  Segment : string;
  State : string;
  City : string;
  Product_Name : string;
  Sub_Category : string;
  Customer_Name : string;
  Customer_ID : string;
  Order_ID : string;
  Sales : Qc;
  Profit : Qc;
  Quantity : Z;
  Discount : Qc
}.

#[global] Instance row_eq_dec : EqDecision row.
Proof. solve_decision. Defined.
End Csv.

(** A row of the loaded frame: the columns of the file and the four
    columns [load_data] derives from them. *)
Record Row : Type := {
  Order_Date : Z;
  Ship_Date : Z;
  Ship_Mode : string;
  Region : string;
  Category : string;
  Segment : string;
  State : string;
  City : string;
  Product_Name : string;
  Sub_Category : string;
  Customer_Name : string;
  Customer_ID : string;
  Order_ID : string;
  Sales : Qc;
  Profit : Qc;
  Quantity : Z;
  Discount : Qc;
  Year : Z;
  Month : Z;
  Month_Year : Z;
  Profit_Margin : float64
}.

#[global] Instance Row_eq_dec : EqDecision Row.
Proof. solve_decision. Defined.

(** A frame: the labelled rows and the column [Shipping Days], which is
    absent until the script assigns it. *)
Record DataFrame : Type := {
  frame_rows : list (Z * Row);
  Shipping_Days : option (list Z)
}.

#[global] Instance DataFrame_eq_dec : EqDecision DataFrame.
Proof. solve_decision. Defined.

Definition records (df : DataFrame) : list Row := (frame_rows df).*2.

(** [len(df)] and [df.empty]. *)
Definition len (df : DataFrame) : nat := length (frame_rows df).
Definition empty (df : DataFrame) : bool :=
  match frame_rows df with [] => true | _ => false end.

(** A column of a frame, as a series of values. *)
Definition column {A} (f : Row → A) (df : DataFrame) : list A :=
  f <$> records df.


(** ** Dataset loader *)

(** [(profit / sales) * 100], the expression of lines 53 and 276. *)
Definition percent_ratio (profit sales : Qc) : float64 :=
  Float.mul (Float.div (Fin profit) (Fin sales)) (Float.of_Z 100).

(** The row [load_data] makes of a row of the file: the two dates
    become timestamps (lines 46 and 47) and four columns are derived
    from the others (lines 50 to 53). *)
Definition derive (t : Csv.row) : Row := {|
  Order_Date := to_datetime (Csv.Order_Date t);
  Ship_Date := to_datetime (Csv.Ship_Date t);
  Ship_Mode := Csv.Ship_Mode t;
  Region := Csv.Region t;
  Category := Csv.Category t;
  Segment := Csv.Segment t;
  State := Csv.State t;
  City := Csv.City t;
  Product_Name := Csv.Product_Name t;
  Sub_Category := Csv.Sub_Category t;
  Customer_Name := Csv.Customer_Name t;
  Customer_ID := Csv.Customer_ID t;
  Order_ID := Csv.Order_ID t;
  Sales := Csv.Sales t;
  Profit := Csv.Profit t;
  Quantity := Csv.Quantity t;
  Discount := Csv.Discount t;
  Year := dt_year (to_datetime (Csv.Order_Date t));
  Month := dt_month (to_datetime (Csv.Order_Date t));
  Month_Year := to_period_M (to_datetime (Csv.Order_Date t));
  Profit_Margin := percent_ratio (Csv.Profit t) (Csv.Sales t)
|}.

(** [load_data], from the rows [pd.read_csv] returns: they get the
    default index 0, 1, 2, ... *)
Definition load_data (csv : list Csv.row) : DataFrame := {|
  frame_rows := zip (seqZ 0 (Z.of_nat (length csv))) (derive <$> csv);
  Shipping_Days := None
|}.

(** ** Boolean masks and row selection

    The operator [&] of two boolean series is stdpp's [&&*]. *)

Definition series_ge (col : list Z) (v : Z) : list bool :=
  (λ x, bool_decide (v ≤ x)) <$> col.

Definition series_le (col : list Z) (v : Z) : list bool :=
  (λ x, bool_decide (x ≤ v)) <$> col.

Definition isin (col : list string) (values : list string) : list bool :=
  (λ x, bool_decide (x ∈ values)) <$> col.

Definition mask_select {A} (mask : list bool) (l : list A) : list A :=
  (filter (λ p, p.1 = true) (zip mask l)).*2.

(** [df[mask]]: a new frame holding the rows of [df] whose mask entry is
    true, with their labels and in their order. *)
Definition getitem_mask (df : DataFrame) (mask : list bool) : DataFrame := {|
  frame_rows := mask_select mask (frame_rows df);
  Shipping_Days := mask_select mask <$> Shipping_Days df
|}.

(** ** Filter engine *)

(** The values of the sidebar widgets. [date_range] is the tuple
    [st.date_input] returns: it has two dates once a range is chosen and
    fewer while the user is choosing. *)
Record Criteria : Type := {
  date_range : list Z;
  regions : list string;
  categories : list string;
  segments : list string;
  states : list string
}.

Inductive exn : Type :=
  | IndexError
  | KeyError
  | NameError
  | TypeError
  | ValueError.

#[global] Instance exn_eq_dec : EqDecision exn.
Proof. solve_decision. Defined.

(** [t[i]] on a tuple. *)
Definition tuple_get {A} (t : list A) (i : nat) : exn + A :=
  match t !! i with
  | Some x => inr x
  | None => inl IndexError
  end.

(** The mask of the first selection (lines 103 to 109). *)
Definition base_mask (df : DataFrame) (c : Criteria) : exn + list bool :=
  match tuple_get (date_range c) 0 with
  | inl e => inl e
  | inr d0 =>
      match tuple_get (date_range c) 1 with
      | inl e => inl e
      | inr d1 =>
          inr (series_ge (column Order_Date df) (to_datetime d0)
               &&* series_le (column Order_Date df) (to_datetime d1)
               &&* isin (column Region df) (regions c)
               &&* isin (column Category df) (categories c)
               &&* isin (column Segment df) (segments c))
      end
  end.

(** The second selection (lines 111 and 112): only with a non-empty list
    of states. *)
Definition filter_states (fd : DataFrame) (c : Criteria) : DataFrame :=
  match states c with
  | [] => fd
  | _ => getitem_mask fd (isin (column State fd) (states c))
  end.

(** The filtered view of a frame. *)
Definition apply_filters (df : DataFrame) (c : Criteria) : exn + DataFrame :=
  match base_mask df c with
  | inl e => inl e
  | inr mask => inr (filter_states (getitem_mask df mask) c)
  end.

(** ** Missing cells *)

(** [pd.isna]: a missing cell.  A period is never missing, since the
    dates of the file are read; a key of several columns is missing when
    one of its cells is. *)
Class IsNa (A : Type) := isna : A → bool.

#[global] Instance string_IsNa : IsNa string := λ s, bool_decide (s = EmptyString).
#[global] Instance Z_IsNa : IsNa Z := λ _, false.
#[global] Instance prod_IsNa `{IsNa A, IsNa B} : IsNa (A * B) :=
  λ x, isna x.1 || isna x.2.

(** [Series.dropna]. *)
Definition dropna `{IsNa A} (l : list A) : list A :=
  filter (λ x, isna x = false) l.

(** ** Grouping *)

(** The order in which [groupby] lists its keys. *)
Class KeyOrd (K : Type) := key_leb : K → K → bool.

#[global] Instance string_KeyOrd : KeyOrd string := String.leb.
#[global] Instance Z_KeyOrd : KeyOrd Z := Z.leb.
#[global] Instance prod_KeyOrd `{EqDecision A, KeyOrd A, KeyOrd B} : KeyOrd (A * B) :=
  λ x y, if decide (x.1 = y.1) then key_leb x.2 y.2 else key_leb x.1 y.1.

Section sort.
Context {A : Type} (leb : A → A → bool).

Fixpoint insert_by (x : A) (l : list A) : list A :=
  match l with
  | [] => [x]
  | y :: l' => if leb x y then x :: l else y :: insert_by x l'
  end.

(** A stable sort: of two rows that compare equal, the one that comes
    first in the input comes first in the result. *)
Definition sort_by (l : list A) : list A := foldr insert_by [] l.
End sort.

Section groupby.
Context {R K : Type} `{EqDecision K, KeyOrd K, IsNa K}.

(** The keys of the groups: the distinct keys of the rows in sorted
    order, without the missing one ([dropna=True], the default). *)
Definition group_keys (key : R → K) (rows : list R) : list K :=
  sort_by key_leb (remove_dups (dropna (key <$> rows))).

(** [groupby(key)]: the keys in sorted order, each with its rows; a row
    whose key is missing is in no group. *)
Definition groupby (key : R → K) (rows : list R) : list (K * list R) :=
  (λ k, (k, filter (λ r, key r = k) rows)) <$> group_keys key rows.

(** [groupby(key)[value].sum()]. *)
Definition groupby_sum (key : R → K) (value : R → Qc) (rows : list R)
    : list (K * Qc) :=
  (λ g, (g.1, series_sum (value <$> g.2))) <$> groupby key rows.
End groupby.

(** [Series.nunique]: the number of distinct values, a missing cell not
    counted ([dropna=True], the default). *)
Definition nunique {A} `{EqDecision A, IsNa A} (l : list A) : nat :=
  length (remove_dups (dropna l)).

(** The sum of an [int64] column: an addition that leaves the range of
    the type wraps around. *)
Definition int64_wrap (z : Z) : Z := (z + 2 ^ 63) `mod` 2 ^ 64 - 2 ^ 63.

Definition int64_sum (l : list Z) : Z :=
  foldl (λ acc x, int64_wrap (acc + x)) 0 l.

(** ** Top-N selection *)

(** The order of a descending sort by a value: a row goes before the
    rows whose value is not larger. *)
Definition desc {A} (by_ : A → Qc) (a b : A) : bool :=
  bool_decide (by_ b ≤ by_ a)%Qc.

Definition descending {A} (by_ : A → Qc) (a b : A) : Prop := (by_ b ≤ by_ a)%Qc.

(** [nlargest(n, by)] with the default [keep='first']: the first [n] rows
    of the frame sorted by descending value, rows of equal value staying
    in their input order; nothing when [n] is not positive. *)
Definition nlargest {A} (n : Z) (by_ : A → Qc) (l : list A) : list A :=
  take (Z.to_nat n) (sort_by (desc by_) l).

(** ** Aggregation engine *)

Section aggregates.
Variable fd : DataFrame.

(** Key metrics (lines 120 to 133). *)
Definition total_sales : Qc := series_sum (column Sales fd).
Definition total_profit : Qc := series_sum (column Profit fd).
Definition total_orders : nat := nunique (column Order_ID fd).
Definition avg_profit_margin : float64 := float_mean (column Profit_Margin fd).

(** The reducers of [agg({'Sales': 'sum', 'Profit': 'sum',
    'Order ID': 'nunique'})]. *)
Definition sales_profit_orders (g : list Row) : Qc * Qc * nat :=
  (series_sum (Sales <$> g), series_sum (Profit <$> g), nunique (Order_ID <$> g)).

Definition monthly_sales : list (Z * (Qc * Qc * nat)) :=
  prod_map id sales_profit_orders <$> groupby Month_Year (records fd).

Definition category_sales : list (string * Qc) :=
  groupby_sum Category Sales (records fd).

Definition region_sales : list (string * Qc) :=
  groupby_sum Region Sales (records fd).

Definition state_sales : list (string * Qc) :=
  groupby_sum State Sales (records fd).

Definition top_states : list (string * Qc) := nlargest 10 snd state_sales.

Definition segment_data : list (string * (Qc * Qc * nat)) :=
  prod_map id sales_profit_orders <$> groupby Segment (records fd).

Definition top_products : list (string * Qc) :=
  nlargest 10 snd (groupby_sum Product_Name Sales (records fd)).

(** Sub-category performance (lines 272 to 276): the two sums of each
    group and the margin computed from them. *)
Record subcat_row : Type := {
  sc_key : string;
  sc_Sales : Qc;
  sc_Profit : Qc;
  sc_Profit_Margin : float64
}.

#[global] Instance subcat_row_eq_dec : EqDecision subcat_row.
Proof. solve_decision. Defined.

Definition subcat_data : list subcat_row :=
  (λ g, let s := series_sum (Sales <$> g.2) in
        let p := series_sum (Profit <$> g.2) in
        {| sc_key := g.1; sc_Sales := s; sc_Profit := p;
           sc_Profit_Margin := percent_ratio p s |})
  <$> groupby Sub_Category (records fd).

Definition ship_mode_data : list (string * (nat * Qc)) :=
  prod_map id (λ g, (nunique (Order_ID <$> g), series_sum (Sales <$> g)))
  <$> groupby Ship_Mode (records fd).

(** The series assigned to [Shipping Days] (line 312). *)
Definition shipping_days : list Z :=
  (λ r, timedelta_days (Ship_Date r - Order_Date r)) <$> records fd.

(** [groupby('Ship Mode')['Shipping Days'].mean()] (line 313), on a
    frame that has the column. *)
Definition ship_time : exn + list (string * float64) :=
  match Shipping_Days fd with
  | None => inl KeyError
  | Some days =>
      inr (prod_map id (λ g, int_mean (g.*2))
           <$> groupby (λ p, Ship_Mode p.1) (zip (records fd) days))
  end.

Definition customer_sales : list (string * Qc) :=
  nlargest 10 snd (groupby_sum Customer_Name Sales (records fd)).

Definition customer_dist : list (string * string * nat) :=
  prod_map id (λ g, nunique (Customer_ID <$> g))
  <$> groupby (λ r, (Segment r, Region r)) (records fd).

Definition city_data : list (string * string * (Qc * Qc * nat)) :=
  prod_map id sales_profit_orders
  <$> groupby (λ r, (State r, City r)) (records fd).

(** The top cities, with the column [Location] added to them. *)
Definition top_cities : list (string * string * (Qc * Qc * nat) * string) :=
  (λ c, (c, (c.1.2 +:+ ", " +:+ c.1.1)%string))
  <$> nlargest 15 (λ c, c.2.1.1) city_data.

(** The three-key aggregate of the third export (lines 410 to 415). *)
Definition agg_data : list (string * string * string * (Qc * Qc * Z * nat)) :=
  prod_map id (λ g, (series_sum (Sales <$> g), series_sum (Profit <$> g),
                      int64_sum (Quantity <$> g), nunique (Order_ID <$> g)))
  <$> groupby (λ r, (Category r, Sub_Category r, Region r)) (records fd).
End aggregates.

(** [filtered_df['Shipping Days'] = ...]: the frame gets the column, or
    has it replaced. *)
Definition setitem_Shipping_Days (fd : DataFrame) (col : list Z) : DataFrame := {|
  frame_rows := frame_rows fd;
  Shipping_Days := Some col
|}.

(** ** Export formatter *)

(** A value of a table cell, before it is written as text. *)
Inductive cell : Type :=
  | cstr (s : string)
  | cint (z : Z)
  | cfloat (x : float64)
  | cdatetime (t : Z)
  | cperiod (p : Z)
  | cmissing.

#[global] Instance cell_eq_dec : EqDecision cell.
Proof. solve_decision. Defined.

(** A frame as [to_csv] sees it: the index labels, the column names and,
    row by row, the values of the columns. *)
Record Table : Type := {
  tindex : list cell;
  tcolumns : list string;
  tdata : list (list cell)
}.

(** [RangeIndex(n)], the index [reset_index] gives a frame. *)
Definition range_index (n : nat) : list cell := cint <$> seqZ 0 (Z.of_nat n).

(** [DataFrame.to_csv(index=...)], up to the text of a field: the lines of
    the file, each the list of its fields.  The first line is the header;
    with [index=True] every line starts with a field for the index, which
    has no name in the header. *)
Definition to_csv (index : bool) (t : Table) : list (list cell) :=
  if index then
    (cstr EmptyString :: (cstr <$> tcolumns t))
    :: zip_with cons (tindex t) (tdata t)
  else
    (cstr <$> tcolumns t) :: tdata t.

(** The columns of the frame, in the order of the file followed by the
    derived columns in the order of their assignment. *)
Definition frame_columns (fd : DataFrame) : list string :=
  ["Order Date"; "Ship Date"; "Ship Mode"; "Region"; "Category"; "Segment";
   "State"; "City"; "Product Name"; "Sub-Category"; "Customer Name";
   "Customer ID"; "Order ID"; "Sales"; "Profit"; "Quantity"; "Discount";
   "Year"; "Month"; "Month-Year"; "Profit Margin"]
  ++ match Shipping_Days fd with Some _ => ["Shipping Days"] | None => [] end.

Definition row_cells (r : Row) : list cell :=
  [cdatetime (Order_Date r); cdatetime (Ship_Date r); cstr (Ship_Mode r);
   cstr (Region r); cstr (Category r); cstr (Segment r); cstr (State r);
   cstr (City r); cstr (Product_Name r); cstr (Sub_Category r);
   cstr (Customer_Name r); cstr (Customer_ID r); cstr (Order_ID r);
   cfloat (Fin (Sales r)); cfloat (Fin (Profit r)); cint (Quantity r);
   cfloat (Fin (Discount r)); cint (Year r); cint (Month r);
   cperiod (Month_Year r); cfloat (Profit_Margin r)].

Definition frame_table (fd : DataFrame) : Table := {|
  tindex := cint <$> (frame_rows fd).*1;
  tcolumns := frame_columns fd;
  tdata :=
    match Shipping_Days fd with
    | Some days => zip_with (λ r d, row_cells r ++ [cint d]) (records fd) days
    | None => row_cells <$> records fd
    end
|}.

(** [Series.unique]: the distinct values, in the order in which they
    first appear. *)
Fixpoint unique {A} `{EqDecision A} (l : list A) : list A :=
  match l with
  | [] => []
  | x :: l' => x :: filter (λ y, y ≠ x) (unique l')
  end.

(** [Series.min] and [Series.max] of a column of timestamps with at
    least one value. *)
Definition series_min (l : list Z) : option Z :=
  match l with
  | [] => None
  | x :: l' => Some (foldr Z.min x l')
  end.

Definition series_max (l : list Z) : option Z :=
  match l with
  | [] => None
  | x :: l' => Some (foldr Z.max x l')
  end.

(** The columns [describe] summarises, in the order of the frame: the
    numeric columns and, as pandas does since its version 2.0, the two
    date columns.  The period column is neither. *)
Inductive described : Type :=
  | dates (values : list Z)
  | numbers (values : list float64).

Definition described_columns (fd : DataFrame) : list (string * described) :=
  [("Order Date", dates (column Order_Date fd));
   ("Ship Date", dates (column Ship_Date fd));
   ("Sales", numbers (Fin <$> column Sales fd));
   ("Profit", numbers (Fin <$> column Profit fd));
   ("Quantity", numbers (Float.of_Z <$> column Quantity fd));
   ("Discount", numbers (Fin <$> column Discount fd));
   ("Year", numbers (Float.of_Z <$> column Year fd));
   ("Month", numbers (Float.of_Z <$> column Month fd));
   ("Profit Margin", numbers (column Profit_Margin fd))]%string
  ++ match Shipping_Days fd with
     | Some days => [("Shipping Days"%string, numbers (Float.of_Z <$> days))]
     | None => []
     end.

Definition float_leb (x y : float64) : bool :=
  match x, y with
  | NaN, _ | _, NaN => false
  | NInf, _ | _, PInf => true
  | Fin a, Fin b => bool_decide (a ≤ b)%Qc
  | _, _ => false
  end.

(** [Series.min] and [Series.max]: missing values are skipped. *)
Definition float_extremum (better : float64 → float64 → bool) (l : list float64)
    : float64 :=
  match filter (λ x, isnan x = false) l with
  | [] => NaN
  | x :: valid => foldl (λ m y, if better y m then y else m) x valid
  end.

Definition float_min : list float64 → float64 := float_extremum float_leb.
Definition float_max : list float64 → float64 :=
  float_extremum (λ x y, float_leb y x).

Definition float_count (l : list float64) : float64 :=
  Float.of_nat (length (filter (λ x, isnan x = false) l)).

(** The statistics of [describe]. *)
Inductive statistic : Type :=
  | s_count
  | s_mean
  | s_min
  | s_quantile (p : Qc)
  | s_max
  | s_std.

(** The rows of the frame [describe] returns.  A date column has a
    count, a mean, a minimum, the quartiles and a maximum, a numeric
    column has a standard deviation as well, after the mean; the rows of
    the frame are the labels of the shorter list followed by the labels
    only the longer one has, so that the standard deviation comes
    last. *)
Definition describe_stats : list (string * statistic) :=
  [("count", s_count);
   ("mean", s_mean);
   ("min", s_min);
   ("25%", s_quantile (Q2Qc (1 # 4)));
   ("50%", s_quantile (Q2Qc (1 # 2)));
   ("75%", s_quantile (Q2Qc (3 # 4)));
   ("max", s_max);
   ("std", s_std)]%string.

(** The timestamp a statistic of a date column is: the nanoseconds of
    the number computed, without their fraction. *)
Definition timestamp_of (x : float64) : cell :=
  match x with
  | Fin q => cdatetime (Z.quot (Qnum q) (Zpos (Qden q)))
  | _ => cmissing
  end.

Section describe.
(** The standard deviation and the quantiles of a column are not
    computed in this model; they are whatever pandas returns. *)
Variable std : list float64 → float64.
Variable quantile : Qc → list float64 → float64.

(** A statistic of a column.  The count of a date column is a whole
    number, and the column has no standard deviation. *)
Definition describe_cell (st : statistic) (col : described) : cell :=
  match col, st with
  | numbers l, s_count => cfloat (float_count l)
  | numbers l, s_mean => cfloat (float_mean l)
  | numbers l, s_min => cfloat (float_min l)
  | numbers l, s_quantile p => cfloat (quantile p l)
  | numbers l, s_max => cfloat (float_max l)
  | numbers l, s_std => cfloat (std l)
  | dates l, s_count => cint (Z.of_nat (length l))
  | dates l, s_mean => timestamp_of (int_mean l)
  | dates l, s_min => from_option cdatetime cmissing (series_min l)
  | dates l, s_quantile p => timestamp_of (quantile p (Float.of_Z <$> l))
  | dates l, s_max => from_option cdatetime cmissing (series_max l)
  | dates l, s_std => cmissing
  end.

(** [DataFrame.describe]: a row for each statistic, labelled with its
    name, and a column for each column summarised. *)
Definition describe (fd : DataFrame) : Table := {|
  tindex := cstr <$> describe_stats.*1;
  tcolumns := (described_columns fd).*1;
  tdata := (λ s, (λ c, describe_cell s.2 c.2) <$> described_columns fd)
           <$> describe_stats
|}.

(** The second payload (lines 399 and 400). *)
Definition summary_csv (fd : DataFrame) : list (list cell) :=
  to_csv true (describe fd).
End describe.

(** The first payload (line 389). *)
Definition filtered_csv (fd : DataFrame) : list (list cell) :=
  to_csv false (frame_table fd).

(** [agg_data] after [reset_index]: the three keys become columns, in
    front of the four reduced columns. *)
Definition agg_table (fd : DataFrame) : Table := {|
  tindex := range_index (length (agg_data fd));
  tcolumns := ["Category"; "Sub-Category"; "Region"; "Sales"; "Profit";
               "Quantity"; "Order ID"];
  tdata :=
    (λ a, [cstr a.1.1.1; cstr a.1.1.2; cstr a.1.2; cfloat (Fin a.2.1.1.1);
           cfloat (Fin a.2.1.1.2); cint a.2.1.2; cint (Z.of_nat a.2.2)])
    <$> agg_data fd
|}.

(** The third payload (line 416). *)
Definition agg_csv (fd : DataFrame) : list (list cell) :=
  to_csv false (agg_table fd).

(** The three payloads. *)
Definition exports (std : list float64 → float64)
    (quantile : Qc → list float64 → float64) (fd : DataFrame)
    : list (list cell) * list (list cell) * list (list cell) :=
  (filtered_csv fd, summary_csv std quantile fd, agg_csv fd).

(** ** The script *)

(** What the script puts on the page, call by call: the texts, the
    widgets of the sidebar, the containers [st.columns] makes, the
    metrics, the charts, the download buttons, the table and the two
    notices.  A metric holds the value its text is formatted from, a
    chart the name of the variable that holds its figure, a download
    button its label and its data: the name of the file carries the time
    of the run and is left out. *)
Inductive element : Type :=
  | markdown (body : string)
  | sidebar_header (body : string)
  | date_input (label : string) (value : Z * Z)
  | multiselect (label : string) (options default : list string)
  | columns (n : nat)
  | metric (label : string) (value : float64)
  | subheader (body : string)
  | write (body : string)
  | plotly_chart (figure : string)
  | download_button (label : string) (data : list (list cell))
  | dataframe (rows : list (Z * Row))
  | info (total : nat)
  | warning (body : string).

#[global] Instance element_eq_dec : EqDecision element.
Proof. solve_decision. Defined.

(** The frames live in a store and the script's variables hold their
    addresses: two variables bound to one frame see each other's
    assignments, a frame made by a selection is a new object. *)
Record store : Type := {
  heap : gmap nat DataFrame;
  next : nat;
  page : list element
}.

Definition M (A : Type) : Type := store → (exn + A) * store.

#[global] Instance M_ret : MRet M := λ A x s, (inr x, s).

#[global] Instance M_bind : MBind M := λ A B k m s,
  match m s with
  | (inl e, s') => (inl e, s')
  | (inr x, s') => k x s'
  end.

Definition lift {A} (r : exn + A) : M A := λ s, (r, s).

(** A new frame object. *)
Definition new (df : DataFrame) : M nat :=
  λ s, (inr (next s),
        {| heap := <[next s := df]> (heap s); next := S (next s); page := page s |}).

(** The frame a variable is bound to. *)
Definition get (l : nat) : M DataFrame :=
  λ s, match heap s !! l with
       | Some df => (inr df, s)
       | None => (inl NameError, s)
       end.

(** An assignment into the frame a variable is bound to. *)
Definition update (l : nat) (f : DataFrame → DataFrame) : M unit :=
  λ s, match heap s !! l with
       | Some df =>
           (inr (), {| heap := <[l := f df]> (heap s); next := next s; page := page s |})
       | None => (inl NameError, s)
       end.

Definition emit (e : element) : M unit :=
  λ s, (inr (), {| heap := heap s; next := next s; page := page s ++ [e] |}).

(** The summaries the script computes from a non-empty filtered frame. *)
Record Dashboard : Type := {
  d_total_sales : Qc;
  d_total_profit : Qc;
  d_total_orders : nat;
  d_avg_profit_margin : float64;
  d_monthly_sales : list (Z * (Qc * Qc * nat));
  d_category_sales : list (string * Qc);
  d_region_sales : list (string * Qc);
  d_top_states : list (string * Qc);
  d_segment_data : list (string * (Qc * Qc * nat));
  d_top_products : list (string * Qc);
  d_subcat_data : list subcat_row;
  d_ship_mode_data : list (string * (nat * Qc));
  d_ship_time : list (string * float64);
  d_customer_sales : list (string * Qc);
  d_customer_dist : list (string * string * nat);
  d_top_cities : list (string * string * (Qc * Qc * nat) * string);
  d_csv : list (list cell);
  d_summary_csv : list (list cell);
  d_agg_csv : list (list cell)
}.

(** The texts of the page that are not computed: the style sheet of
    line 17, the title of line 61 and the footer of line 440. *)
Definition double_quote : string := String (Ascii.ascii_of_nat 34) EmptyString.

Definition style_sheet : string := "
<style>
    .main-header {
        font-size: 3rem;
        color: #1f77b4;
        text-align: center;
        margin-bottom: 2rem;
    }
    .metric-card {
        background-color: #f0f2f6;
        padding: 1rem;
        border-radius: 0.5rem;
        border-left: 5px solid #1f77b4;
    }
    .sidebar .sidebar-content {
        background-color: #f8f9fa;
    }
</style>
".

Definition main_header : string :=
  "<h1 class=" +:+ double_quote +:+ "main-header" +:+ double_quote
  +:+ ">📊 Superstore Sales Dashboard</h1>".

Definition footer : string := "
    <div style='text-align: center; color: #666;'>
        <p>📊 Superstore Sales Dashboard | Built with Streamlit & Plotly</p>
        <p>Data Source: Superstore Dataset</p>
    </div>
    ".

(** [sorted(values)] on the values of a text column: Python orders
    strings by their characters, and raises [TypeError] when it has to
    compare a missing cell, which is a float, with a string. *)
Definition sorted (values : list string) : exn + list string :=
  if decide (EmptyString ∈ values ∧ Exists (λ v, v ≠ EmptyString) values)
  then inl TypeError
  else inr (sort_by String.leb values).

(** The first and the last order date of a frame, which the date widget
    gets as its value and as its bounds (lines 67 to 72).  In a frame
    without rows both are [NaT], a date that cannot be formatted: pandas
    raises [ValueError] when the widget writes it. *)
Definition date_bounds (df : DataFrame) : exn + Z * Z :=
  match series_min (column Order_Date df), series_max (column Order_Date df) with
  | Some first, Some last => inr (first, last)
  | _, _ => inl ValueError
  end.

(** [px.scatter(..., size='Sales')] (line 278): plotly takes no marker
    size below zero and raises [ValueError] when a sub-category has a
    negative sum of sales. *)
Definition scatter (data : list subcat_row) : exn + unit :=
  if decide (Exists (λ row, (sc_Sales row < 0)%Qc) data)
  then inl ValueError
  else inr ().

Section script.
Variable std : list float64 → float64.
Variable quantile : Qc → list float64 → float64.

(** Lines 64 to 100: the widgets of the sidebar, made from the loaded
    frame.  The options of the last one are sorted. *)
Definition widgets (df : nat) : M unit :=
  whole ← get df;
  emit (sidebar_header "🔍 Filters");;
  bounds ← lift (date_bounds whole);
  emit (date_input "Select Date Range" bounds);;
  emit (multiselect "Select Region(s)" (unique (column Region whole))
          (unique (column Region whole)));;
  emit (multiselect "Select Category(ies)" (unique (column Category whole))
          (unique (column Category whole)));;
  emit (multiselect "Select Segment(s)" (unique (column Segment whole))
          (unique (column Segment whole)));;
  options ← lift (sorted (unique (column State whole)));
  emit (multiselect "Select State(s)" options []).

(** Lines 115 to 433: the branch taken with a non-empty filtered frame.
    The summaries of lines 120 to 308 are computed before the column
    [Shipping Days] is assigned, the others after it. *)
Definition render (filtered_df : nat) : M Dashboard :=
  fd ← get filtered_df;
  emit (columns 4);;
  emit (metric "💰 Total Sales" (Fin (total_sales fd)));;
  emit (metric "📈 Total Profit" (Fin (total_profit fd)));;
  emit (metric "📦 Total Orders" (Float.of_nat (total_orders fd)));;
  emit (metric "📊 Avg Profit Margin" (avg_profit_margin fd));;
  emit (markdown "---");;
  emit (subheader "📈 Sales Trends Over Time");;
  emit (plotly_chart "fig_trend");;
  emit (columns 2);;
  emit (subheader "🏷️ Sales by Category");;
  emit (plotly_chart "fig_cat");;
  emit (subheader "🌍 Sales by Region");;
  emit (plotly_chart "fig_region");;
  emit (columns 2);;
  emit (subheader "🏛️ Top 10 States by Sales");;
  emit (plotly_chart "fig_states");;
  emit (subheader "👥 Customer Segment Analysis");;
  emit (plotly_chart "fig_segment");;
  emit (subheader "📦 Product Performance Analysis");;
  emit (columns 2);;
  emit (write "**Top 10 Products by Sales**");;
  emit (plotly_chart "fig_top_products");;
  emit (write "**Sub-Category Performance**");;
  lift (scatter (subcat_data fd));;
  emit (plotly_chart "fig_subcat");;
  emit (subheader "🚚 Shipping Analysis");;
  emit (columns 2);;
  emit (plotly_chart "fig_ship");;
  update filtered_df (λ fd, setitem_Shipping_Days fd (shipping_days fd));;
  fd' ← get filtered_df;
  times ← lift (ship_time fd');
  emit (plotly_chart "fig_ship_time");;
  emit (subheader "👤 Customer Insights");;
  emit (columns 2);;
  emit (plotly_chart "fig_customers");;
  emit (plotly_chart "fig_cust_dist");;
  emit (subheader "📍 Location Analysis");;
  emit (plotly_chart "fig_cities");;
  emit (subheader "📥 Export Data");;
  emit (columns 3);;
  emit (download_button "📄 Download Filtered Data as CSV" (filtered_csv fd'));;
  emit (download_button "📊 Download Summary Statistics"
          (summary_csv std quantile fd'));;
  emit (download_button "📈 Download Aggregated Data" (agg_csv fd'));;
  emit (subheader "📋 Filtered Data Preview");;
  emit (dataframe (take 100 (frame_rows fd')));;
  emit (info (len fd'));;
  mret {|
    d_total_sales := total_sales fd;
    d_total_profit := total_profit fd;
    d_total_orders := total_orders fd;
    d_avg_profit_margin := avg_profit_margin fd;
    d_monthly_sales := monthly_sales fd;
    d_category_sales := category_sales fd;
    d_region_sales := region_sales fd;
    d_top_states := top_states fd;
    d_segment_data := segment_data fd;
    d_top_products := top_products fd;
    d_subcat_data := subcat_data fd;
    d_ship_mode_data := ship_mode_data fd;
    d_ship_time := times;
    d_customer_sales := customer_sales fd';
    d_customer_dist := customer_dist fd';
    d_top_cities := top_cities fd';
    d_csv := filtered_csv fd';
    d_summary_csv := summary_csv std quantile fd';
    d_agg_csv := agg_csv fd'
  |}.

(** Lines 103 to 436, with the loaded frame bound to [df] and the values
    of the widgets in [c]: both selections make a new frame, and the
    assignment of line 312 goes into the frame [filtered_df] is bound to.
    Nothing is returned when the filtered frame is empty. *)
Definition dashboard (df : nat) (c : Criteria) : M (option Dashboard) :=
  whole ← get df;
  mask ← lift (base_mask whole c);
  filtered_df ← new (getitem_mask whole mask);
  filtered_df ←
    match states c with
    | [] => mret filtered_df
    | _ =>
        fd ← get filtered_df;
        new (getitem_mask fd (isin (column State fd) (states c)))
    end;
  fd ← get filtered_df;
  if negb (empty fd) then
    d ← render filtered_df;
    mret (Some d)
  else
    emit (warning "No data available for the selected filters. Please adjust your filter criteria.");;
    mret None.

(** One run of the script on the rows of the file, with the values the
    widgets return in [c]: the style sheet, the loaded frame, the title,
    the widgets, lines 103 to 436 and the footer. *)
Definition script (csv : list Csv.row) (c : Criteria) : M (option Dashboard) :=
  emit (markdown style_sheet);;
  df ← new (load_data csv);
  emit (markdown main_header);;
  widgets df;;
  d ← dashboard df c;
  emit (markdown "---");;
  emit (markdown footer);;
  mret d.

Definition initial : store := {| heap := ∅; next := 0; page := [] |}.

Definition run (csv : list Csv.row) (c : Criteria)
    : (exn + option Dashboard) * store :=
  script csv c initial.
End script.

(** ** Predicates used in the statements *)

(** The rows the first selection keeps and the rows the whole filter
    keeps, as predicates on a row. *)
Definition in_base (start end_ : Z) (rs cs ss : list string) (r : Row) : Prop :=
  to_datetime start ≤ Order_Date r ∧ Order_Date r ≤ to_datetime end_
  ∧ Region r ∈ rs ∧ Category r ∈ cs ∧ Segment r ∈ ss.

Definition in_view (start end_ : Z) (rs cs ss sts : list string) (r : Row) : Prop :=
  in_base start end_ rs cs ss r ∧ (sts ≠ [] → State r ∈ sts).

#[global] Instance in_base_dec start end_ rs cs ss r :
  Decision (in_base start end_ rs cs ss r).
Proof. unfold in_base. apply _. Defined.

#[global] Instance in_view_dec start end_ rs cs ss sts r :
  Decision (in_view start end_ rs cs ss sts r).
Proof. unfold in_view. apply _. Defined.

(** The column [Shipping Days], when a frame has it, is not longer than
    the frame. *)
Definition aligned (df : DataFrame) : Prop :=
  ∀ col, Shipping_Days df = Some col → (length col ≤ length (frame_rows df))%nat.

(** A row whose margin is the one [load_data] derives from its profit
    and its sales. *)
Definition derived (r : Row) : Prop :=
  Profit_Margin r = percent_ratio (Profit r) (Sales r).

(** The mean of the finite values of a column: what a mean that leaves
    out every non-finite value would be. *)
Definition finite_mean (l : list float64) : float64 :=
  float_mean (filter (λ x, isfinite x = true) l).

(** A store in which the address [l] is bound to the frame [df]. *)
Definition holds (l : nat) (df : DataFrame) (s : store) : Prop :=
  heap s !! l = Some df ∧ (l < next s)%nat.

(** A computation that leaves the frame at [l] as it is, whether it
    ends in a result or in an exception, and whose result satisfies [Q]. *)
Definition preserves {A} (l : nat) (df : DataFrame) (m : M A) (Q : A → Prop) : Prop :=
  ∀ s, holds l df s →
    holds l df (m s).2 ∧ ∀ a, (m s).1 = inr a → Q a.

(** The condition [Q] holds of the outcome of the computation [m] run
    from the store [s]. *)
Definition wp {A} (m : M A) (Q : exn + A → store → Prop) (s : store) : Prop :=
  Q (m s).1 (m s).2.

Definition is_warning (e : element) : bool :=
  match e with warning _ => true | _ => false end.

(** The warnings on a page. *)
Definition warnings (p : list element) : list element :=
  filter (λ e, is_warning e = true) p.

(** A row whose two dates are days, as the dates read from the file
    are. *)
Definition day_dates (r : Row) : Prop :=
  ∃ ordered shipped,
    Order_Date r = to_datetime ordered ∧ Ship_Date r = to_datetime shipped.

(** The filtered frame after line 312, from which the exports are made. *)
Definition with_shipping_days (view : DataFrame) : DataFrame :=
  setitem_Shipping_Days view (shipping_days view).

(** Lines that hold the names of the columns of a table and then, row by
    row, the values of these columns, and nothing of its index. *)
Definition index_free (t : Table) (lines : list (list cell)) : Prop :=
  lines = (cstr <$> tcolumns t) :: tdata t.

#[global] Instance index_free_dec t lines : Decision (index_free t lines).
Proof. unfold index_free. apply _. Defined.

(** The second payload of a run, empty when the run shows no dashboard. *)
Definition summary_payload (out : exn + option Dashboard) : list (list cell) :=
  match out with
  | inr (Some d) => d_summary_csv d
  | _ => []
  end.

(** ** A small dataset *)

Module Sample.
Definition amount (z : Z) : Qc := Q2Qc (inject_Z z).

(** A row of the file with the given dates (day numbers), keys and amounts;
    the other columns are the same in every row. *)
Definition order (id : string) (ordered shipped : Z) (mode region category
    sub_category state : string) (sales profit : Z) : Csv.row := {|
  Csv.Order_Date := ordered;
  Csv.Ship_Date := shipped;
  Csv.Ship_Mode := mode;
  Csv.Region := region;
  Csv.Category := category;
  Csv.Segment := "Consumer";
  Csv.State := state;
  Csv.City := "Springfield";
  Csv.Product_Name := "Stapler";
  Csv.Sub_Category := sub_category;
  Csv.Customer_Name := "Ann Lee";
  Csv.Customer_ID := "AL-1";
  Csv.Order_ID := id;
  Csv.Sales := amount sales;
  Csv.Profit := amount profit;
  Csv.Quantity := 1;
  Csv.Discount := 0%Qc
|}.

(** The scenario of the specification: three orders, two in the East
    and one in the West. 19362 is 5 January 2023. *)
Definition three_orders : list Csv.row :=
  [order "O-1" 19362 19364 "First Class" "East" "Technology" "Phones" "Ohio" 100 20;
   order "O-2" 19398 19401 "Standard Class" "West" "Furniture" "Chairs" "Utah" 200 30;
   order "O-3" 19417 19418 "First Class" "East" "Technology" "Phones" "Ohio" 50 5].

(** An order with no sales amount and a profit, next to an ordinary one. *)
Definition zero_sales : list Csv.row :=
  [order "O-4" 19362 19364 "First Class" "East" "Technology" "Phones" "Ohio" 0 10;
   order "O-5" 19398 19401 "First Class" "East" "Technology" "Phones" "Ohio" 100 20].

(** The frame loaded from [zero_sales], which every criteria that
    excludes nothing returns whole. *)
Definition zero_sales_view : DataFrame := load_data zero_sales.

(** An order shipped three days before it was placed. *)
Definition shipped_early : list Csv.row :=
  [order "O-6" 19362 19359 "First Class" "East" "Technology" "Phones" "Ohio" 100 20].

(** The view of [three_orders] with the orders of the East. *)
Definition east_view : DataFrame :=
  getitem_mask (load_data three_orders) [true; false; true].

(** Two orders of equal amount, the one of the West first in the file. *)
Definition west_then_east : list Csv.row :=
  [order "O-7" 19362 19364 "First Class" "West" "Furniture" "Chairs" "Utah" 100 20;
   order "O-8" 19398 19401 "First Class" "East" "Technology" "Phones" "Ohio" 100 30].

Definition everything : Criteria := {|
  date_range := [19358; 19722];
  regions := ["East"; "West"];
  categories := ["Technology"; "Furniture"];
  segments := ["Consumer"];
  states := []
|}.

Definition east_only : Criteria := {|
  date_range := [19358; 19722];
  regions := ["East"];
  categories := ["Technology"; "Furniture"];
  segments := ["Consumer"];
  states := []
|}.
End Sample.

(** ** The sidebar widgets *)

(** [Timestamp.date()]: the day of a timestamp, which is what the date
    widget keeps of the values it is given. *)
Definition date_of (t : Z) : Z := t `div` ns_per_day.

(** The values the widgets return when the user touches nothing (lines
    67 to 100): the range from the first to the last order date, every
    region, category and segment of the data, and no state.  Making the
    first widget can raise, and so can making the last, which sorts the
    states. *)
Definition default_criteria (df : DataFrame) : exn + Criteria :=
  match date_bounds df with
  | inl e => inl e
  | inr (first, last) =>
      match sorted (unique (column State df)) with
      | inl e => inl e
      | inr _ =>
          inr {| date_range := [date_of first; date_of last];
                 regions := unique (column Region df);
                 categories := unique (column Category df);
                 segments := unique (column Segment df);
                 states := [] |}
      end
  end.

(** The first and the last order date of a frame with rows. *)
Definition date_span (df : DataFrame) : Z * Z :=
  (default 0 (series_min (column Order_Date df)),
   default 0 (series_max (column Order_Date df))).

(** The options of the widget of the states, when they can be sorted. *)
Definition state_options (df : DataFrame) : list string :=
  sort_by String.leb (unique (column State df)).

(** ** Predicates used in further statements *)

(** [a == b] on two cells: a missing cell equals no cell, not even
    itself. *)
Definition eq_cell `{IsNa A} (a b : A) : Prop := a = b ∧ isna a = false.

(** The number of orders with a record that has the key. *)
Definition keyed_orders {K} `{IsNa K} (key : Row → K) (fd : DataFrame) : nat :=
  nunique (Order_ID <$> filter (λ r, isna (key r) = false) (records fd)).

(** A file whose states can be sorted: they are all there, or all
    missing. *)
Definition sortable_states (csv : list Csv.row) : Prop :=
  Forall (λ t, Csv.State t ≠ EmptyString) csv
  ∨ Forall (λ t, Csv.State t = EmptyString) csv.

#[global] Instance sortable_states_dec csv : Decision (sortable_states csv).
Proof. unfold sortable_states. apply _. Defined.

(** The rows a criteria keeps: the conditions of [in_view] at the two
    dates the script reads from the range. *)
Definition accepts (c : Criteria) (r : Row) : Prop :=
  match date_range c with
  | start :: end_ :: _ =>
      in_view start end_ (regions c) (categories c) (segments c) (states c) r
  | _ => False
  end.

#[global] Instance accepts_dec c r : Decision (accepts c r).
Proof. unfold accepts. destruct (date_range c) as [|? [|? ?]]; apply _. Defined.

(** The rows of a frame that satisfy a condition, each with its label
    and its entry of the column [Shipping Days]. *)
Definition select (P : Row → Prop) `{!∀ r, Decision (P r)} (df : DataFrame)
    : DataFrame := {|
  frame_rows := filter (λ x, P x.2) (frame_rows df);
  Shipping_Days :=
    (λ col, (filter (λ x, P x.1.2) (zip (frame_rows df) col)).*2)
    <$> Shipping_Days df
|}.

Module More.
Import Sample.

(** The East in January, and technology whenever. *)
Definition east_january : Criteria := {|
  date_range := [19358; 19388];
  regions := ["East"];
  categories := ["Technology"; "Furniture"];
  segments := ["Consumer"];
  states := ["Ohio"]
|}.

Definition technology : Criteria := {|
  date_range := [19358; 19722];
  regions := ["East"; "West"];
  categories := ["Technology"];
  segments := ["Consumer"];
  states := []
|}.

(** A range whose end comes before its start. *)
Definition backwards : Criteria := {|
  date_range := [19722; 19358];
  regions := ["East"; "West"];
  categories := ["Technology"; "Furniture"];
  segments := ["Consumer"];
  states := []
|}.

(** Two orders of one file, the second with a blank cell for its
    state, and the same with a blank cell for its region. *)
Definition blank_state : list Csv.row :=
  [order "O-1" 19362 19364 "First Class" "East" "Technology" "Phones" "Ohio" 100 20;
   order "O-2" 19398 19401 "First Class" "East" "Technology" "Phones" EmptyString 50 5].

Definition blank_region : list Csv.row :=
  [order "O-1" 19362 19364 "First Class" "East" "Technology" "Phones" "Ohio" 100 20;
   order "O-2" 19398 19401 "First Class" EmptyString "Technology" "Phones" "Ohio" 50 5].


(** An order and the return of a larger one, of one sub-category. *)
Definition returned : list Csv.row :=
  [order "O-1" 19362 19364 "First Class" "East" "Technology" "Phones" "Ohio" 100 20;
   order "O-2" 19398 19401 "First Class" "East" "Technology" "Phones" "Ohio" (-150) (-30)].

(** A range the user has only started to choose. *)
Definition half_chosen : Criteria := {|
  date_range := [19358];
  regions := ["East"; "West"];
  categories := ["Technology"; "Furniture"];
  segments := ["Consumer"];
  states := []
|}.
End More.

(** The elements of the page, in the order in which the script puts
    them there.  First the style sheet, the title and the widgets, of a
    frame with rows; the last widget is made from the sorted states. *)
Definition widgets_before_states (whole : DataFrame) : list element :=
  [sidebar_header "🔍 Filters";
   date_input "Select Date Range" (date_span whole);
   multiselect "Select Region(s)" (unique (column Region whole))
     (unique (column Region whole));
   multiselect "Select Category(ies)" (unique (column Category whole))
     (unique (column Category whole));
   multiselect "Select Segment(s)" (unique (column Segment whole))
     (unique (column Segment whole))].

Definition page_top (whole : DataFrame) (options : list string) : list element :=
  [markdown style_sheet; markdown main_header]
  ++ widgets_before_states whole
  ++ [multiselect "Select State(s)" options []].

(** Then, for a view with rows, the elements of lines 115 to 433: those
    that come before the figure of the sub-categories is made, and those
    from its chart on. *)
Definition dashboard_page_start (view : DataFrame) : list element :=
  [columns 4;
   metric "💰 Total Sales" (Fin (total_sales view));
   metric "📈 Total Profit" (Fin (total_profit view));
   metric "📦 Total Orders" (Float.of_nat (total_orders view));
   metric "📊 Avg Profit Margin" (avg_profit_margin view);
   markdown "---";
   subheader "📈 Sales Trends Over Time";
   plotly_chart "fig_trend";
   columns 2;
   subheader "🏷️ Sales by Category";
   plotly_chart "fig_cat";
   subheader "🌍 Sales by Region";
   plotly_chart "fig_region";
   columns 2;
   subheader "🏛️ Top 10 States by Sales";
   plotly_chart "fig_states";
   subheader "👥 Customer Segment Analysis";
   plotly_chart "fig_segment";
   subheader "📦 Product Performance Analysis";
   columns 2;
   write "**Top 10 Products by Sales**";
   plotly_chart "fig_top_products";
   write "**Sub-Category Performance**"].

Definition dashboard_page_rest (std : list float64 → float64)
    (quantile : Qc → list float64 → float64) (view : DataFrame) : list element :=
  [plotly_chart "fig_subcat";
   subheader "🚚 Shipping Analysis";
   columns 2;
   plotly_chart "fig_ship";
   plotly_chart "fig_ship_time";
   subheader "👤 Customer Insights";
   columns 2;
   plotly_chart "fig_customers";
   plotly_chart "fig_cust_dist";
   subheader "📍 Location Analysis";
   plotly_chart "fig_cities";
   subheader "📥 Export Data";
   columns 3;
   download_button "📄 Download Filtered Data as CSV"
     (filtered_csv (with_shipping_days view));
   download_button "📊 Download Summary Statistics"
     (summary_csv std quantile (with_shipping_days view));
   download_button "📈 Download Aggregated Data"
     (agg_csv (with_shipping_days view));
   subheader "📋 Filtered Data Preview";
   dataframe (take 100 (frame_rows view));
   info (len view)].

Definition dashboard_page (std : list float64 → float64)
    (quantile : Qc → list float64 → float64) (view : DataFrame) : list element :=
  dashboard_page_start view ++ dashboard_page_rest std quantile view.

(** And last, when nothing was raised, the rule and the footer. *)
Definition page_bottom : list element := [markdown "---"; markdown footer].

(** The notice of an empty view. *)
Definition no_data : element :=
  warning "No data available for the selected filters. Please adjust your filter criteria.".

(** [Period.year] and [Period.month] of a monthly period, the two
    numbers that [astype(str)] prints as YYYY-MM (line 146). *)
Definition period_year (p : Z) : Z := 1970 + p `div` 12.
Definition period_month (p : Z) : Z := p `mod` 12 + 1.

(** The months counted from March of the year 0, which is how
    [civil_from_days] counts them, and the day number of the first day
    of such a month. *)
Definition month_index (z : Z) : Z :=
  (civil_from_days z).1.1 * 12 + ((civil_from_days z).1.2 - 3).

Definition month_start (p : Z) : Z :=
  let y := p `div` 12 in
  let mp := p `mod` 12 in
  365 * y + y `div` 4 - y `div` 100 + y `div` 400 + (153 * mp + 2) `div` 5 - 719468.

(** An order of January 2023 and one of March 2023. *)
Definition january_order : Csv.row :=
  Sample.order "O-1" 19362 19364 "First Class" "East" "Technology" "Phones" "Ohio" 100 20.
Definition march_order : Csv.row :=
  Sample.order "O-3" 19417 19418 "First Class" "East" "Technology" "Phones" "Ohio" 50 5.

(** * Properties *)

(** ** Masks *)

Section masks.
Context {A : Type}.
Implicit Types (l : list A) (f g : A → bool).

Lemma mask_and_fmap f g l :
  (f <$> l) &&* (g <$> l) = (λ x, f x && g x) <$> l.
Proof.
  induction l as [|x l IH]; csimpl; [done|]. by rewrite IH.
Qed.

Lemma mask_select_fmap f l :
  mask_select (f <$> l) l = filter (λ x, f x = true) l.
Proof.
  unfold mask_select. induction l as [|x l IH]; csimpl; [done|].
  rewrite !filter_cons. simpl. destruct (f x) eqn:Hf.
  - rewrite !decide_True by done. csimpl. by rewrite IH.
  - rewrite !decide_False by done. done.
Qed.

Lemma filter_all (P : A → Prop) `{!∀ x, Decision (P x)} l :
  (∀ x, P x) → filter P l = l.
Proof.
  intros HP. induction l as [|x l IH]; [done|].
  by rewrite filter_cons_True, IH.
Qed.

Lemma filter_none (P : A → Prop) `{!∀ x, Decision (P x)} l :
  (∀ x, ¬ P x) → filter P l = [].
Proof.
  intros HP. induction l as [|x l IH]; [done|].
  by rewrite filter_cons_False.
Qed.

Lemma mask_select_sublist (mask : list bool) l :
  mask_select mask l `sublist_of` l.
Proof.
  unfold mask_select. revert mask.
  induction l as [|x l IH]; intros [|b mask]; csimpl; try done.
  - apply sublist_nil_l.
  - rewrite filter_cons. simpl. destruct b.
    + rewrite decide_True by done. csimpl. by apply sublist_skip.
    + rewrite decide_False by done. by apply sublist_cons.
Qed.
End masks.

(** ** Filter engine *)

Lemma getitem_mask_rows (g : Row → bool) (df : DataFrame) :
  frame_rows (getitem_mask df (g <$> records df))
  = filter (λ x, g x.2 = true) (frame_rows df).
Proof.
  unfold getitem_mask, records. simpl.
  rewrite <- list_fmap_compose. apply (mask_select_fmap (g ∘ snd)).
Qed.

Lemma base_mask_pair (df : DataFrame) start end_ rs cs ss sts :
  base_mask df {| date_range := [start; end_]; regions := rs; categories := cs;
                  segments := ss; states := sts |}
  = inr ((λ r, bool_decide (in_base start end_ rs cs ss r)) <$> records df).
Proof.
  unfold base_mask, series_ge, series_le, isin, column. simpl. f_equal.
  rewrite <- !list_fmap_compose, !mask_and_fmap.
  apply list_fmap_ext. intros _ r _. simpl.
  destruct (decide (in_base start end_ rs cs ss r)) as [Hr|Hr].
  - rewrite (bool_decide_eq_true_2 _ Hr). destruct Hr as (?&?&?&?&?).
    by rewrite !bool_decide_eq_true_2.
  - rewrite (bool_decide_eq_false_2 _ Hr). apply not_true_is_false.
    intros Hb. apply Hr. unfold in_base.
    rewrite !andb_true_iff, !bool_decide_eq_true in Hb. tauto.
Qed.

Lemma filter_states_rows (fd : DataFrame) (c : Criteria) :
  frame_rows (filter_states fd c)
  = filter (λ x, states c ≠ [] → State x.2 ∈ states c) (frame_rows fd).
Proof.
  unfold filter_states, isin, column. destruct (states c) as [|s sts] eqn:E.
  - symmetry. by apply filter_all.
  - rewrite <- list_fmap_compose, getitem_mask_rows.
    apply list_filter_iff. intros x. simpl. rewrite bool_decide_eq_true.
    split; [by intros|]. intros Hx. by apply Hx.
Qed.

Lemma apply_filters_rows (df : DataFrame) start end_ rs cs ss sts :
  ∃ view,
    apply_filters df {| date_range := [start; end_]; regions := rs;
                        categories := cs; segments := ss; states := sts |}
    = inr view
    ∧ frame_rows view
      = filter (λ x, in_view start end_ rs cs ss sts x.2) (frame_rows df).
Proof.
  unfold apply_filters. rewrite base_mask_pair. eexists. split; [done|].
  rewrite filter_states_rows, getitem_mask_rows, list_filter_filter. simpl.
  apply list_filter_iff. intros x. unfold in_view.
  rewrite bool_decide_eq_true. tauto.
Qed.

(** A tuple with fewer than two dates, which the date widget returns
    while the user is choosing the range, stops the script. *)
Lemma apply_filters_short_range (df : DataFrame) (c : Criteria) :
  (length (date_range c) < 2)%nat → apply_filters df c = inl IndexError.
Proof.
  unfold apply_filters, base_mask, tuple_get.
  destruct (date_range c) as [|d0 [|d1 rest]]; simpl; [done|done|lia].
Qed.

(** C1: a row of the dataset is in the filtered view exactly when its
    order date lies in the closed range, its region, category and segment
    are among the selected ones and, with a non-empty selection of
    states, its state is among them; with no state selected the view is
    the dataset filtered without any condition on the state. *)
Theorem filtered_view_membership (df : DataFrame) (start end_ : Z)
    (rs cs ss sts : list string) :
  (∃ view,
     apply_filters df {| date_range := [start; end_]; regions := rs;
                         categories := cs; segments := ss; states := sts |}
     = inr view
     ∧ ∀ i r, (i, r) ∈ frame_rows view ↔
         (i, r) ∈ frame_rows df
         ∧ to_datetime start ≤ Order_Date r ≤ to_datetime end_
         ∧ Region r ∈ rs ∧ Category r ∈ cs ∧ Segment r ∈ ss
         ∧ (sts ≠ [] → State r ∈ sts))
  ∧ (∃ view,
       apply_filters df {| date_range := [start; end_]; regions := rs;
                           categories := cs; segments := ss; states := [] |}
       = inr view
       ∧ frame_rows view
         = filter (λ x, to_datetime start ≤ Order_Date x.2 ≤ to_datetime end_
                        ∧ Region x.2 ∈ rs ∧ Category x.2 ∈ cs ∧ Segment x.2 ∈ ss)
                  (frame_rows df)).
Proof.
  split.
  - destruct (apply_filters_rows df start end_ rs cs ss sts) as (view & Hv & Hrows).
    exists view. split; [done|]. intros i r.
    rewrite Hrows, list_elem_of_filter. unfold in_view, in_base. simpl. tauto.
  - destruct (apply_filters_rows df start end_ rs cs ss []) as (view & Hv & Hrows).
    exists view. split; [done|]. rewrite Hrows.
    apply list_filter_iff. intros x. unfold in_view, in_base. tauto.
Qed.

(** C3: with no region selected, or no category, or no segment, the
    filtered view has no row, whatever the dataset, the dates and the
    other selections are. *)
Theorem empty_selection_matches_nothing (df : DataFrame) (start end_ : Z)
    (rs cs ss sts : list string) :
  (∃ view,
     apply_filters df {| date_range := [start; end_]; regions := [];
                         categories := cs; segments := ss; states := sts |}
     = inr view ∧ len view = 0%nat)
  ∧ (∃ view,
       apply_filters df {| date_range := [start; end_]; regions := rs;
                           categories := []; segments := ss; states := sts |}
       = inr view ∧ len view = 0%nat)
  ∧ (∃ view,
       apply_filters df {| date_range := [start; end_]; regions := rs;
                           categories := cs; segments := []; states := sts |}
       = inr view ∧ len view = 0%nat).
Proof.
  assert (Hnone : ∀ rs' cs' ss',
    (rs' = [] ∨ cs' = [] ∨ ss' = []) →
    ∃ view,
      apply_filters df {| date_range := [start; end_]; regions := rs';
                          categories := cs'; segments := ss'; states := sts |}
      = inr view ∧ len view = 0%nat).
  { intros rs' cs' ss' Hempty.
    destruct (apply_filters_rows df start end_ rs' cs' ss' sts) as (view & Hv & Hrows).
    exists view. split; [done|]. unfold len. rewrite Hrows.
    rewrite filter_none; [done|]. intros x [(_ & _ & Hr & Hc & Hs) _].
    destruct Hempty as [-> | [-> | ->]]; by eapply not_elem_of_nil. }
  split; [|split]; apply Hnone; auto.
Qed.

(** *** Filtering twice *)

Section reselect.
Context {A B : Type}.

Lemma mask_select_all_true (mask : list bool) (l : list A) :
  Forall (λ b, b = true) mask → (length l ≤ length mask)%nat →
  mask_select mask l = l.
Proof.
  unfold mask_select. revert mask.
  induction l as [|x l IH]; intros [|b mask] Hall Hlen; simplify_eq/=;
    try done; try lia.
  apply Forall_cons in Hall as [-> Hall].
  rewrite filter_cons_True by done. csimpl. f_equal. apply IH; [done|lia].
Qed.

Lemma length_mask_select_le (mask : list bool) (l : list A) (k : list B) :
  (length mask ≤ length k)%nat →
  (length (mask_select mask l) ≤ length (mask_select mask k))%nat.
Proof.
  unfold mask_select. revert l k.
  induction mask as [|b mask IH]; intros l [|y k] Hlen; simplify_eq/=;
    try done; try lia.
  destruct l as [|x l]; csimpl; [lia|].
  specialize (IH l k ltac:(lia)). rewrite !filter_cons. simpl.
  destruct b; [rewrite !decide_True by done|rewrite !decide_False by done];
    csimpl; lia.
Qed.
End reselect.

Lemma getitem_mask_aligned (df : DataFrame) (mask : list bool) :
  length mask = length (frame_rows df) → aligned (getitem_mask df mask).
Proof.
  intros Hlen col. unfold getitem_mask. simpl.
  destruct (Shipping_Days df) as [days|]; intros [= <-].
  apply length_mask_select_le. lia.
Qed.

Lemma getitem_mask_all_true (df : DataFrame) (mask : list bool) :
  aligned df → Forall (λ b, b = true) mask →
  length mask = length (frame_rows df) →
  getitem_mask df mask = df.
Proof.
  intros Hal Hall Hlen. destruct df as [rows days]. unfold getitem_mask. simpl in *.
  f_equal.
  - apply mask_select_all_true; [done|lia].
  - destruct days as [col|]; [|done]. simpl. f_equal.
    apply mask_select_all_true; [done|]. rewrite Hlen. by apply Hal.
Qed.

Lemma length_records (df : DataFrame) : length (records df) = length (frame_rows df).
Proof. unfold records. by rewrite length_fmap. Qed.

Lemma filter_states_aligned (fd : DataFrame) (c : Criteria) :
  aligned fd → aligned (filter_states fd c).
Proof.
  intros Hal. unfold filter_states. destruct (states c); [done|].
  apply getitem_mask_aligned. unfold isin, column.
  by rewrite length_fmap, length_fmap, length_records.
Qed.

Lemma filter_states_all (fd : DataFrame) (c : Criteria) :
  aligned fd →
  Forall (λ r, states c ≠ [] → State r ∈ states c) (records fd) →
  filter_states fd c = fd.
Proof.
  intros Hal Hall. unfold filter_states. destruct (states c) as [|s sts] eqn:E; [done|].
  apply getitem_mask_all_true; [done| |].
  - unfold isin, column. rewrite <- list_fmap_compose. apply Forall_fmap.
    eapply Forall_impl; [exact Hall|]. intros r Hr. simpl.
    apply bool_decide_eq_true_2. by apply Hr.
  - unfold isin, column. by rewrite !length_fmap, length_records.
Qed.

(** The view [apply_filters] returns is left as it is by a second
    application of the same criteria. *)
Lemma apply_filters_idempotent (df view : DataFrame) start end_ rs cs ss sts :
  let c := {| date_range := [start; end_]; regions := rs; categories := cs;
              segments := ss; states := sts |} in
  apply_filters df c = inr view → apply_filters view c = inr view.
Proof.
  intros c Hview.
  destruct (apply_filters_rows df start end_ rs cs ss sts) as (view' & Hv & Hrows).
  fold c in Hv. rewrite Hview in Hv. injection Hv as <-.
  assert (Hall : Forall (in_view start end_ rs cs ss sts) (records view)).
  { unfold records. rewrite Hrows. apply Forall_fmap, Forall_forall.
    intros x Hx. by apply list_elem_of_filter in Hx as [Hx _]. }
  assert (Hal : aligned view).
  { unfold apply_filters in Hview. unfold c in Hview. rewrite base_mask_pair in Hview.
    injection Hview as <-. apply filter_states_aligned, getitem_mask_aligned.
    by rewrite length_fmap, length_records. }
  unfold apply_filters, c. rewrite base_mask_pair. f_equal.
  rewrite getitem_mask_all_true; [|done| |].
  - apply filter_states_all; [done|]. simpl.
    eapply Forall_impl; [exact Hall|]. by intros r [_ Hr].
  - apply Forall_fmap. eapply Forall_impl; [exact Hall|]. intros r [Hr _]. simpl.
    by apply bool_decide_eq_true_2.
  - by rewrite length_fmap, length_records.
Qed.

(** C4: the filtered view is made of rows of the dataset, in their order,
    so it has at most as many rows, and filtering the view again with the
    same criteria returns the view itself. *)
Theorem filtered_view_subset_idempotent (df : DataFrame) (start end_ : Z)
    (rs cs ss sts : list string) :
  let c := {| date_range := [start; end_]; regions := rs; categories := cs;
              segments := ss; states := sts |} in
  ∃ view,
    apply_filters df c = inr view
    ∧ frame_rows view `sublist_of` frame_rows df
    ∧ (∀ x, x ∈ frame_rows view → x ∈ frame_rows df)
    ∧ (len view ≤ len df)%nat
    ∧ apply_filters view c = inr view.
Proof.
  intros c.
  destruct (apply_filters_rows df start end_ rs cs ss sts) as (view & Hv & Hrows).
  exists view. split; [done|].
  assert (Hsub : frame_rows view `sublist_of` frame_rows df).
  { rewrite Hrows. apply sublist_filter. }
  repeat split.
  - done.
  - intros x Hx. by eapply elem_of_sublist.
  - by apply sublist_length.
  - by eapply apply_filters_idempotent.
Qed.

(** ** Sorting *)

Section sort_facts.
Context {A : Type} (leb : A → A → bool).
Implicit Types (x : A) (l : list A).

Lemma insert_by_Permutation x l : insert_by leb x l ≡ₚ x :: l.
Proof.
  induction l as [|y l IH]; simpl; [done|].
  destruct (leb x y); [done|]. rewrite IH. apply Permutation_swap.
Qed.

Lemma sort_by_Permutation l : sort_by leb l ≡ₚ l.
Proof.
  induction l as [|x l IH]; simpl; [done|].
  by rewrite insert_by_Permutation, IH.
Qed.

Lemma elem_of_sort_by x l : x ∈ sort_by leb l ↔ x ∈ l.
Proof. by rewrite sort_by_Permutation. Qed.

Lemma NoDup_sort_by l : NoDup l → NoDup (sort_by leb l).
Proof. by rewrite sort_by_Permutation. Qed.

Lemma length_sort_by l : length (sort_by leb l) = length l.
Proof. by rewrite sort_by_Permutation. Qed.
End sort_facts.

(** ** The groups of a grouping *)

Lemma filter_ext_in {A} (P Q : A → Prop) `{!∀ x, Decision (P x), !∀ x, Decision (Q x)}
    (l : list A) :
  (∀ x, x ∈ l → P x ↔ Q x) → filter P l = filter Q l.
Proof.
  induction l as [|x l IH]; intros HPQ; [done|].
  rewrite !filter_cons, IH by (intros y Hy; apply HPQ; by right).
  destruct (decide (P x)) as [HP|HP], (decide (Q x)) as [HQ|HQ]; try done.
  - destruct HQ. apply HPQ; [by left|done].
  - destruct HP. apply HPQ; [by left|done].
Qed.

Lemma elem_of_dropna `{IsNa A} (x : A) (l : list A) :
  x ∈ dropna l ↔ x ∈ l ∧ isna x = false.
Proof. unfold dropna. rewrite list_elem_of_filter. tauto. Qed.

Section group_facts.
Context {R K : Type} `{EqDecision K, KeyOrd K, IsNa K}.
Implicit Types (key : R → K) (rows : list R) (ks : list K).

Lemma NoDup_group_keys key rows : NoDup (group_keys key rows).
Proof. apply NoDup_sort_by, NoDup_remove_dups. Qed.

(** The keys of the groups are the keys of the rows that are not
    missing. *)
Lemma elem_of_group_keys key rows k :
  k ∈ group_keys key rows ↔ isna k = false ∧ ∃ r, r ∈ rows ∧ key r = k.
Proof.
  unfold group_keys.
  rewrite elem_of_sort_by, elem_of_remove_dups, elem_of_dropna, list_elem_of_fmap.
  split; [intros [(r & -> & Hr) Hk]|intros [Hk (r & Hr & <-)]]; eauto.
Qed.

Lemma groupby_keys key rows : (groupby key rows).*1 = group_keys key rows.
Proof.
  unfold groupby. rewrite <- list_fmap_compose. apply list_fmap_id.
Qed.

Lemma elem_of_groupby key rows (g : K * list R) :
  g ∈ groupby key rows ↔
  g.2 = filter (λ r, key r = g.1) rows
  ∧ isna g.1 = false ∧ ∃ r, r ∈ rows ∧ key r = g.1.
Proof.
  unfold groupby. rewrite list_elem_of_fmap. split.
  - intros (k & -> & Hk). simpl. split; [done|]. by apply elem_of_group_keys.
  - intros [Hg Hk]. exists g.1. split.
    + destruct g as [k rs]. simpl in *. by rewrite Hg.
    + by apply elem_of_group_keys.
Qed.

(** Putting a row into the one group it belongs to. *)
Lemma join_one_group (k0 : K) (r : R) (f : K → list R) ks :
  NoDup ks → k0 ∈ ks →
  mjoin ((λ k, if decide (k0 = k) then r :: f k else f k) <$> ks)
  ≡ₚ r :: mjoin (f <$> ks).
Proof.
  induction ks as [|k ks IH]; intros Hnd Hin.
  - by apply elem_of_nil in Hin.
  - apply NoDup_cons in Hnd as [Hk Hnd]. csimpl.
    destruct (decide (k0 = k)) as [->|Hne].
    + assert (Hrest : (λ k', if decide (k = k') then r :: f k' else f k') <$> ks
                      = f <$> ks).
      { apply list_fmap_ext. intros _ k' Hk'%list_elem_of_lookup_2.
        rewrite decide_False; [done|]. by intros <-. }
      by rewrite Hrest.
    + apply elem_of_cons in Hin as [?|Hin]; [done|].
      rewrite IH by done. by rewrite Permutation_middle.
Qed.

(** The rows of the groups of distinct keys, taken together, are the
    rows that have one of these keys. *)
Lemma join_groups key rows ks :
  NoDup ks →
  mjoin ((λ k, filter (λ r, key r = k) rows) <$> ks)
  ≡ₚ filter (λ r, key r ∈ ks) rows.
Proof.
  intros Hnd. induction rows as [|r rows IH].
  - apply Permutation_nil_r, join_nil_2, Forall_fmap, Forall_true. done.
  - rewrite filter_cons. destruct (decide (key r ∈ ks)) as [Hin|Hout].
    + etrans; [|apply Permutation_skip, IH].
      etrans; [|by apply (join_one_group (key r) r)].
      assert (Heq : (λ k, filter (λ r', key r' = k) (r :: rows)) <$> ks
                    = (λ k, if decide (key r = k)
                            then r :: filter (λ r', key r' = k) rows
                            else filter (λ r', key r' = k) rows) <$> ks).
      { apply list_fmap_ext. intros _ k _. by rewrite filter_cons. }
      by rewrite Heq.
    + rewrite <- IH.
      assert (Heq : (λ k, filter (λ r', key r' = k) (r :: rows)) <$> ks
                    = (λ k, filter (λ r', key r' = k) rows) <$> ks).
      { apply list_fmap_ext. intros _ k Hk%list_elem_of_lookup_2.
        rewrite filter_cons, decide_False; [done|]. by intros <-. }
      by rewrite Heq.
Qed.

(** The rows of the groups, taken together, are the rows whose key is
    not missing. *)
Lemma groupby_join key rows :
  mjoin (groupby key rows).*2 ≡ₚ filter (λ r, isna (key r) = false) rows.
Proof.
  unfold groupby. rewrite <- list_fmap_compose.
  etrans; [apply join_groups, NoDup_group_keys|].
  assert (Heq : filter (λ r, key r ∈ group_keys key rows) rows
                = filter (λ r, isna (key r) = false) rows).
  { apply filter_ext_in. intros r Hr. rewrite elem_of_group_keys. split.
    - by intros [Hk _].
    - intros Hk. split; [done|]. by exists r. }
  by rewrite Heq.
Qed.
End group_facts.

(** ** Grouped sales *)





(** ** Top-N selection *)

Section nlargest_facts.
Context {A : Type} (by_ : A → Qc).
Implicit Types (x : A) (l : list A) (v : Qc).

Lemma insert_desc_sorted x l :
  StronglySorted (descending by_) l → StronglySorted (descending by_) (insert_by (desc by_) x l).
Proof.
  induction 1 as [|y l Hl IH Hy]; simpl.
  - repeat constructor.
  - unfold desc at 1. case_bool_decide as Hxy.
    + constructor; [by constructor|]. constructor; [done|].
      eapply Forall_impl; [exact Hy|]. intros z Hz. unfold descending in *.
      by etrans.
    + constructor; [done|].
      rewrite (insert_by_Permutation (desc by_) x l). constructor; [|done].
      apply Qcnot_le_lt in Hxy. by apply Qclt_le_weak.
Qed.

Lemma sort_desc_sorted l : StronglySorted (descending by_) (sort_by (desc by_) l).
Proof.
  induction l as [|x l IH]; simpl; [constructor|]. by apply insert_desc_sorted.
Qed.

(** Stability: the rows of one value keep the order of the input. *)
Lemma insert_desc_stable v x l :
  filter (λ a, by_ a = v) (insert_by (desc by_) x l) = filter (λ a, by_ a = v) (x :: l).
Proof.
  induction l as [|y l IH]; simpl; [done|].
  unfold desc at 1. case_bool_decide as Hxy; [done|].
  rewrite filter_cons, IH, !filter_cons.
  destruct (decide (by_ y = v)) as [Hy|Hy], (decide (by_ x = v)) as [Hx|Hx];
    try done.
  exfalso. apply Hxy. rewrite Hx, Hy. apply Qcle_refl.
Qed.

Lemma sort_desc_stable v l :
  filter (λ a, by_ a = v) (sort_by (desc by_) l) = filter (λ a, by_ a = v) l.
Proof.
  induction l as [|x l IH]; simpl; [done|].
  by rewrite insert_desc_stable, !filter_cons, IH.
Qed.

Lemma prefix_filter (P : A → Prop) `{!∀ a, Decision (P a)} l k :
  l `prefix_of` k → filter P l `prefix_of` filter P k.
Proof. intros [m ->]. rewrite filter_app. by eexists. Qed.
End nlargest_facts.

(** C6: the top-N selection of a grouped result has at most N rows, in
    descending order of the value; its rows are rows of the grouped
    result and no row left out has a larger value than a row selected;
    among the rows of one value it selects the first ones of the input, in
    the order of the input. *)
Theorem nlargest_top_n {A : Type} (by_ : A → Qc) (n : Z) (grouped : list A) :
  let top := nlargest n by_ grouped in
  (Z.of_nat (length top) ≤ Z.max 0 n)
  ∧ length top = (Z.to_nat n `min` length grouped)%nat
  ∧ StronglySorted (descending by_) top
  ∧ top ⊆+ grouped
  ∧ (∀ x, x ∈ top → x ∈ grouped)
  ∧ (∃ rest, top ++ rest ≡ₚ grouped
             ∧ ∀ x y, x ∈ top → y ∈ rest → (by_ y ≤ by_ x)%Qc)
  ∧ (∀ v, filter (λ a, by_ a = v) top `prefix_of` filter (λ a, by_ a = v) grouped).
Proof.
  intros top. unfold top, nlargest.
  pose proof (sort_desc_sorted by_ grouped) as Hsorted.
  pose proof (sort_by_Permutation (desc by_) grouped) as Hperm.
  rewrite <- (take_drop (Z.to_nat n) (sort_by (desc by_) grouped)) in Hsorted.
  assert (Hlen : length (take (Z.to_nat n) (sort_by (desc by_) grouped))
                 = (Z.to_nat n `min` length grouped)%nat).
  { by rewrite length_take, length_sort_by. }
  repeat split.
  - rewrite Hlen. lia.
  - done.
  - by eapply StronglySorted_app_1_l.
  - rewrite <- Hperm at 2. apply submseteq_take.
  - intros x Hx. rewrite <- Hperm.
    eapply elem_of_sublist; [exact Hx|apply sublist_take].
  - exists (drop (Z.to_nat n) (sort_by (desc by_) grouped)). split.
    + by rewrite take_drop.
    + intros x y Hx Hy. by eapply (StronglySorted_app_1_elem_of _ _ _ x y) in Hsorted.
  - intros v. rewrite <- (sort_desc_stable by_ v grouped).
    apply prefix_filter, prefix_take.
Qed.

(** The input of the selection is the grouped result, which lists the
    groups in the order of their keys: of two regions with equal sales the
    one whose name comes first is selected, here the East, although the
    file has the order of the West first. *)
Lemma nlargest_tie_in_key_order :
  region_sales (load_data Sample.west_then_east)
  = [("East"%string, Sample.amount 100); ("West"%string, Sample.amount 100)]
  ∧ nlargest 1 snd (region_sales (load_data Sample.west_then_east))
    = [("East"%string, Sample.amount 100)].
Proof. split; compute_done. Qed.

(** ** Mean profit margin *)

Lemma add_isfinite (x y : float64) :
  isfinite (Float.add x y) = isfinite x && isfinite y.
Proof. by destruct x, y. Qed.

Lemma foldr_add_isfinite (l : list float64) :
  isfinite (foldr Float.add (Fin 0%Qc) l) = forallb isfinite l.
Proof.
  induction l as [|x l IH]; simpl; [done|]. by rewrite add_isfinite, IH.
Qed.

Lemma div_of_nat_isfinite (x : float64) (n : nat) :
  isfinite x = false → isfinite (Float.div x (Float.of_nat n)) = false.
Proof.
  unfold Float.of_nat, Float.of_Z. destruct x; simpl; try done.
  - by destruct (decide _).
  - by destruct (decide _).
Qed.

(** An infinite value in a column makes its mean infinite or NaN. *)
Lemma float_mean_infinite (l : list float64) (x : float64) :
  x ∈ l → isinf x = true → isfinite (float_mean l) = false.
Proof.
  intros Hx Hinf. unfold float_mean.
  assert (Hvalid : x ∈ filter (λ y, isnan y = false) l).
  { apply list_elem_of_filter. split; [by destruct x|done]. }
  destruct (filter _ l) as [|y valid] eqn:E; [done|].
  apply div_of_nat_isfinite. rewrite foldr_add_isfinite.
  apply not_true_is_false. intros Hall.
  rewrite forallb_forall in Hall. apply list_elem_of_In, Hall in Hvalid.
  by destruct x.
Qed.

Lemma percent_ratio_nonzero (p s : Qc) :
  s ≠ 0%Qc → percent_ratio p s = Fin (p / s * Q2Qc (inject_Z 100))%Qc.
Proof. intros Hs. unfold percent_ratio. simpl. by rewrite decide_False. Qed.

Lemma percent_ratio_zero_sales (p : Qc) :
  percent_ratio p 0 = if decide (0 < p)%Qc then PInf
                      else if decide (p < 0)%Qc then NInf else NaN.
Proof.
  unfold percent_ratio. simpl. unfold signed_inf.
  destruct (decide (0 < p)%Qc); [done|]. by destruct (decide (p < 0)%Qc).
Qed.

Lemma percent_ratio_isnan (p s : Qc) :
  isnan (percent_ratio p s) = true ↔ s = 0%Qc ∧ p = 0%Qc.
Proof.
  split.
  - destruct (decide (s = 0%Qc)) as [->|Hs].
    + rewrite percent_ratio_zero_sales.
      destruct (decide (0 < p)%Qc) as [|Hle]; [done|].
      destruct (decide (p < 0)%Qc) as [|Hge]; [done|]. intros _. split; [done|].
      apply Qcnot_lt_le in Hle, Hge. by apply Qcle_antisym.
    + by rewrite percent_ratio_nonzero.
  - intros [-> ->]. by rewrite percent_ratio_zero_sales.
Qed.

Lemma percent_ratio_isinf (p s : Qc) :
  isinf (percent_ratio p s) = true ↔ s = 0%Qc ∧ p ≠ 0%Qc.
Proof.
  split.
  - destruct (decide (s = 0%Qc)) as [->|Hs].
    + intros Hinf. split; [done|]. intros ->. by rewrite percent_ratio_zero_sales in Hinf.
    + by rewrite percent_ratio_nonzero.
  - intros [-> Hp]. rewrite percent_ratio_zero_sales.
    destruct (decide (0 < p)%Qc) as [|Hle]; [done|].
    destruct (decide (p < 0)%Qc) as [|Hge]; [done|]. exfalso. apply Hp.
    apply Qcnot_lt_le in Hle, Hge. by apply Qcle_antisym.
Qed.

Lemma float_mean_filter (l : list float64) :
  float_mean (filter (λ x, isnan x = false) l) = float_mean l.
Proof.
  unfold float_mean. rewrite list_filter_filter.
  by rewrite (list_filter_iff _ (λ x, isnan x = false)) by tauto.
Qed.

Lemma apply_filters_sublist (df view : DataFrame) (c : Criteria) :
  apply_filters df c = inr view → frame_rows view `sublist_of` frame_rows df.
Proof.
  unfold apply_filters. destruct (base_mask df c) as [e|mask]; [done|].
  intros [= <-]. unfold filter_states.
  pose proof (mask_select_sublist mask (frame_rows df)) as Hsub.
  destruct (states c); [done|]. simpl. etrans; [|exact Hsub].
  apply mask_select_sublist.
Qed.

Lemma load_data_derived (csv : list Csv.row) :
  Forall derived (records (load_data csv)).
Proof.
  unfold records, load_data. simpl. rewrite snd_zip.
  - by apply Forall_fmap, Forall_true.
  - rewrite length_seqZ, length_fmap. lia.
Qed.

Lemma apply_filters_derived (csv : list Csv.row) (c : Criteria) (view : DataFrame) :
  apply_filters (load_data csv) c = inr view → Forall derived (records view).
Proof.
  intros Hsub%apply_filters_sublist.
  pose proof (load_data_derived csv) as Hall.
  rewrite Forall_forall in Hall. apply Forall_forall. intros r Hr.
  apply Hall. unfold records in *.
  apply list_elem_of_fmap in Hr as (x & -> & Hx). apply list_elem_of_fmap.
  exists x. split; [done|]. by eapply elem_of_sublist.
Qed.

Lemma derived_margins (rows : list Row) :
  Forall derived rows →
  Profit_Margin <$> rows = (λ r, percent_ratio (Profit r) (Sales r)) <$> rows.
Proof.
  intros Hall. apply list_fmap_ext. intros i r Hr.
  by eapply Forall_lookup_1 in Hall.
Qed.

Lemma of_nat_nonzero (n : nat) : Q2Qc (inject_Z (Z.of_nat (S n))) ≠ 0%Qc.
Proof.
  intros Hz. apply (f_equal Qcanon.this) in Hz. simpl in Hz.
  apply Qred_eq_iff in Hz. unfold Qeq in Hz. simpl in Hz. lia.
Qed.

Lemma foldr_add_Fin (l : list Qc) :
  foldr Float.add (Fin 0%Qc) (Fin <$> l) = Fin (series_sum l).
Proof. induction l as [|x l IH]; csimpl; [done|]. by rewrite IH. Qed.

Lemma filter_notnan_Fin (l : list Qc) :
  filter (λ x, isnan x = false) (Fin <$> l) = Fin <$> l.
Proof.
  induction l as [|x l IH]; csimpl; [done|].
  by rewrite filter_cons_True, IH.
Qed.

(** The mean of a column without special values is the usual mean. *)
Lemma float_mean_finite (l : list Qc) :
  l ≠ [] →
  float_mean (Fin <$> l)
  = Fin (series_sum l / Q2Qc (inject_Z (Z.of_nat (length l))))%Qc.
Proof.
  intros Hl. unfold float_mean. rewrite filter_notnan_Fin.
  destruct l as [|x l]; [done|]. clear Hl. set (k := x :: l).
  change (Fin <$> k) with (Fin x :: (Fin <$> l)) at 1. cbv iota beta.
  rewrite foldr_add_Fin, length_fmap. unfold Float.of_nat, Float.of_Z. simpl.
  rewrite decide_False; [done|]. apply of_nat_nonzero.
Qed.

(** C2, as the script computes it: the average profit margin of a view
    of the loaded data is the mean of the margins profit / sales * 100 of
    its records, leaving out the records with neither sales nor profit,
    whose margin is NaN, and no other record.  With no record without
    sales it is the usual mean of the margins; a record without sales
    and with a profit or a loss has an infinite margin, which is kept and
    makes the average infinite or NaN. *)
Theorem avg_profit_margin_skips_nan_only (csv : list Csv.row) (c : Criteria)
    (view : DataFrame) :
  apply_filters (load_data csv) c = inr view →
  avg_profit_margin view
  = float_mean ((λ r, percent_ratio (Profit r) (Sales r))
                <$> filter (λ r, ¬ (Sales r = 0%Qc ∧ Profit r = 0%Qc)) (records view))
  ∧ ((∀ r, r ∈ records view → Sales r ≠ 0%Qc) → records view ≠ [] →
     avg_profit_margin view
     = Fin (series_sum ((λ r, Profit r / Sales r * Q2Qc (inject_Z 100))%Qc
                        <$> records view)
            / Q2Qc (inject_Z (Z.of_nat (len view))))%Qc)
  ∧ ((∃ r, r ∈ records view ∧ Sales r = 0%Qc ∧ Profit r ≠ 0%Qc) →
     isfinite (avg_profit_margin view) = false).
Proof.
  intros Hview%apply_filters_derived.
  unfold avg_profit_margin, column. rewrite (derived_margins _ Hview).
  split; [|split].
  - rewrite <- float_mean_filter. f_equal.
    generalize (records view). clear. intros rows.
    induction rows as [|r rows IH]; csimpl; [done|].
    rewrite !filter_cons, IH.
    destruct (decide (isnan (percent_ratio (Profit r) (Sales r)) = false)) as [Hn|Hn].
    + rewrite decide_True; [done|]. intros Hz%percent_ratio_isnan. congruence.
    + rewrite decide_False; [done|]. intros Hz. apply Hn.
      apply not_true_is_false. by intros ?%percent_ratio_isnan.
  - intros Hsales Hne.
    assert (Hfin : (λ r, percent_ratio (Profit r) (Sales r)) <$> records view
                   = Fin <$> ((λ r, Profit r / Sales r * Q2Qc (inject_Z 100))%Qc
                              <$> records view)).
    { rewrite <- list_fmap_compose. apply list_fmap_ext. intros i r Hr. simpl.
      apply percent_ratio_nonzero, Hsales. by eapply list_elem_of_lookup_2. }
    rewrite Hfin, float_mean_finite.
    + by rewrite length_fmap, length_records.
    + by destruct (records view).
  - intros (r & Hr & Hs & Hp).
    apply (float_mean_infinite _ (percent_ratio (Profit r) (Sales r))).
    + apply list_elem_of_fmap. eauto.
    + by apply percent_ratio_isinf.
Qed.

Lemma avg_profit_margin_skips_nan_only_witness :
  apply_filters (load_data Sample.zero_sales) Sample.everything
  = inr Sample.zero_sales_view
  ∧ (avg_profit_margin Sample.zero_sales_view
     = float_mean ((λ r, percent_ratio (Profit r) (Sales r))
                   <$> filter (λ r, ¬ (Sales r = 0%Qc ∧ Profit r = 0%Qc))
                         (records Sample.zero_sales_view))
     ∧ ((∀ r, r ∈ records Sample.zero_sales_view → Sales r ≠ 0%Qc) →
        records Sample.zero_sales_view ≠ [] →
        avg_profit_margin Sample.zero_sales_view
        = Fin (series_sum ((λ r, Profit r / Sales r * Q2Qc (inject_Z 100))%Qc
                           <$> records Sample.zero_sales_view)
               / Q2Qc (inject_Z (Z.of_nat (len Sample.zero_sales_view))))%Qc)
     ∧ ((∃ r, r ∈ records Sample.zero_sales_view ∧ Sales r = 0%Qc ∧ Profit r ≠ 0%Qc) →
        isfinite (avg_profit_margin Sample.zero_sales_view) = false)).
Proof.
  assert (H : apply_filters (load_data Sample.zero_sales) Sample.everything
              = inr Sample.zero_sales_view) by (vm_compute; reflexivity).
  split; [exact H|].
  exact (avg_profit_margin_skips_nan_only Sample.zero_sales Sample.everything
           Sample.zero_sales_view H).
Defined.

(** C2 at a view with an order without sales: the average the script
    reports is infinite, the mean of the finite margins is 20. *)
Lemma avg_profit_margin_folds_infinity :
  apply_filters (load_data Sample.zero_sales) Sample.everything
  = inr Sample.zero_sales_view
  ∧ Exists (λ r, Sales r = 0%Qc ∧ Profit r = Sample.amount 10)
           (records Sample.zero_sales_view)
  ∧ avg_profit_margin Sample.zero_sales_view = PInf
  ∧ finite_mean (column Profit_Margin Sample.zero_sales_view)
    = Fin (Sample.amount 20)
  ∧ avg_profit_margin Sample.zero_sales_view
    ≠ finite_mean (column Profit_Margin Sample.zero_sales_view).
Proof. repeat split; compute_done. Qed.
(** ** Sub-category performance *)

(** The margin of a group is computed from the two sums of the group and
    is not the mean of the margins of its records: the two phone orders
    have margins of 20 and 10 percent, and the margin of their group, a
    profit of 25 on sales of 150, is another number. *)
Lemma subcat_margin_not_mean_of_margins :
  ∃ row, row ∈ subcat_data (load_data Sample.three_orders)
    ∧ sc_key row = "Phones"%string
    ∧ sc_Sales row = Sample.amount 150
    ∧ sc_Profit row = Sample.amount 25
    ∧ sc_Profit_Margin row = percent_ratio (sc_Profit row) (sc_Sales row)
    ∧ sc_Profit_Margin row
      ≠ float_mean (Profit_Margin
                    <$> filter (λ r, Sub_Category r = "Phones"%string)
                          (records (load_data Sample.three_orders))).
Proof.
  exists {| sc_key := "Phones"; sc_Sales := Sample.amount 150;
            sc_Profit := Sample.amount 25;
            sc_Profit_Margin := percent_ratio (Sample.amount 25) (Sample.amount 150) |}.
  split.
  - apply (bool_decide_unpack _). vm_compute. exact I.
  - repeat split; compute_done.
Qed.

(** ** The loaded frame in the store *)

Section preservation.
Context (l : nat) (df : DataFrame).

Lemma preserves_ret {A} (a : A) (Q : A → Prop) :
  Q a → preserves l df (mret a) Q.
Proof. intros HQ s Hs. split; [done|]. by intros ? [= <-]. Qed.

Lemma preserves_bind {A B} (m : M A) (k : A → M B) (Q : A → Prop) (Q' : B → Prop) :
  preserves l df m Q →
  (∀ a, Q a → preserves l df (k a) Q') →
  preserves l df (m ≫= k) Q'.
Proof.
  intros Hm Hk s Hs. destruct (Hm s Hs) as [Hs' Ha].
  unfold mbind, M_bind. destruct (m s) as [[e|a] s']; simpl in *; [done|].
  by apply Hk; [apply Ha|].
Qed.

Lemma preserves_lift {A} (r : exn + A) : preserves l df (lift r) (λ _, True).
Proof. by intros s Hs. Qed.

Lemma preserves_emit (e : element) : preserves l df (emit e) (λ _, True).
Proof. by intros s Hs. Qed.

Lemma preserves_get (a : nat) : preserves l df (get a) (λ _, True).
Proof. intros s Hs. unfold get. by destruct (heap s !! a). Qed.

(** A new frame has an address of its own. *)
Lemma preserves_new (d : DataFrame) : preserves l df (new d) (λ a, a ≠ l).
Proof.
  intros s [Hl Hlt]. unfold new, holds. simpl. split.
  - split; [|lia]. rewrite lookup_insert_ne by lia. done.
  - intros a [= <-]. lia.
Qed.

(** An assignment into another frame. *)
Lemma preserves_update (a : nat) (f : DataFrame → DataFrame) :
  a ≠ l → preserves l df (update a f) (λ _, True).
Proof.
  intros Hne s [Hl Hlt]. unfold update, holds.
  destruct (heap s !! a) as [d|]; simpl; [|done].
  by rewrite lookup_insert_ne.
Qed.
End preservation.

Create HintDb preserves discriminated.
#[global] Hint Resolve preserves_ret preserves_lift preserves_emit preserves_get
  preserves_new preserves_update : preserves.

Ltac preserves_step :=
  lazymatch goal with
  | |- preserves _ _ (_ ≫= _) _ =>
      eapply preserves_bind; [solve [eauto with preserves]|intros ? ?]
  | |- preserves _ _ (mret _) _ => by apply preserves_ret
  end.

Section script_facts.
Variable std : list float64 → float64.
Variable quantile : Qc → list float64 → float64.

Lemma widgets_preserves (l : nat) (df : DataFrame) (a : nat) :
  preserves l df (widgets a) (λ _, True).
Proof. unfold widgets. repeat preserves_step. apply preserves_emit. Qed.

Lemma render_preserves (l : nat) (df : DataFrame) (filtered_df : nat) :
  filtered_df ≠ l →
  preserves l df (render std quantile filtered_df) (λ _, True).
Proof. intros Hne. unfold render. repeat preserves_step. Qed.

Lemma dashboard_preserves (l : nat) (df : DataFrame) (a : nat) (c : Criteria) :
  preserves l df (dashboard std quantile a c) (λ _, True).
Proof.
  unfold dashboard. do 3 preserves_step.
  eapply preserves_bind with (Q := λ a, a ≠ l).
  { destruct (states c); [by apply preserves_ret|]. repeat preserves_step.
    apply preserves_new. }
  intros filtered_df Hne. preserves_step.
  destruct (negb (empty _)).
  - eapply preserves_bind; [by apply render_preserves|].
    intros d _. by apply preserves_ret.
  - repeat preserves_step.
Qed.

(** The script from the title on, with the loaded frame at [a]. *)
Lemma script_preserves (l : nat) (df : DataFrame) (a : nat) (c : Criteria) :
  preserves l df
    (emit (markdown main_header);;
     widgets a;;
     d ← dashboard std quantile a c;
     emit (markdown "---");;
     emit (markdown footer);;
     mret d) (λ _, True).
Proof.
  preserves_step.
  eapply preserves_bind; [apply widgets_preserves|intros _ _].
  eapply preserves_bind; [apply dashboard_preserves|intros d _].
  repeat preserves_step.
Qed.

(** C7: a run binds [df] to the frame [load_data] returns, and after the
    run, whatever the criteria are and whether the run ends with a
    dashboard, with the notice of an empty view or with an exception,
    [df] is bound to that very frame, with the rows, the columns and the
    values it had: the selections make new frames and the column
    [Shipping Days] is assigned to the filtered frame. *)
Theorem run_leaves_dataset_unchanged (csv : list Csv.row) (c : Criteria) :
  (new (load_data csv) initial).1 = inr 0%nat
  ∧ heap (new (load_data csv) initial).2 !! 0%nat = Some (load_data csv)
  ∧ heap (run std quantile csv c).2 !! 0%nat = Some (load_data csv).
Proof.
  split; [done|]. split; [apply lookup_insert_eq|].
  set (s1 := {| heap := <[0%nat:=load_data csv]> ∅; next := 1;
                page := [markdown style_sheet] |}).
  assert (Hs1 : holds 0 (load_data csv) s1).
  { split; [apply lookup_insert_eq|simpl; lia]. }
  destruct (script_preserves 0 (load_data csv) 0 c s1 Hs1) as [[Hdf _] _].
  exact Hdf.
Qed.
End script_facts.

(** The assignment of line 312 is seen in the filtered frame, which is
    the second frame of the store, and not in the loaded one. *)
Lemma run_assigns_shipping_days :
  let s := (run (λ _, NaN) (λ _ _, NaN) Sample.three_orders Sample.east_only).2 in
  Shipping_Days <$> heap s !! 0%nat = Some None
  ∧ Shipping_Days <$> heap s !! 1%nat = Some (Some [2; 1]).
Proof. split; compute_done. Qed.

(** ** The outcome of a run *)

Section wp_rules.
Context {A : Type}.
Implicit Types (Q : exn + A → store → Prop) (s : store).

Lemma wp_ret (a : A) Q s : wp (mret a) Q s ↔ Q (inr a) s.
Proof. done. Qed.

Lemma wp_bind {B} (m : M B) (k : B → M A) Q s :
  wp (m ≫= k) Q s
  ↔ wp m (λ r s', match r with
                  | inl e => Q (inl e) s'
                  | inr b => wp (k b) Q s'
                  end) s.
Proof. unfold wp, mbind, M_bind. by destruct (m s) as [[e|b] s']. Qed.

Lemma wp_lift (r : exn + A) Q s : wp (lift r) Q s ↔ Q r s.
Proof. done. Qed.
End wp_rules.

Lemma wp_new (d : DataFrame) (Q : exn + nat → store → Prop) (s : store) :
  wp (new d) Q s
  ↔ Q (inr (next s))
      {| heap := <[next s := d]> (heap s); next := S (next s); page := page s |}.
Proof. done. Qed.

Lemma wp_get (a : nat) (d : DataFrame) (Q : exn + DataFrame → store → Prop) (s : store) :
  heap s !! a = Some d → wp (get a) Q s ↔ Q (inr d) s.
Proof. intros Ha. unfold wp, get. by rewrite Ha. Qed.

Lemma wp_update (a : nat) (f : DataFrame → DataFrame) (d : DataFrame)
    (Q : exn + unit → store → Prop) (s : store) :
  heap s !! a = Some d →
  wp (update a f) Q s
  ↔ Q (inr ()) {| heap := <[a := f d]> (heap s); next := next s; page := page s |}.
Proof. intros Ha. unfold wp, update. by rewrite Ha. Qed.

Lemma wp_emit (e : element) (Q : exn + unit → store → Prop) (s : store) :
  wp (emit e) Q s
  ↔ Q (inr ()) {| heap := heap s; next := next s; page := page s ++ [e] |}.
Proof. done. Qed.

Lemma timedelta_days_to_datetime (a b : Z) :
  timedelta_days (to_datetime a - to_datetime b) = a - b.
Proof.
  unfold timedelta_days, to_datetime. rewrite <- Z.mul_sub_distr_r.
  by apply Z.div_mul.
Qed.

Lemma wp_mono {A} (m : M A) (Q Q' : exn + A → store → Prop) (s : store) :
  wp m Q s → (∀ r s', Q r s' → Q' r s') → wp m Q' s.
Proof. unfold wp. eauto. Qed.

Ltac wp_simpl := cbv beta iota; cbn [heap next page].
Ltac wp_emit := apply wp_bind; apply wp_emit; wp_simpl.
Ltac wp_get H := apply wp_bind; eapply wp_get; [H|]; wp_simpl.

Section render_outcome.
Variable std : list float64 → float64.
Variable quantile : Qc → list float64 → float64.

Lemma date_bounds_span (whole : DataFrame) :
  frame_rows whole ≠ [] → date_bounds whole = inr (date_span whole).
Proof.
  intros Hrows. unfold date_bounds, date_span, column, records.
  by destruct (frame_rows whole).
Qed.

(** The outcome of lines 64 to 100 on a frame with rows: the widgets
    are on the page, the last of them unless its options cannot be
    sorted. *)
Lemma wp_widgets (a : nat) (whole : DataFrame) (s : store) :
  heap s !! a = Some whole →
  frame_rows whole ≠ [] →
  wp (widgets a)
     (λ r s',
        match sorted (unique (column State whole)) with
        | inl e =>
            r = inl e
            ∧ s' = {| heap := heap s; next := next s;
                      page := page s ++ widgets_before_states whole |}
        | inr options =>
            r = inr ()
            ∧ s' = {| heap := heap s; next := next s;
                      page := page s ++ widgets_before_states whole
                              ++ [multiselect "Select State(s)" options []] |}
        end) s.
Proof.
  intros Ha Hrows. unfold widgets. destruct s as [h n p]. cbn [heap next page] in *.
  wp_get ltac:(exact Ha).
  wp_emit.
  apply wp_bind; apply wp_lift. rewrite date_bounds_span by done.
  do 4 wp_emit.
  apply wp_bind; apply wp_lift.
  destruct (sorted (unique (column State whole))) as [e|options].
  - split; [done|]. unfold widgets_before_states. by rewrite <- !app_assoc.
  - apply wp_emit. wp_simpl. split; [done|].
    unfold widgets_before_states. by rewrite <- !app_assoc.
Qed.

(** The outcome of the branch of a non-empty view.  When the figure of
    the sub-categories cannot be made the branch stops there, with the
    elements emitted so far on the page and the view as it was.
    Otherwise there is no exception: the view has its new column in the
    store, the means are computed from that column, the payloads are
    made from the view with the column, and the page has the elements of
    the dashboard. *)
Lemma wp_render (a : nat) (view : DataFrame) (s : store) :
  heap s !! a = Some view →
  wp (render std quantile a)
     (λ r s',
        match scatter (subcat_data view) with
        | inl e =>
            r = inl e
            ∧ s' = {| heap := heap s; next := next s;
                      page := page s ++ dashboard_page_start view |}
        | inr _ =>
            ∃ d, r = inr d
              ∧ ship_time (with_shipping_days view) = inr (d_ship_time d)
              ∧ exports std quantile (with_shipping_days view)
                = (d_csv d, d_summary_csv d, d_agg_csv d)
              ∧ s' = {| heap := <[a := with_shipping_days view]> (heap s);
                        next := next s;
                        page := page s ++ dashboard_page std quantile view |}
        end) s.
Proof.
  intros Ha. unfold render. destruct s as [h n p]. cbn [heap next page] in *.
  wp_get ltac:(exact Ha).
  do 23 wp_emit.
  apply wp_bind; apply wp_lift.
  destruct (scatter (subcat_data view)) as [e|[]].
  { split; [done|]. unfold dashboard_page_start. by rewrite <- !app_assoc. }
  do 4 wp_emit.
  apply wp_bind; eapply wp_update; [exact Ha|]; wp_simpl.
  wp_get ltac:(apply lookup_insert_eq).
  apply wp_bind; apply wp_lift.
  unfold ship_time at 1; cbn [setitem_Shipping_Days Shipping_Days]; wp_simpl.
  fold (with_shipping_days view).
  do 15 wp_emit.
  apply wp_ret. eexists. split; [done|].
  cbn [d_ship_time d_csv d_summary_csv d_agg_csv heap page].
  split; [done|]. split; [done|].
  unfold dashboard_page, dashboard_page_start, dashboard_page_rest.
  by rewrite <- !app_assoc.
Qed.

(** The outcome of lines 103 to 436. *)
Lemma wp_dashboard (df : nat) (whole : DataFrame) (c : Criteria) (s : store) :
  heap s !! df = Some whole →
  wp (dashboard std quantile df c)
     (λ r s',
        match apply_filters whole c with
        | inl e => r = inl e ∧ s' = s
        | inr view =>
            if empty view then r = inr None ∧ page s' = page s ++ [no_data]
            else
              match scatter (subcat_data view) with
              | inl e =>
                  r = inl e ∧ page s' = page s ++ dashboard_page_start view
              | inr _ =>
                  ∃ d a, r = inr (Some d)
                    ∧ heap s' !! a = Some (with_shipping_days view)
                    ∧ ship_time (with_shipping_days view) = inr (d_ship_time d)
                    ∧ exports std quantile (with_shipping_days view)
                      = (d_csv d, d_summary_csv d, d_agg_csv d)
                    ∧ page s' = page s ++ dashboard_page std quantile view
              end
        end) s.
Proof.
  intros Hdf. unfold dashboard, apply_filters.
  destruct s as [h n p]. cbn [heap next page] in *.
  wp_get ltac:(exact Hdf).
  apply wp_bind, wp_lift.
  destruct (base_mask whole c) as [e|mask]; [done|].
  apply wp_bind, wp_new. wp_simpl.
  unfold filter_states.
  assert (Hbranch : ∀ (a : nat) (view : DataFrame) (s : store),
    heap s !! a = Some view →
    page s = p →
    wp (fd ← get a;
        if negb (empty fd)
        then d ← render std quantile a; mret (Some d)
        else emit (warning "No data available for the selected filters. Please adjust your filter criteria.");;
             mret None)
       (λ r s',
          if empty view then r = inr None ∧ page s' = p ++ [no_data]
          else
            match scatter (subcat_data view) with
            | inl e => r = inl e ∧ page s' = p ++ dashboard_page_start view
            | inr _ =>
                ∃ d a, r = inr (Some d)
                  ∧ heap s' !! a = Some (with_shipping_days view)
                  ∧ ship_time (with_shipping_days view) = inr (d_ship_time d)
                  ∧ exports std quantile (with_shipping_days view)
                    = (d_csv d, d_summary_csv d, d_agg_csv d)
                  ∧ page s' = p ++ dashboard_page std quantile view
            end) s).
  { intros a view s Ha Hp. wp_get ltac:(exact Ha).
    destruct (empty view); simpl negb; cbv iota.
    - apply wp_bind, wp_emit. apply wp_ret. by rewrite <- Hp.
    - apply wp_bind. eapply wp_mono; [by apply wp_render|].
      intros r s'. destruct (scatter (subcat_data view)) as [e|[]].
      + intros [-> ->]. by rewrite <- Hp.
      + intros (d & -> & Htime & Hcsv & ->). apply wp_ret.
        exists d, a. rewrite <- Hp. cbn [heap page].
        split; [done|]. split; [apply lookup_insert_eq|done]. }
  destruct (states c) as [|st sts].
  - apply wp_bind, wp_ret. apply Hbranch; [apply lookup_insert_eq|done].
  - apply wp_bind. wp_get ltac:(apply lookup_insert_eq).
    apply wp_new. apply Hbranch; [apply lookup_insert_eq|done].
Qed.
End render_outcome.

(** ** Shipping days *)

Lemma load_data_records (csv : list Csv.row) : records (load_data csv) = derive <$> csv.
Proof.
  unfold records, load_data. simpl. apply snd_zip.
  rewrite length_seqZ, length_fmap. lia.
Qed.

Lemma apply_filters_records (csv : list Csv.row) (c : Criteria) (view : DataFrame) :
  apply_filters (load_data csv) c = inr view →
  ∀ r, r ∈ records view → ∃ t, t ∈ csv ∧ r = derive t.
Proof.
  intros Hsub%apply_filters_sublist r Hr. unfold records in Hr.
  apply list_elem_of_fmap in Hr as (x & -> & Hx).
  assert (Hin : x.2 ∈ records (load_data csv)).
  { apply list_elem_of_fmap. exists x. split; [done|]. by eapply elem_of_sublist. }
  rewrite load_data_records in Hin.
  apply list_elem_of_fmap in Hin as (t & -> & Ht). eauto.
Qed.

Lemma apply_filters_day_dates (csv : list Csv.row) (c : Criteria) (view : DataFrame) :
  apply_filters (load_data csv) c = inr view → Forall day_dates (records view).
Proof.
  intros Hview. apply Forall_forall. intros r Hr.
  destruct (apply_filters_records _ _ _ Hview r Hr) as (t & _ & ->).
  by exists (Csv.Order_Date t), (Csv.Ship_Date t).
Qed.

(** The rows of a group of the frame paired with a column computed from
    its rows carry the column of the rows of the group. *)
Lemma filter_zip_fmap {R B K : Type} `{EqDecision K}
    (key : R → K) (f : R → B) (k : K) (rows : list R) :
  (filter (λ p, key p.1 = k) (zip rows (f <$> rows))).*2
  = f <$> filter (λ r, key r = k) rows.
Proof.
  induction rows as [|r rows IH]; csimpl; [done|].
  rewrite !filter_cons. simpl. destruct (decide (key r = k)); csimpl; by rewrite ?IH.
Qed.

Section shipping.
Variable std : list float64 → float64.
Variable quantile : Qc → list float64 → float64.

Lemma load_data_rows (csv : list Csv.row) :
  csv ≠ [] → frame_rows (load_data csv) ≠ [].
Proof.
  intros Hne Hrows. apply Hne. apply (f_equal length) in Hrows.
  unfold load_data in Hrows. simpl in Hrows.
  rewrite length_zip, length_seqZ, length_fmap in Hrows.
  destruct csv; [done|simpl in Hrows; lia].
Qed.

(** The outcome of a run on a file with rows.  It stops with [TypeError]
    when the states cannot be sorted, with [IndexError] when the range
    has fewer than two dates and with [ValueError] when a sub-category
    has a negative sum of sales; the footer is put on the page when
    nothing is raised. *)
Lemma wp_script (csv : list Csv.row) (c : Criteria) :
  csv ≠ [] →
  wp (script std quantile csv c)
     (λ r s',
        match sorted (unique (column State (load_data csv))) with
        | inl e =>
            r = inl e
            ∧ s' = {| heap := {[0%nat := load_data csv]}; next := 1;
                      page := [markdown style_sheet; markdown main_header]
                              ++ widgets_before_states (load_data csv) |}
        | inr options =>
            match apply_filters (load_data csv) c with
            | inl e =>
                r = inl e
                ∧ s' = {| heap := {[0%nat := load_data csv]}; next := 1;
                          page := page_top (load_data csv) options |}
            | inr view =>
                if empty view
                then r = inr None
                     ∧ page s' = page_top (load_data csv) options
                                 ++ [no_data] ++ page_bottom
                else
                  match scatter (subcat_data view) with
                  | inl e =>
                      r = inl e
                      ∧ page s' = page_top (load_data csv) options
                                  ++ dashboard_page_start view
                  | inr _ =>
                      ∃ d a, r = inr (Some d)
                        ∧ heap s' !! a = Some (with_shipping_days view)
                        ∧ ship_time (with_shipping_days view)
                          = inr (d_ship_time d)
                        ∧ exports std quantile (with_shipping_days view)
                          = (d_csv d, d_summary_csv d, d_agg_csv d)
                        ∧ page s' = page_top (load_data csv) options
                                    ++ dashboard_page std quantile view
                                    ++ page_bottom
                  end
            end
        end) initial.
Proof.
  intros Hne. unfold script, initial.
  wp_emit. apply wp_bind, wp_new. wp_simpl. wp_emit.
  apply wp_bind. eapply wp_mono.
  { apply (wp_widgets 0 (load_data csv)); [apply lookup_insert_eq|].
    by apply load_data_rows. }
  intros r s'. cbn [heap next page].
  destruct (sorted (unique (column State (load_data csv)))) as [e|options].
  { intros [-> ->]. by split. }
  intros [-> ->]. apply wp_bind. eapply wp_mono.
  { apply (wp_dashboard std quantile 0 (load_data csv)). apply lookup_insert_eq. }
  intros r s'. cbn [heap next page].
  assert (Htop : ([] ++ [markdown style_sheet]) ++ [markdown main_header]
                 ++ widgets_before_states (load_data csv)
                 ++ [multiselect "Select State(s)" options []]
                 = page_top (load_data csv) options) by done.
  destruct (apply_filters (load_data csv) c) as [e|view].
  { intros [-> ->]. by split. }
  assert (Hpage : ∀ q,
    ((([] ++ [markdown style_sheet]) ++ [markdown main_header])
     ++ widgets_before_states (load_data csv)
     ++ [multiselect "Select State(s)" options []]) ++ q
    = page_top (load_data csv) options ++ q).
  { intros q. by rewrite <- Htop, <- !app_assoc. }
  destruct (empty view).
  { intros [-> Hp]. do 2 wp_emit. apply wp_ret. split; [done|].
    cbn [page]. rewrite Hp, Hpage. unfold page_bottom. by rewrite <- !app_assoc. }
  destruct (scatter (subcat_data view)) as [e|[]].
  { intros [-> Hp]. split; [done|]. by rewrite Hp, Hpage. }
  intros (d & a & -> & Hheap & Htime & Hcsv & Hp).
  do 2 wp_emit. apply wp_ret. exists d, a. cbn [heap page].
  split; [done|]. split; [done|]. split; [done|]. split; [done|].
  rewrite Hp, Hpage. unfold page_bottom. by rewrite <- !app_assoc.
Qed.

(** A run on a file without rows stops at the first widget. *)
Lemma run_rows (csv : list Csv.row) (c : Criteria) (d : Dashboard) (s : store) :
  run std quantile csv c = (inr (Some d), s) → csv ≠ [].
Proof. intros Hrun ->. by vm_compute in Hrun. Qed.

(** No element of the page of a dashboard is a warning. *)
Lemma warnings_dashboard (whole view : DataFrame) (options : list string) :
  warnings (page_top whole options ++ dashboard_page std quantile view ++ page_bottom)
  = [].
Proof. done. Qed.

(** C8, as the script does it: in a run that shows the dashboard, the
    column assigned to the filtered view holds, for each of its records,
    the ship date minus the order date in days, an exact number of days;
    the mean of a ship mode is taken over the values of all the records
    of that mode, negative values included, and the page carries no
    warning. *)
Theorem shipping_days_whole_days_unchecked (csv : list Csv.row) (c : Criteria)
    (d : Dashboard) (s : store) :
  run std quantile csv c = (inr (Some d), s) →
  ∃ view a,
    apply_filters (load_data csv) c = inr view
    ∧ heap s !! a = Some (with_shipping_days view)
    ∧ Forall2 (λ r days, days = timedelta_days (Ship_Date r - Order_Date r)
                          ∧ Ship_Date r - Order_Date r = days * ns_per_day)
              (records view) (shipping_days view)
    ∧ (∀ k m, (k, m) ∈ d_ship_time d →
         m = int_mean ((λ r, timedelta_days (Ship_Date r - Order_Date r))
                       <$> filter (λ r, Ship_Mode r = k) (records view)))
    ∧ warnings (page s) = [].
Proof.
  intros Hrun. pose proof (run_rows csv c d s Hrun) as Hne.
  pose proof (wp_script csv c Hne) as Hwp.
  unfold wp in Hwp. unfold run in Hrun. rewrite Hrun in Hwp. simpl in Hwp.
  destruct (sorted (unique (column State (load_data csv)))) as [e|options];
    [by destruct Hwp|].
  destruct (apply_filters (load_data csv) c) as [e|view] eqn:Hview;
    [by destruct Hwp|].
  destruct (empty view); [by destruct Hwp|].
  destruct (scatter (subcat_data view)) as [e|[]]; [by destruct Hwp|].
  destruct Hwp as (d' & a & [= <-] & Hheap & Htime & _ & Hpage).
  assert (Hw : warnings (page s) = []).
  { simpl in Hpage. rewrite Hpage. apply warnings_dashboard. }
  exists view, a. repeat split; try done.
  - unfold shipping_days. apply Forall2_fmap_r, Forall_Forall2_diag.
    eapply Forall_impl; [by eapply apply_filters_day_dates|].
    intros r (ordered & shipped & Ho & Hs). simpl. rewrite Ho, Hs.
    split; [done|]. rewrite timedelta_days_to_datetime. unfold to_datetime. lia.
  - intros k m Hkm. unfold ship_time in Htime. simpl in Htime.
    injection Htime as Htime. rewrite <- Htime in Hkm.
    apply list_elem_of_fmap in Hkm as ([k' g] & [= -> ->] & Hg).
    apply elem_of_groupby in Hg as [Hg _]. simpl in *. subst g.
    unfold shipping_days. f_equal. apply (filter_zip_fmap Ship_Mode).
Qed.
End shipping.

Lemma shipping_days_whole_days_unchecked_witness :
  ∃ (d : Dashboard) (s : store),
    run (λ _, NaN) (λ _ _, NaN) Sample.shipped_early Sample.everything
    = (inr (Some d), s)
    ∧ ∃ view a,
        apply_filters (load_data Sample.shipped_early) Sample.everything = inr view
        ∧ heap s !! a = Some (with_shipping_days view)
        ∧ Forall2 (λ r days, days = timedelta_days (Ship_Date r - Order_Date r)
                              ∧ Ship_Date r - Order_Date r = days * ns_per_day)
                  (records view) (shipping_days view)
        ∧ (∀ k m, (k, m) ∈ d_ship_time d →
             m = int_mean ((λ r, timedelta_days (Ship_Date r - Order_Date r))
                           <$> filter (λ r, Ship_Mode r = k) (records view)))
        ∧ warnings (page s) = [].
Proof.
  destruct (run (λ _, NaN) (λ _ _, NaN) Sample.shipped_early Sample.everything)
    as [[e|[d|]] s] eqn:Hrun.
  - vm_compute in Hrun. discriminate Hrun.
  - exists d, s. split; [reflexivity|].
    exact (shipping_days_whole_days_unchecked _ _ _ _ d s Hrun).
  - vm_compute in Hrun. discriminate Hrun.
Defined.

(** C8 at an order shipped three days before it was placed: the column
    holds -3, the mean of the ship mode is -3 and the page has no
    warning. *)
Lemma negative_shipping_days_not_surfaced :
  Shipping_Days
  <$> heap (run (λ _, NaN) (λ _ _, NaN) Sample.shipped_early Sample.everything).2
      !! 1%nat
  = Some (Some [-3])
  ∧ match (run (λ _, NaN) (λ _ _, NaN) Sample.shipped_early Sample.everything).1 with
    | inr (Some d) => Some (d_ship_time d)
    | _ => None
    end
    = Some [("First Class"%string, Fin (Q2Qc (-3 # 1)))]
  ∧ warnings
      (page (run (λ _, NaN) (λ _ _, NaN) Sample.shipped_early Sample.everything).2)
    = [].
Proof. repeat split; compute_done. Qed.

(** ** Export formatter *)

Lemma Forall_zip_with {A B C} (P : C → Prop) (f : A → B → C) (l : list A) (k : list B) :
  (∀ x y, P (f x y)) → Forall P (zip_with f l k).
Proof.
  intros Hf. revert k. induction l as [|x l IH]; intros [|y k]; simpl;
    constructor; auto.
Qed.

Lemma length_shipping_days (fd : DataFrame) :
  length (shipping_days fd) = length (records fd).
Proof. unfold shipping_days. by rewrite length_fmap. Qed.

Section exports.
Variable std : list float64 → float64.
Variable quantile : Qc → list float64 → float64.

(** The payloads of a run that shows the dashboard are those of the
    filtered view with its new column. *)
Lemma run_exports (csv : list Csv.row) (c : Criteria) (d : Dashboard) (s : store) :
  run std quantile csv c = (inr (Some d), s) →
  ∃ view,
    apply_filters (load_data csv) c = inr view
    ∧ exports std quantile (with_shipping_days view)
      = (d_csv d, d_summary_csv d, d_agg_csv d).
Proof.
  intros Hrun. pose proof (run_rows std quantile csv c d s Hrun) as Hne.
  pose proof (wp_script std quantile csv c Hne) as Hwp.
  unfold wp in Hwp. unfold run in Hrun. rewrite Hrun in Hwp. simpl in Hwp.
  destruct (sorted (unique (column State (load_data csv)))) as [e|options];
    [by destruct Hwp|].
  destruct (apply_filters (load_data csv) c) as [e|view] eqn:Hview;
    [by destruct Hwp|].
  destruct (empty view); [by destruct Hwp|].
  destruct (scatter (subcat_data view)) as [e|[]]; [by destruct Hwp|].
  destruct Hwp as (d' & a & [= <-] & _ & _ & Hcsv & _). eauto.
Qed.

(** C9, as the script writes the payloads.  The filtered view and the
    three-key aggregate are written without their index: a header of the
    column names, in the order of the columns, and a line of as many
    values for each row.  The descriptive statistics are written with
    their index: the header starts with a field without a name, before
    the names of the ten columns summarised, and each of the eight lines
    that follow starts with the label of its statistic. *)
Theorem export_payloads_layout (csv : list Csv.row) (c : Criteria)
    (d : Dashboard) (s : store) :
  run std quantile csv c = (inr (Some d), s) →
  ∃ view,
    apply_filters (load_data csv) c = inr view
    ∧ index_free (frame_table (with_shipping_days view)) (d_csv d)
    ∧ head (d_csv d)
      = Some (cstr <$> ["Order Date"; "Ship Date"; "Ship Mode"; "Region";
                        "Category"; "Segment"; "State"; "City"; "Product Name";
                        "Sub-Category"; "Customer Name"; "Customer ID";
                        "Order ID"; "Sales"; "Profit"; "Quantity"; "Discount";
                        "Year"; "Month"; "Month-Year"; "Profit Margin";
                        "Shipping Days"]%string)
    ∧ length (d_csv d) = S (len view)
    ∧ Forall (λ line, length line = 22%nat) (d_csv d)
    ∧ index_free (agg_table (with_shipping_days view)) (d_agg_csv d)
    ∧ head (d_agg_csv d)
      = Some (cstr <$> ["Category"; "Sub-Category"; "Region"; "Sales"; "Profit";
                        "Quantity"; "Order ID"]%string)
    ∧ length (d_agg_csv d) = S (length (agg_data view))
    ∧ Forall (λ line, length line = 7%nat) (d_agg_csv d)
    ∧ head (d_summary_csv d)
      = Some (cstr EmptyString
              :: (cstr <$> ["Order Date"; "Ship Date"; "Sales"; "Profit";
                            "Quantity"; "Discount"; "Year"; "Month";
                            "Profit Margin"; "Shipping Days"]%string))
    ∧ head <$> d_summary_csv d
      = Some <$> (cstr EmptyString
                  :: (cstr <$> ["count"; "mean"; "min"; "25%"; "50%"; "75%";
                                "max"; "std"]%string))
    ∧ Forall (λ line, length line = 11%nat) (d_summary_csv d).
Proof.
  intros (view & Hview & Hcsv)%run_exports. exists view. split; [done|].
  unfold exports in Hcsv. injection Hcsv as <- <- <-.
  repeat split.
  - unfold filtered_csv, frame_table, with_shipping_days. simpl.
    rewrite length_zip_with_l_eq; [by rewrite length_records|].
    by rewrite length_shipping_days.
  - unfold filtered_csv, frame_table, with_shipping_days. simpl.
    constructor; [done|]. apply Forall_zip_with. intros r days.
    by rewrite ?length_app.
  - unfold agg_csv, agg_table. simpl. by rewrite length_fmap.
  - unfold agg_csv, agg_table. simpl. constructor; [done|].
    by apply Forall_fmap, Forall_true.
  - unfold summary_csv, describe, with_shipping_days. simpl.
    by repeat constructor.
Qed.
End exports.

Lemma export_payloads_layout_witness :
  ∃ (d : Dashboard) (s : store),
    run (λ _, NaN) (λ _ _, NaN) Sample.three_orders Sample.east_only
    = (inr (Some d), s)
    ∧ ∃ view,
        apply_filters (load_data Sample.three_orders) Sample.east_only = inr view
        ∧ index_free (frame_table (with_shipping_days view)) (d_csv d)
        ∧ head (d_csv d)
          = Some (cstr <$> ["Order Date"; "Ship Date"; "Ship Mode"; "Region";
                            "Category"; "Segment"; "State"; "City"; "Product Name";
                            "Sub-Category"; "Customer Name"; "Customer ID";
                            "Order ID"; "Sales"; "Profit"; "Quantity"; "Discount";
                            "Year"; "Month"; "Month-Year"; "Profit Margin";
                            "Shipping Days"]%string)
        ∧ length (d_csv d) = S (len view)
        ∧ Forall (λ line, length line = 22%nat) (d_csv d)
        ∧ index_free (agg_table (with_shipping_days view)) (d_agg_csv d)
        ∧ head (d_agg_csv d)
          = Some (cstr <$> ["Category"; "Sub-Category"; "Region"; "Sales";
                            "Profit"; "Quantity"; "Order ID"]%string)
        ∧ length (d_agg_csv d) = S (length (agg_data view))
        ∧ Forall (λ line, length line = 7%nat) (d_agg_csv d)
        ∧ head (d_summary_csv d)
          = Some (cstr EmptyString
                  :: (cstr <$> ["Order Date"; "Ship Date"; "Sales"; "Profit";
                                "Quantity"; "Discount"; "Year"; "Month";
                                "Profit Margin"; "Shipping Days"]%string))
        ∧ head <$> d_summary_csv d
          = Some <$> (cstr EmptyString
                      :: (cstr <$> ["count"; "mean"; "min"; "25%"; "50%"; "75%";
                                    "max"; "std"]%string))
        ∧ Forall (λ line, length line = 11%nat) (d_summary_csv d).
Proof.
  destruct (run (λ _, NaN) (λ _ _, NaN) Sample.three_orders Sample.east_only)
    as [[e|[d|]] s] eqn:Hrun.
  - vm_compute in Hrun. discriminate Hrun.
  - exists d, s. split; [reflexivity|].
    exact (export_payloads_layout _ _ _ _ d s Hrun).
  - vm_compute in Hrun. discriminate Hrun.
Defined.

(** C9 at the orders of the East: the lines of the statistics payload
    are not the names and the values of the columns of the statistics and
    nothing else; each starts with a field of the index. *)
Lemma summary_export_writes_index :
  apply_filters (load_data Sample.three_orders) Sample.east_only
  = inr Sample.east_view
  ∧ ¬ index_free
        (describe (λ _, NaN) (λ _ _, NaN) (with_shipping_days Sample.east_view))
        (summary_payload
           (run (λ _, NaN) (λ _ _, NaN) Sample.three_orders Sample.east_only).1)
  ∧ head
    <$> summary_payload
          (run (λ _, NaN) (λ _ _, NaN) Sample.three_orders Sample.east_only).1
    = Some <$> (cstr EmptyString
                :: (cstr <$> ["count"; "mean"; "min"; "25%"; "50%"; "75%"; "max";
                              "std"]%string)).
Proof. repeat split; compute_done. Qed.

(** ** The scenario of the specification *)

(** Three orders, two of them in the East: with the East selected and a
    date range that covers the three, the view has two records, the total
    sales are 150 and the sales by region are 150 for the East. *)
Lemma east_scenario :
  apply_filters (load_data Sample.three_orders) Sample.east_only
  = inr Sample.east_view
  ∧ len Sample.east_view = 2%nat
  ∧ total_sales Sample.east_view = Sample.amount 150
  ∧ region_sales Sample.east_view = [("East"%string, Sample.amount 150)].
Proof. repeat split; compute_done. Qed.

(** With every region selected the two regions come in the order of
    their names and the top selection puts the larger one first. *)
Lemma all_regions_scenario :
  region_sales (load_data Sample.three_orders)
  = [("East"%string, Sample.amount 150); ("West"%string, Sample.amount 200)]
  ∧ nlargest 1 snd (region_sales (load_data Sample.three_orders))
    = [("West"%string, Sample.amount 200)]
  ∧ nlargest (-1) snd (region_sales (load_data Sample.three_orders)) = [].
Proof. repeat split; compute_done. Qed.

(** * Further properties *)

(** ** The filter as one selection *)

Section select_facts.
Context {A B : Type}.
Implicit Types (l : list A) (k : list B).

Lemma zip_fst_snd (p : list (A * B)) : zip p.*1 p.*2 = p.
Proof. induction p as [|[a b] p IH]; csimpl; by rewrite ?IH. Qed.

Lemma filter_zip_fst (P : A → Prop) `{!∀ a, Decision (P a)} l k :
  (filter (λ x, P x.1) (zip l k)).*1 `sublist_of` l.
Proof.
  revert k. induction l as [|a l IH]; intros [|b k]; csimpl; try done.
  - apply sublist_nil_l.
  - rewrite filter_cons. simpl. destruct (decide (P a)); csimpl.
    + by apply sublist_skip.
    + by apply sublist_cons.
Qed.

(** The entries of a column picked by a mask computed from the rows. *)
Lemma mask_select_zip (g : A → bool) l k :
  mask_select (g <$> l) k = (filter (λ x, g x.1 = true) (zip l k)).*2.
Proof.
  unfold mask_select. revert k.
  induction l as [|a l IH]; intros [|b k]; csimpl; try done.
  rewrite !filter_cons. simpl. destruct (g a) eqn:Hg.
  - rewrite !decide_True by done. csimpl. by rewrite IH.
  - rewrite !decide_False by done. apply IH.
Qed.

(** The rows picked and the entries picked go together. *)
Lemma zip_filter_fst (P : A → Prop) `{!∀ a, Decision (P a)} l k :
  zip (filter P l) (filter (λ x, P x.1) (zip l k)).*2
  = filter (λ x, P x.1) (zip l k).
Proof.
  revert k. induction l as [|a l IH]; intros [|b k]; csimpl; try done.
  - apply zip_with_nil_r.
  - rewrite !filter_cons. simpl. destruct (decide (P a)); csimpl; by rewrite IH.
Qed.
End select_facts.

Lemma getitem_mask_select (g : Row → bool) (df : DataFrame) :
  getitem_mask df (g <$> records df) = select (λ r, g r = true) df.
Proof.
  unfold select. destruct df as [rows days]. unfold getitem_mask, records. simpl.
  f_equal.
  - rewrite <- list_fmap_compose. apply (mask_select_fmap (g ∘ snd)).
  - destruct days as [col|]; [|done]. simpl. f_equal.
    rewrite <- list_fmap_compose. apply (mask_select_zip (g ∘ snd)).
Qed.

Lemma select_ext (P Q : Row → Prop) `{!∀ r, Decision (P r), !∀ r, Decision (Q r)}
    (df : DataFrame) :
  (∀ r, P r ↔ Q r) → select P df = select Q df.
Proof.
  intros HPQ. unfold select. f_equal.
  - apply list_filter_iff. intros x. apply HPQ.
  - destruct (Shipping_Days df) as [col|]; [|done]. simpl. do 2 f_equal.
    apply list_filter_iff. intros x. apply HPQ.
Qed.

Lemma select_True (P : Row → Prop) `{!∀ r, Decision (P r)} (df : DataFrame) :
  aligned df → (∀ r, r ∈ records df → P r) → select P df = df.
Proof.
  intros Hal HP. destruct df as [rows days]. unfold select, records, aligned in *.
  simpl in *. f_equal.
  - clear Hal. induction rows as [|x rows IH]; [done|].
    rewrite filter_cons_True.
    + f_equal. apply IH. intros r Hr. apply HP. csimpl. by right.
    + apply HP. csimpl. by left.
  - destruct days as [col|]; [|done]. simpl. f_equal.
    specialize (Hal col eq_refl). revert col Hal.
    induction rows as [|x rows IH]; intros [|d col] Hlen; csimpl in *; try done; try lia.
    rewrite filter_cons_True.
    + csimpl. f_equal. apply IH; [|lia]. intros r Hr. apply HP. by right.
    + apply HP. simpl. by left.
Qed.

(** Two selections in a row are the selection of the rows that pass
    both. *)
Lemma select_select (P Q : Row → Prop) `{!∀ r, Decision (P r), !∀ r, Decision (Q r)}
    (df : DataFrame) :
  select Q (select P df) = select (λ r, P r ∧ Q r) df.
Proof.
  unfold select. simpl. f_equal.
  - rewrite list_filter_filter. apply list_filter_iff. intros x. tauto.
  - destruct (Shipping_Days df) as [col|]; [|done]. simpl. f_equal.
    pose proof (zip_filter_fst (λ x : Z * Row, P x.2) (frame_rows df) col) as Hzip.
    simpl in Hzip. rewrite Hzip, list_filter_filter.
    f_equal. apply list_filter_iff. intros x. tauto.
Qed.

(** The filter is the selection of the rows the criteria accepts; it
    raises [IndexError] exactly when the range has fewer than two
    dates. *)
Lemma apply_filters_select (df : DataFrame) (c : Criteria) :
  apply_filters df c
  = if decide (2 ≤ length (date_range c))%nat then inr (select (accepts c) df)
    else inl IndexError.
Proof.
  destruct c as [dates rs cs ss sts]. simpl.
  destruct dates as [|start [|end_ rest]]; try done.
  rewrite decide_True by (simpl; lia).
  unfold apply_filters, base_mask, tuple_get. simpl. f_equal.
  assert (Hmask : series_ge (column Order_Date df) (to_datetime start)
                  &&* series_le (column Order_Date df) (to_datetime end_)
                  &&* isin (column Region df) rs
                  &&* isin (column Category df) cs
                  &&* isin (column Segment df) ss
                  = (λ r, bool_decide (in_base start end_ rs cs ss r)) <$> records df).
  { pose proof (base_mask_pair df start end_ rs cs ss sts) as Hb.
    unfold base_mask, tuple_get in Hb. simpl in Hb. by injection Hb. }
  rewrite Hmask, getitem_mask_select. unfold filter_states. simpl.
  destruct sts as [|st sts].
  - apply select_ext. intros r. unfold accepts, in_view. simpl.
    rewrite bool_decide_eq_true. tauto.
  - unfold isin, column. rewrite <- list_fmap_compose.
    rewrite getitem_mask_select, select_select.
    apply select_ext. intros r. unfold accepts, in_view. simpl.
    rewrite !bool_decide_eq_true. split; [tauto|]. intros [? Hst]. split; [done|].
    by apply Hst.
Qed.

(** X1: filtering a view again with other criteria keeps the rows of the
    dataset that both criteria accept, and the two filters can be applied
    in either order: the resulting frame is the same. *)
Theorem filters_compose (df v1 v12 : DataFrame) (c1 c2 : Criteria) :
  apply_filters df c1 = inr v1 →
  apply_filters v1 c2 = inr v12 →
  frame_rows v12
  = filter (λ x, accepts c1 x.2 ∧ accepts c2 x.2) (frame_rows df)
  ∧ ∃ v2, apply_filters df c2 = inr v2 ∧ apply_filters v2 c1 = inr v12.
Proof.
  rewrite !apply_filters_select.
  destruct (decide (2 ≤ length (date_range c1))%nat); [|done].
  destruct (decide (2 ≤ length (date_range c2))%nat); [|done].
  intros [= <-] [= <-]. rewrite (select_select (accepts c1) (accepts c2)).
  split; [done|]. eexists. split; [done|].
  rewrite apply_filters_select, decide_True by done.
  rewrite (select_select (accepts c2) (accepts c1)). f_equal.
  apply select_ext. intros r. tauto.
Qed.

Lemma filters_compose_witness :
  apply_filters (load_data Sample.three_orders) More.technology
  = inr Sample.east_view
  ∧ apply_filters Sample.east_view More.east_january
    = inr (getitem_mask (load_data Sample.three_orders) [true; false; false])
  ∧ (frame_rows (getitem_mask (load_data Sample.three_orders) [true; false; false])
     = filter (λ x, accepts More.technology x.2 ∧ accepts More.east_january x.2)
         (frame_rows (load_data Sample.three_orders))
     ∧ ∃ v2, apply_filters (load_data Sample.three_orders) More.east_january = inr v2
             ∧ apply_filters v2 More.technology
               = inr (getitem_mask (load_data Sample.three_orders)
                        [true; false; false])).
Proof.
  assert (H1 : apply_filters (load_data Sample.three_orders) More.technology
               = inr Sample.east_view) by (vm_compute; reflexivity).
  assert (H2 : apply_filters Sample.east_view More.east_january
               = inr (getitem_mask (load_data Sample.three_orders)
                        [true; false; false])) by (vm_compute; reflexivity).
  split; [exact H1|]. split; [exact H2|].
  exact (filters_compose _ _ _ _ _ H1 H2).
Defined.

(** X2: wider criteria give a wider view: with a range that contains the
    other, with more regions, categories and segments selected and with
    either no state selected or more states than a non-empty selection,
    the view contains, in order, every row of the narrower view. *)
Theorem wider_criteria_wider_view (df v v' : DataFrame) (c c' : Criteria)
    (start end_ start' end_' : Z) :
  date_range c = [start; end_] →
  date_range c' = [start'; end_'] →
  start' ≤ start → end_ ≤ end_' →
  regions c ⊆ regions c' →
  categories c ⊆ categories c' →
  segments c ⊆ segments c' →
  (states c' = [] ∨ (states c ≠ [] ∧ states c ⊆ states c')) →
  apply_filters df c = inr v →
  apply_filters df c' = inr v' →
  frame_rows v `sublist_of` frame_rows v' ∧ (len v ≤ len v')%nat.
Proof.
  intros Hd Hd' Hs He Hr Hc Hg Hst. rewrite !apply_filters_select, Hd, Hd'. simpl.
  intros [= <-] [= <-].
  assert (Hsub : frame_rows (select (accepts c) df)
                 `sublist_of` frame_rows (select (accepts c') df)).
  { simpl.
    rewrite (list_filter_iff (λ x : Z * Row, accepts c x.2)
               (λ x, accepts c x.2 ∧ accepts c' x.2)).
    - rewrite <- list_filter_filter. apply sublist_filter.
    - intros x. split; [|tauto]. intros Hx. split; [done|].
      unfold accepts, in_view, in_base in *. rewrite Hd in Hx. rewrite Hd'.
      destruct Hx as [(H1 & H2 & H3 & H4 & H5) H6].
      unfold to_datetime, ns_per_day in *.
      split; [split; [lia|split; [lia|split; [by apply Hr|split; [by apply Hc|by apply Hg]]]]|].
      intros Hne. destruct Hst as [Hnil|[Hne' Hsts]]; [congruence|].
      apply Hsts, H6, Hne'. }
  split; [done|]. by apply sublist_length.
Qed.

Lemma wider_criteria_wider_view_witness :
  date_range More.east_january = [19358; 19388]
  ∧ date_range Sample.east_only = [19358; 19722]
  ∧ 19358 ≤ 19358 ∧ 19388 ≤ 19722
  ∧ regions More.east_january ⊆ regions Sample.east_only
  ∧ categories More.east_january ⊆ categories Sample.east_only
  ∧ segments More.east_january ⊆ segments Sample.east_only
  ∧ (states Sample.east_only = []
     ∨ (states More.east_january ≠ []
        ∧ states More.east_january ⊆ states Sample.east_only))
  ∧ apply_filters (load_data Sample.three_orders) More.east_january
    = inr (getitem_mask (load_data Sample.three_orders) [true; false; false])
  ∧ apply_filters (load_data Sample.three_orders) Sample.east_only
    = inr Sample.east_view
  ∧ (frame_rows (getitem_mask (load_data Sample.three_orders) [true; false; false])
     `sublist_of` frame_rows Sample.east_view
     ∧ (len (getitem_mask (load_data Sample.three_orders) [true; false; false])
        ≤ len Sample.east_view)%nat).
Proof.
  assert (Hr : regions More.east_january ⊆ regions Sample.east_only).
  { intros x Hx. exact Hx. }
  assert (Hc : categories More.east_january ⊆ categories Sample.east_only).
  { intros x Hx. exact Hx. }
  assert (Hg : segments More.east_january ⊆ segments Sample.east_only).
  { intros x Hx. exact Hx. }
  assert (Hst : states Sample.east_only = []
                ∨ (states More.east_january ≠ []
                   ∧ states More.east_january ⊆ states Sample.east_only)).
  { left. reflexivity. }
  assert (H1 : apply_filters (load_data Sample.three_orders) More.east_january
               = inr (getitem_mask (load_data Sample.three_orders)
                        [true; false; false])) by (vm_compute; reflexivity).
  assert (H2 : apply_filters (load_data Sample.three_orders) Sample.east_only
               = inr Sample.east_view) by (vm_compute; reflexivity).
  repeat (split; [first [reflexivity|lia|assumption]|]).
  exact (wider_criteria_wider_view _ _ _ More.east_january Sample.east_only
           19358 19388 19358 19722
           eq_refl eq_refl ltac:(lia) ltac:(lia) Hr Hc Hg Hst H1 H2).
Defined.

(** X3: a range whose end comes before its start keeps no row: the view is
    empty, nothing is raised. *)
Theorem backwards_range_empty_view (df : DataFrame) (c : Criteria)
    (start end_ : Z) (rest : list Z) :
  date_range c = start :: end_ :: rest →
  end_ < start →
  ∃ view, apply_filters df c = inr view ∧ len view = 0%nat.
Proof.
  intros Hd Hlt. rewrite apply_filters_select, Hd. simpl.
  eexists. split; [done|]. unfold len. simpl.
  rewrite filter_none; [done|]. intros x. unfold accepts, in_view, in_base.
  rewrite Hd. unfold to_datetime, ns_per_day. lia.
Qed.

Lemma backwards_range_empty_view_witness :
  date_range More.backwards = 19722 :: 19358 :: []
  ∧ 19358 < 19722
  ∧ ∃ view, apply_filters (load_data Sample.three_orders) More.backwards = inr view
            ∧ len view = 0%nat.
Proof.
  split; [reflexivity|]. split; [lia|].
  apply (backwards_range_empty_view _ _ 19722 19358 []); [reflexivity|lia].
Defined.

(** ** The default selection *)

Section unique_facts.
Context {A : Type} `{EqDecision A}.
Implicit Types (x : A) (l : list A).

Lemma elem_of_unique x l : x ∈ unique l ↔ x ∈ l.
Proof.
  induction l as [|y l IH]; simpl; [done|].
  rewrite !elem_of_cons, list_elem_of_filter, IH.
  destruct (decide (x = y)); tauto.
Qed.

Lemma NoDup_unique l : NoDup (unique l).
Proof.
  induction l as [|y l IH]; simpl; [constructor|].
  constructor; [|by apply NoDup_filter].
  rewrite list_elem_of_filter. tauto.
Qed.
End unique_facts.

Lemma series_min_spec (l : list Z) (m : Z) :
  series_min l = Some m → m ∈ l ∧ ∀ x, x ∈ l → m ≤ x.
Proof.
  destruct l as [|y l]; [done|]. simpl. intros [= <-].
  induction l as [|z l [IHin IHle]]; simpl.
  - split; [by left|]. intros x ->%list_elem_of_singleton. lia.
  - split.
    + destruct (Z.min_spec z (foldr Z.min y l)) as [[_ ->]|[_ ->]].
      * right. by left.
      * apply elem_of_cons in IHin as [->|?]; [by left|]. right. by right.
    + intros x. rewrite !elem_of_cons. intros [->|[->|Hx]].
      * specialize (IHle y ltac:(by left)). lia.
      * lia.
      * specialize (IHle x ltac:(by right)). lia.
Qed.

Lemma series_max_spec (l : list Z) (m : Z) :
  series_max l = Some m → m ∈ l ∧ ∀ x, x ∈ l → x ≤ m.
Proof.
  destruct l as [|y l]; [done|]. simpl. intros [= <-].
  induction l as [|z l [IHin IHle]]; simpl.
  - split; [by left|]. intros x ->%list_elem_of_singleton. lia.
  - split.
    + destruct (Z.max_spec z (foldr Z.max y l)) as [[_ ->]|[_ ->]].
      * apply elem_of_cons in IHin as [->|?]; [by left|]. right. by right.
      * right. by left.
    + intros x. rewrite !elem_of_cons. intros [->|[->|Hx]].
      * specialize (IHle y ltac:(by left)). lia.
      * lia.
      * specialize (IHle x ltac:(by right)). lia.
Qed.

Lemma date_of_to_datetime (d : Z) : date_of (to_datetime d) = d.
Proof. unfold date_of, to_datetime. by apply Z.div_mul. Qed.

Lemma load_data_aligned (csv : list Csv.row) : aligned (load_data csv).
Proof. by intros col. Qed.

Lemma load_data_column {A} (f : Row → A) (csv : list Csv.row) :
  column f (load_data csv) = (λ t, f (derive t)) <$> csv.
Proof. unfold column. by rewrite load_data_records, <- list_fmap_compose. Qed.

(** Sorting the states raises exactly when a state is missing and
    another is not. *)
Lemma sorted_states (csv : list Csv.row) :
  sorted (unique (column State (load_data csv)))
  = if decide (Exists (λ t, Csv.State t = EmptyString) csv
               ∧ Exists (λ t, Csv.State t ≠ EmptyString) csv)
    then inl TypeError
    else inr (state_options (load_data csv)).
Proof.
  unfold sorted, state_options. rewrite load_data_column. simpl.
  assert (Hiff : EmptyString ∈ unique (Csv.State <$> csv)
                 ∧ Exists (λ v, v ≠ EmptyString) (unique (Csv.State <$> csv))
                 ↔ Exists (λ t, Csv.State t = EmptyString) csv
                   ∧ Exists (λ t, Csv.State t ≠ EmptyString) csv).
  { rewrite elem_of_unique, list_elem_of_fmap, !Exists_exists.
    setoid_rewrite elem_of_unique. setoid_rewrite list_elem_of_fmap.
    split.
    - intros [(t & Ht & Hin) (v & (t' & -> & Hin') & Hv)]. split; eauto.
    - intros [(t & Hin & Ht) (t' & Hin' & Ht')]. split; [eauto|].
      exists (Csv.State t'). eauto. }
  destruct (decide (EmptyString ∈ _ ∧ _)) as [H1|H1],
    (decide (Exists _ csv ∧ _)) as [H2|H2]; try done.
  - destruct H2. by apply Hiff.
  - destruct H1. by apply Hiff.
Qed.

Lemma sorted_sortable (csv : list Csv.row) :
  sortable_states csv →
  sorted (unique (column State (load_data csv)))
  = inr (state_options (load_data csv)).
Proof.
  intros Hstates. rewrite sorted_states, decide_False; [done|].
  rewrite !Exists_exists. intros [(t & Ht & Hmiss) (t' & Ht' & Hthere)].
  destruct Hstates as [Hall|Hall]; rewrite Forall_forall in Hall.
  - by apply (Hall t).
  - by apply Hthere, Hall.
Qed.

(** X4: with the widgets left as they are, the filtered view is the loaded
    frame itself.  For a file with at least one row whose states are all
    there, or all missing, sorting the states raises nothing, the default
    values list each region, category and segment once and select no
    state, and every row passes the default range and the default
    selections: a row with a missing region, category or segment does
    too, since the default selection holds the missing value. *)
Theorem default_criteria_keep_everything (csv : list Csv.row) :
  csv ≠ [] →
  sortable_states csv →
  ∃ c, default_criteria (load_data csv) = inr c
       ∧ NoDup (regions c) ∧ NoDup (categories c) ∧ NoDup (segments c)
       ∧ states c = []
       ∧ apply_filters (load_data csv) c = inr (load_data csv).
Proof.
  intros Hne Hstates. unfold default_criteria, date_bounds.
  rewrite sorted_sortable by done.
  assert (Hdates : column Order_Date (load_data csv)
                   = to_datetime <$> (Csv.Order_Date <$> csv)).
  { unfold column. rewrite load_data_records, <- !list_fmap_compose. done. }
  destruct (series_min (column Order_Date (load_data csv))) as [first|] eqn:Hmin;
    [|rewrite Hdates in Hmin; by destruct csv].
  destruct (series_max (column Order_Date (load_data csv))) as [last|] eqn:Hmax;
    [|rewrite Hdates in Hmax; by destruct csv].
  apply series_min_spec in Hmin as [Hfirst Hmin].
  apply series_max_spec in Hmax as [Hlast Hmax].
  eexists. split; [done|]. simpl.
  repeat (split; [apply NoDup_unique|]). split; [done|].
  rewrite apply_filters_select. simpl. f_equal.
  apply select_True; [apply load_data_aligned|].
  intros r Hr. unfold accepts, in_view, in_base. simpl.
  rewrite Hdates in Hfirst, Hlast.
  apply list_elem_of_fmap in Hfirst as (d1 & -> & _).
  apply list_elem_of_fmap in Hlast as (d2 & -> & _).
  rewrite !date_of_to_datetime.
  assert (Hin : ∀ (f : Row → string), f r ∈ unique (column f (load_data csv))).
  { intros f. apply elem_of_unique, list_elem_of_fmap. eauto. }
  assert (Hdate : Order_Date r ∈ column Order_Date (load_data csv)).
  { apply list_elem_of_fmap. eauto. }
  split; [|done]. repeat split; auto.
Qed.

Lemma default_criteria_keep_everything_witness :
  ∃ c, default_criteria (load_data More.blank_region) = inr c
       ∧ NoDup (regions c) ∧ NoDup (categories c) ∧ NoDup (segments c)
       ∧ states c = []
       ∧ apply_filters (load_data More.blank_region) c
         = inr (load_data More.blank_region).
Proof.
  assert (H1 : More.blank_region ≠ []) by discriminate.
  assert (H2 : sortable_states More.blank_region).
  { apply (bool_decide_unpack _). vm_compute. exact I. }
  exact (default_criteria_keep_everything More.blank_region H1 H2).
Defined.

(** ** The labels of the rows *)

Lemma StronglySorted_sublist {A} (R : relation A) (l k : list A) :
  l `sublist_of` k → StronglySorted R k → StronglySorted R l.
Proof.
  induction 1 as [|x l k Hsub IH|x l k Hsub IH]; intros Hk.
  - constructor.
  - inversion Hk as [|? ? Hk' Hx]; subst. constructor; [by apply IH|].
    apply Forall_forall. intros y Hy. rewrite Forall_forall in Hx. apply Hx.
    by eapply elem_of_sublist.
  - inversion Hk as [|? ? Hk' Hx]; subst. by apply IH.
Qed.

Lemma StronglySorted_seqZ (m : Z) (n : nat) :
  StronglySorted Z.lt (seqZ m (Z.of_nat n)).
Proof.
  revert m. induction n as [|n IH]; intros m.
  - rewrite seqZ_nil by lia. constructor.
  - rewrite seqZ_cons by lia. replace (Z.pred (Z.of_nat (S n))) with (Z.of_nat n) by lia.
    constructor; [apply IH|]. apply Forall_seqZ. intros. lia.
Qed.

(** X5: a row of the view carries the label it had in the loaded frame,
    which is its position in the file: the labels of a view are the
    positions of its rows, distinct and in increasing order. *)
Theorem view_keeps_file_positions (csv : list Csv.row) (c : Criteria)
    (view : DataFrame) :
  apply_filters (load_data csv) c = inr view →
  StronglySorted Z.lt (frame_rows view).*1
  ∧ NoDup (frame_rows view).*1
  ∧ ∀ i r, (i, r) ∈ frame_rows view →
      0 ≤ i ∧ ∃ t, csv !! Z.to_nat i = Some t ∧ r = derive t.
Proof.
  intros Hsub%apply_filters_sublist.
  assert (Hlabels : (frame_rows view).*1 `sublist_of` seqZ 0 (Z.of_nat (length csv))).
  { unfold load_data in Hsub. simpl in Hsub.
    rewrite <- (fst_zip (seqZ 0 (Z.of_nat (length csv))) (derive <$> csv)).
    - by apply fmap_sublist.
    - rewrite length_seqZ, length_fmap. lia. }
  split; [|split].
  - eapply StronglySorted_sublist; [exact Hlabels|apply StronglySorted_seqZ].
  - eapply sublist_NoDup; [apply NoDup_seqZ|exact Hlabels].
  - intros i r Hir. eapply elem_of_sublist in Hir; [|exact Hsub].
    unfold load_data in Hir. simpl in Hir.
    apply elem_of_lookup_zip_with in Hir as (n & i' & r' & [= <- <-] & Hi & Hr).
    apply lookup_seqZ in Hi as [-> Hn].
    rewrite list_lookup_fmap in Hr.
    destruct (csv !! n) as [t|] eqn:Ht; [|done]. injection Hr as <-.
    split; [lia|]. exists t. split; [|done].
    by replace (Z.to_nat (0 + Z.of_nat n)) with n by lia.
Qed.

Lemma view_keeps_file_positions_witness :
  apply_filters (load_data Sample.three_orders) Sample.east_only
  = inr Sample.east_view
  ∧ (StronglySorted Z.lt (frame_rows Sample.east_view).*1
     ∧ NoDup (frame_rows Sample.east_view).*1
     ∧ ∀ i r, (i, r) ∈ frame_rows Sample.east_view →
         0 ≤ i ∧ ∃ t, Sample.three_orders !! Z.to_nat i = Some t ∧ r = derive t).
Proof.
  assert (H : apply_filters (load_data Sample.three_orders) Sample.east_only
              = inr Sample.east_view) by (vm_compute; reflexivity).
  split; [exact H|].
  exact (view_keeps_file_positions _ _ _ H).
Defined.
(** ** The outcomes of a run *)

Section outcomes.
Variable std : list float64 → float64.
Variable quantile : Qc → list float64 → float64.

(** A view with rows is a view of a file with rows. *)
Lemma view_rows (csv : list Csv.row) (c : Criteria) (view : DataFrame) :
  apply_filters (load_data csv) c = inr view → len view ≠ 0%nat → csv ≠ [].
Proof.
  intros Hview Hlen ->. apply Hlen.
  apply apply_filters_sublist in Hview. unfold len.
  by apply sublist_nil_r in Hview as ->.
Qed.

(** X25: a file in which the state of a row is missing and the state of
    another is not stops every run with [TypeError] where the options of
    the last widget are sorted (line 98): the script has put the style
    sheet, the title and the other widgets on the page, the store holds
    the loaded frame and nothing else, and no filter is applied. *)
Theorem run_states_not_sortable (csv : list Csv.row) (c : Criteria) :
  Exists (λ t, Csv.State t = EmptyString) csv →
  Exists (λ t, Csv.State t ≠ EmptyString) csv →
  default_criteria (load_data csv) = inl TypeError
  ∧ run std quantile csv c
    = (inl TypeError,
       {| heap := {[0%nat := load_data csv]}; next := 1;
          page := [markdown style_sheet; markdown main_header]
                  ++ widgets_before_states (load_data csv) |}).
Proof.
  intros Hmiss Hthere.
  assert (Hsorted : sorted (unique (column State (load_data csv))) = inl TypeError).
  { rewrite sorted_states. by rewrite decide_True. }
  assert (Hne : csv ≠ []).
  { intros ->. by apply Exists_nil in Hmiss. }
  split.
  { unfold default_criteria.
    rewrite (date_bounds_span _ (load_data_rows _ Hne)). simpl.
    by rewrite Hsorted. }
  pose proof (wp_script std quantile csv c Hne) as Hwp.
  unfold wp in Hwp. rewrite Hsorted in Hwp. destruct Hwp as [Hr Hs].
  unfold run. destruct (script std quantile csv c initial) as [r s].
  simpl in *. by subst.
Qed.

(** X6: while the user has chosen fewer than two dates, a run on a file
    with rows stops with [IndexError] at the first selection (line 104):
    the script has put the style sheet, the title and the widgets on the
    page, the store holds the loaded frame and nothing else. *)
Theorem run_unfinished_range (csv : list Csv.row) (c : Criteria) :
  csv ≠ [] →
  sortable_states csv →
  (length (date_range c) < 2)%nat →
  run std quantile csv c
  = (inl IndexError,
     {| heap := {[0%nat := load_data csv]}; next := 1;
        page := page_top (load_data csv) (state_options (load_data csv)) |}).
Proof.
  intros Hne Hstates Hlen.
  assert (Hview : apply_filters (load_data csv) c = inl IndexError).
  { unfold apply_filters, base_mask, tuple_get.
    destruct (date_range c) as [|d0 [|d1 rest]]; simpl in *; [done|done|lia]. }
  pose proof (wp_script std quantile csv c Hne) as Hwp.
  unfold wp in Hwp. rewrite (sorted_sortable _ Hstates), Hview in Hwp.
  destruct Hwp as [Hr Hs].
  unfold run. destruct (script std quantile csv c initial) as [r s].
  simpl in *. by subst.
Qed.

(** X7: with an empty filtered view of a file with rows the script
    computes no summary: the run returns nothing, and the page holds the
    style sheet, the title and the widgets, then the notice of missing
    data and the footer, with no metric, chart, download or table
    between them. *)
Theorem run_empty_view (csv : list Csv.row) (c : Criteria) (view : DataFrame) :
  csv ≠ [] →
  sortable_states csv →
  apply_filters (load_data csv) c = inr view →
  len view = 0%nat →
  (run std quantile csv c).1 = inr None
  ∧ page (run std quantile csv c).2
    = page_top (load_data csv) (state_options (load_data csv))
      ++ [no_data] ++ page_bottom.
Proof.
  intros Hne Hstates Hview Hlen.
  pose proof (wp_script std quantile csv c Hne) as Hwp.
  unfold wp in Hwp. rewrite (sorted_sortable _ Hstates), Hview in Hwp.
  unfold len in Hlen. unfold empty in Hwp.
  by destruct (frame_rows view).
Qed.


(** X26: a view with a sub-category whose sales add up to less than zero
    stops the run with [ValueError] where the figure of the
    sub-categories is made (line 278): the page has the elements up to
    the heading of that figure, and no chart of the shipping, customer
    and location sections, no download button, no table and no footer
    follows. *)
Theorem run_negative_subcategory (csv : list Csv.row) (c : Criteria)
    (view : DataFrame) :
  sortable_states csv →
  apply_filters (load_data csv) c = inr view →
  len view ≠ 0%nat →
  Exists (λ row, (sc_Sales row < 0)%Qc) (subcat_data view) →
  (run std quantile csv c).1 = inl ValueError
  ∧ page (run std quantile csv c).2
    = page_top (load_data csv) (state_options (load_data csv))
      ++ dashboard_page_start view.
Proof.
  intros Hstates Hview Hlen Hsales.
  pose proof (wp_script std quantile csv c (view_rows _ _ _ Hview Hlen)) as Hwp.
  unfold wp in Hwp. rewrite (sorted_sortable _ Hstates), Hview in Hwp.
  assert (Hscatter : scatter (subcat_data view) = inl ValueError).
  { unfold scatter. by rewrite decide_True. }
  rewrite Hscatter in Hwp.
  unfold len in Hlen. unfold empty in Hwp.
  by destruct (frame_rows view).
Qed.
End outcomes.

Lemma run_states_not_sortable_witness :
  default_criteria (load_data More.blank_state) = inl TypeError
  ∧ run (λ _, NaN) (λ _ _, NaN) More.blank_state Sample.everything
    = (inl TypeError,
       {| heap := {[0%nat := load_data More.blank_state]}; next := 1;
          page := [markdown style_sheet; markdown main_header]
                  ++ widgets_before_states (load_data More.blank_state) |}).
Proof.
  assert (H1 : Exists (λ t, Csv.State t = EmptyString) More.blank_state).
  { apply (bool_decide_unpack _). vm_compute. exact I. }
  assert (H2 : Exists (λ t, Csv.State t ≠ EmptyString) More.blank_state).
  { apply (bool_decide_unpack _). vm_compute. exact I. }
  exact (run_states_not_sortable _ _ More.blank_state Sample.everything H1 H2).
Defined.

Lemma run_unfinished_range_witness :
  run (λ _, NaN) (λ _ _, NaN) Sample.three_orders More.half_chosen
  = (inl IndexError,
     {| heap := {[0%nat := load_data Sample.three_orders]}; next := 1;
        page := page_top (load_data Sample.three_orders)
                  (state_options (load_data Sample.three_orders)) |}).
Proof.
  assert (H1 : sortable_states Sample.three_orders).
  { apply (bool_decide_unpack _). vm_compute. exact I. }
  assert (H0 : Sample.three_orders ≠ []) by discriminate.
  assert (H2 : (length (date_range More.half_chosen) < 2)%nat) by (simpl; lia).
  exact (run_unfinished_range _ _ Sample.three_orders More.half_chosen H0 H1 H2).
Defined.

Lemma run_empty_view_witness :
  (run (λ _, NaN) (λ _ _, NaN) Sample.three_orders More.backwards).1 = inr None
  ∧ page (run (λ _, NaN) (λ _ _, NaN) Sample.three_orders More.backwards).2
    = page_top (load_data Sample.three_orders)
        (state_options (load_data Sample.three_orders))
      ++ [no_data] ++ page_bottom.
Proof.
  assert (H1 : sortable_states Sample.three_orders).
  { apply (bool_decide_unpack _). vm_compute. exact I. }
  assert (H : apply_filters (load_data Sample.three_orders) More.backwards
              = inr (getitem_mask (load_data Sample.three_orders)
                       [false; false; false])) by (vm_compute; reflexivity).
  assert (H0 : Sample.three_orders ≠ []) by discriminate.
  exact (run_empty_view _ _ _ _ _ H0 H1 H eq_refl).
Defined.


Lemma run_negative_subcategory_witness :
  (run (λ _, NaN) (λ _ _, NaN) More.returned Sample.everything).1
  = inl ValueError
  ∧ page (run (λ _, NaN) (λ _ _, NaN) More.returned Sample.everything).2
    = page_top (load_data More.returned) (state_options (load_data More.returned))
      ++ dashboard_page_start (load_data More.returned).
Proof.
  assert (H1 : sortable_states More.returned).
  { apply (bool_decide_unpack _). vm_compute. exact I. }
  assert (H : apply_filters (load_data More.returned) Sample.everything
              = inr (load_data More.returned)) by (vm_compute; reflexivity).
  assert (Hlen : len (load_data More.returned) ≠ 0%nat) by (vm_compute; discriminate).
  assert (Hsales : Exists (λ row, (sc_Sales row < 0)%Qc)
                     (subcat_data (load_data More.returned))).
  { apply (bool_decide_unpack _). vm_compute. exact I. }
  exact (run_negative_subcategory _ _ _ _ _ H1 H Hlen Hsales).
Defined.

(** ** The groups of a grouping *)

Section group_facts.
Context {R K : Type} `{EqDecision K, KeyOrd K, IsNa K}.
Implicit Types (key : R → K) (rows : list R) (ks : list K).

Lemma length_remove_dups (l : list K) : (length (remove_dups l) ≤ length l)%nat.
Proof.
  induction l as [|x l IH]; simpl; [done|].
  destruct (decide_rel _ _ _); simpl; lia.
Qed.

(** X9: [groupby] splits the rows that have a key into groups: each
    key once and none of them missing, no group without rows, each group
    the rows of its key in their order; a row with a key is in the group
    of its key and a row whose key is missing is in no group, so that
    the groups together are the rows that have a key. *)
Theorem groupby_partitions key rows :
  NoDup (groupby key rows).*1
  ∧ (∀ k g, (k, g) ∈ groupby key rows →
       isna k = false ∧ g ≠ [] ∧ g = filter (λ r, key r = k) rows
       ∧ g `sublist_of` rows)
  ∧ (∀ r, r ∈ rows → isna (key r) = false →
       ∃ g, (key r, g) ∈ groupby key rows ∧ r ∈ g)
  ∧ (∀ r, r ∈ rows → isna (key r) = true →
       ∀ g, g ∈ (groupby key rows).*2 → r ∉ g)
  ∧ mjoin (groupby key rows).*2 ≡ₚ filter (λ r, isna (key r) = false) rows
  ∧ (length (groupby key rows) ≤ length rows)%nat.
Proof.
  split; [|split; [|split; [|split; [|split]]]].
  - rewrite groupby_keys. apply NoDup_group_keys.
  - intros k g (Hg & Hna & r & Hr & Hk)%elem_of_groupby. simpl in *. subst g.
    split; [done|]. split; [|split; [done|apply sublist_filter]].
    intros Hnil. exact (filter_nil_not_elem_of _ _ r Hnil Hk Hr).
  - intros r Hr Hna. exists (filter (λ r', key r' = key r) rows). split.
    + apply elem_of_groupby. simpl. eauto.
    + by apply list_elem_of_filter.
  - intros r Hr Hna g Hg Hin.
    apply list_elem_of_fmap in Hg as ([k g'] & -> & Hg).
    apply elem_of_groupby in Hg as (Hg & Hk & _). simpl in *. subst g'.
    apply list_elem_of_filter in Hin as [Hkey _]. congruence.
  - apply groupby_join.
  - unfold groupby, group_keys, dropna.
    rewrite length_fmap, length_sort_by.
    etrans; [apply length_remove_dups|].
    etrans; [apply length_filter|]. by rewrite length_fmap.
Qed.
End group_facts.

(** *** The order of the groups *)

Section sorted_keys.
Context {A : Type} (leb : A → A → bool).

Lemma insert_by_hd (R : relation A) (x y : A) (l : list A) :
  R y x → HdRel R y l → HdRel R y (insert_by leb x l).
Proof.
  intros Hyx Hl. destruct l as [|z l]; simpl; [by constructor|].
  destruct (leb x z); constructor; [done|]. by inversion Hl.
Qed.

Lemma insert_by_Sorted (x : A) (l : list A) :
  (∀ a b, leb a b = true ∨ leb b a = true) →
  Sorted (λ a b, leb a b = true) l →
  Sorted (λ a b, leb a b = true) (insert_by leb x l).
Proof.
  intros leb_total. induction 1 as [|y l Hl IH Hy]; simpl.
  - by repeat constructor.
  - destruct (leb x y) eqn:Hxy.
    + constructor; [by constructor|]. by constructor.
    + constructor; [done|]. apply insert_by_hd; [|done].
      destruct (leb_total x y) as [Hle|Hle]; [congruence|done].
Qed.

Lemma sort_by_Sorted (l : list A) :
  (∀ a b, leb a b = true ∨ leb b a = true) →
  Sorted (λ a b, leb a b = true) (sort_by leb l).
Proof.
  intros leb_total.
  induction l as [|x l IH]; simpl; [constructor|]. by apply insert_by_Sorted.
Qed.
End sorted_keys.

Lemma Sorted_NoDup_strict {A} (R R' : relation A) (l : list A) :
  (∀ a b, R a b → a ≠ b → R' a b) → Sorted R l → NoDup l → Sorted R' l.
Proof.
  intros HR. induction 1 as [|x l Hl IH Hx]; intros Hnd; [constructor|].
  apply NoDup_cons in Hnd as [Hnotin Hnd]. constructor; [by apply IH|].
  destruct Hx as [|y l Hxy]; constructor. apply HR; [done|].
  intros ->. apply Hnotin. by left.
Qed.

Lemma string_leb_ne_ltb (a b : string) :
  String.leb a b = true → a ≠ b → String.ltb a b = true.
Proof.
  unfold String.leb, String.ltb. intros Hle Hne.
  destruct (String.compare a b) eqn:Hc; [|done|done].
  by apply String.compare_eq_iff in Hc.
Qed.

Lemma Sorted_fmap_inv {A B} (R : relation A) (f : B → A) (l : list B) :
  Sorted R (f <$> l) → Sorted (λ a b, R (f a) (f b)) l.
Proof.
  induction l as [|x l IH]; csimpl; intros Hs; [constructor|].
  inversion Hs as [|? ? Hl Hx]; subst. constructor; [by apply IH|].
  destruct l as [|y l]; csimpl in *; constructor. by inversion Hx.
Qed.

Lemma groupby_sum_keys {R K : Type} `{EqDecision K, KeyOrd K, IsNa K}
    (key : R → K) (value : R → Qc) (rows : list R) :
  (groupby_sum key value rows).*1 = group_keys key rows.
Proof.
  unfold groupby_sum, groupby. rewrite <- !list_fmap_compose. apply list_fmap_id.
Qed.

(** The groups of a grouping by a text column come in the strictly
    ascending order of their keys. *)
Lemma groupby_sum_name_order {R : Type} (key : R → string) (value : R → Qc)
    (rows : list R) :
  Sorted (λ a b, String.ltb a.1 b.1 = true) (groupby_sum key value rows).
Proof.
  apply (Sorted_fmap_inv (λ a b, String.ltb a b = true) fst).
  rewrite groupby_sum_keys.
  unfold group_keys, key_leb, string_KeyOrd.
  eapply (Sorted_NoDup_strict (λ a b, String.leb a b = true)).
  - apply string_leb_ne_ltb.
  - apply sort_by_Sorted, String.leb_total.
  - apply NoDup_sort_by, NoDup_remove_dups.
Qed.

(** X10: the tables of the sales by category, by region and by state list
    each name once, in the strictly ascending order of the names. *)
Theorem sales_tables_in_name_order (fd : DataFrame) :
  Sorted (λ a b, String.ltb a.1 b.1 = true) (category_sales fd)
  ∧ Sorted (λ a b, String.ltb a.1 b.1 = true) (region_sales fd)
  ∧ Sorted (λ a b, String.ltb a.1 b.1 = true) (state_sales fd)
  ∧ NoDup (category_sales fd).*1
  ∧ NoDup (region_sales fd).*1
  ∧ NoDup (state_sales fd).*1.
Proof.
  assert (Hnd : ∀ key : Row → string,
    NoDup (groupby_sum key Sales (records fd)).*1).
  { intros key. rewrite groupby_sum_keys. apply NoDup_group_keys. }
  unfold category_sales, region_sales, state_sales.
  repeat split; try apply groupby_sum_name_order; apply Hnd.
Qed.

(** ** Distinct counts *)

Section distinct_counts.
Context {R K I : Type} `{EqDecision K, KeyOrd K, IsNa K, EqDecision I, IsNa I}.
Implicit Types (key : R → K) (id : R → I) (rows : list R).

Lemma nunique_le_length (l : list I) : (nunique l ≤ length l)%nat.
Proof.
  unfold nunique, dropna.
  etrans; [apply length_remove_dups|]. apply length_filter.
Qed.

(** The distinct values of the groups, one group after the other. *)
Lemma group_counts_join key id rows :
  sum_list ((λ g, nunique (id <$> g.2)) <$> groupby key rows)
  = length (mjoin ((λ k, remove_dups (dropna (id <$> filter (λ r, key r = k) rows)))
                   <$> group_keys key rows)).
Proof.
  rewrite length_join. unfold groupby. rewrite <- !list_fmap_compose. done.
Qed.

(** They are the values, not missing, of the rows that have a key. *)
Lemma elem_of_group_values key id rows (x : I) :
  x ∈ mjoin ((λ k, remove_dups (dropna (id <$> filter (λ r, key r = k) rows)))
             <$> group_keys key rows)
  ↔ x ∈ dropna (id <$> filter (λ r, isna (key r) = false) rows).
Proof.
  rewrite list_elem_of_join, elem_of_dropna, list_elem_of_fmap. split.
  - intros (l & Hx & Hl). apply list_elem_of_fmap in Hl as (k & -> & Hk).
    apply elem_of_group_keys in Hk as [Hk _].
    apply elem_of_remove_dups, elem_of_dropna in Hx as [Hx Hna].
    apply list_elem_of_fmap in Hx as (r & -> & Hr).
    apply list_elem_of_filter in Hr as [<- Hr].
    split; [|done]. exists r. split; [done|]. by apply list_elem_of_filter.
  - intros [(r & -> & Hr) Hna]. apply list_elem_of_filter in Hr as [Hk Hr].
    exists (remove_dups (dropna (id <$> filter (λ r', key r' = key r) rows))).
    split.
    + apply elem_of_remove_dups, elem_of_dropna. split; [|done].
      apply list_elem_of_fmap. exists r. split; [done|].
      by apply list_elem_of_filter.
    + apply list_elem_of_fmap. exists (key r). split; [done|].
      apply elem_of_group_keys. eauto.
Qed.

(** A value is counted in every group in which it occurs, so the counts
    of the groups add up to at least the number of values of the rows
    that have a key. *)
Lemma nunique_groups_ge key id rows :
  (nunique (id <$> filter (λ r, isna (key r) = false) rows)
   ≤ sum_list ((λ g, nunique (id <$> g.2)) <$> groupby key rows))%nat.
Proof.
  rewrite group_counts_join. unfold nunique. apply submseteq_length.
  apply NoDup_submseteq; [apply NoDup_remove_dups|].
  intros x Hx. apply elem_of_group_values. by apply elem_of_remove_dups.
Qed.

(** The values of a part of the rows are values of the rows. *)
Lemma nunique_filter_le (P : R → Prop) `{!∀ r, Decision (P r)} id rows :
  (nunique (id <$> filter P rows) ≤ nunique (id <$> rows))%nat.
Proof.
  unfold nunique. apply submseteq_length.
  apply NoDup_submseteq; [apply NoDup_remove_dups|].
  intros x. rewrite !elem_of_remove_dups, !elem_of_dropna, !list_elem_of_fmap.
  intros [(r & -> & Hr) Hna]. apply list_elem_of_filter in Hr as [_ Hr]. eauto.
Qed.

(** When the rows of one value have one key, the counts add up to the
    number of values. *)
Lemma nunique_groups_eq key id rows :
  (∀ r1 r2, r1 ∈ rows → r2 ∈ rows →
     eq_cell (id r1) (id r2) → eq_cell (key r1) (key r2)) →
  sum_list ((λ g, nunique (id <$> g.2)) <$> groupby key rows)
  = nunique (id <$> rows).
Proof.
  intros Hone. rewrite group_counts_join. unfold nunique.
  apply Permutation_length, NoDup_Permutation.
  - pose proof (NoDup_group_keys key rows) as Hnd.
    induction (group_keys key rows) as [|k ks IH]; csimpl; [constructor|].
    apply NoDup_cons in Hnd as [Hk Hnd].
    apply NoDup_app. split; [apply NoDup_remove_dups|]. split; [|by apply IH].
    intros x Hx Hx'.
    apply elem_of_remove_dups, elem_of_dropna in Hx as [Hx Hna].
    apply list_elem_of_fmap in Hx as (r & -> & Hr).
    apply list_elem_of_filter in Hr as [Hkr Hr].
    apply list_elem_of_join in Hx' as (l & Hx' & Hl).
    apply list_elem_of_fmap in Hl as (k' & -> & Hk').
    apply elem_of_remove_dups, elem_of_dropna in Hx' as [Hx' _].
    apply list_elem_of_fmap in Hx' as (r' & Hid & Hr').
    apply list_elem_of_filter in Hr' as [Hkr' Hr'].
    apply Hk. rewrite <- Hkr.
    destruct (Hone r r' Hr Hr' (conj Hid Hna)) as [-> _]. by rewrite Hkr'.
  - apply NoDup_remove_dups.
  - intros x. rewrite elem_of_group_values, elem_of_remove_dups.
    rewrite !elem_of_dropna, !list_elem_of_fmap. split.
    + intros [(r & -> & Hr) Hna]. apply list_elem_of_filter in Hr as [_ Hr]. eauto.
    + intros [(r & -> & Hr) Hna]. split; [|done]. exists r. split; [done|].
      apply list_elem_of_filter. split; [|done].
      by destruct (Hone r r Hr Hr (conj eq_refl Hna)) as [_ Hk].
Qed.
End distinct_counts.

(** X11: the number of orders is at most the number of rows.  In each of
    the summaries that count the orders of a group (by month, segment,
    ship mode and city) the counts of the groups add up to at least the
    number of orders with a record that has the key, an order with
    records in two groups being counted in both; that number is the
    number of orders for the months, which are never missing, and at
    most the number of orders for the other keys. *)
Theorem order_counts (fd : DataFrame) :
  (total_orders fd ≤ len fd)%nat
  ∧ keyed_orders Month_Year fd = total_orders fd
  ∧ (keyed_orders Month_Year fd ≤ sum_list ((λ m, m.2.2) <$> monthly_sales fd))%nat
  ∧ (keyed_orders Segment fd ≤ sum_list ((λ s, s.2.2) <$> segment_data fd))%nat
  ∧ (keyed_orders Ship_Mode fd ≤ sum_list ((λ s, s.2.1) <$> ship_mode_data fd))%nat
  ∧ (keyed_orders (λ r, (State r, City r)) fd
     ≤ sum_list ((λ c, c.2.2) <$> city_data fd))%nat
  ∧ (keyed_orders Segment fd ≤ total_orders fd)%nat
  ∧ (keyed_orders Ship_Mode fd ≤ total_orders fd)%nat
  ∧ (keyed_orders (λ r, (State r, City r)) fd ≤ total_orders fd)%nat.
Proof.
  unfold total_orders, keyed_orders, column.
  split; [|split; [|split; [|split; [|split; [|split]]]]].
  - etrans; [apply nunique_le_length|]. by rewrite length_fmap, length_records.
  - by rewrite (filter_all (λ r, isna (Month_Year r) = false)).
  - etrans; [apply (nunique_groups_ge Month_Year)|].
    unfold monthly_sales. by rewrite <- !list_fmap_compose.
  - etrans; [apply (nunique_groups_ge Segment)|].
    unfold segment_data. by rewrite <- !list_fmap_compose.
  - etrans; [apply (nunique_groups_ge Ship_Mode)|].
    unfold ship_mode_data. by rewrite <- !list_fmap_compose.
  - etrans; [apply (nunique_groups_ge (λ r, (State r, City r)))|].
    unfold city_data. by rewrite <- !list_fmap_compose.
  - repeat split; apply nunique_filter_le.
Qed.

(** X12: when all the rows of an order have one ship mode, a missing
    ship mode being equal to none, the orders by ship mode, which the
    pie chart shows, add up to the number of orders. *)
Theorem ship_mode_orders_add_up (fd : DataFrame) :
  (∀ r1 r2, r1 ∈ records fd → r2 ∈ records fd →
     eq_cell (Order_ID r1) (Order_ID r2) → eq_cell (Ship_Mode r1) (Ship_Mode r2)) →
  sum_list ((λ s, s.2.1) <$> ship_mode_data fd) = total_orders fd.
Proof.
  intros Hone. unfold total_orders, column.
  rewrite <- (nunique_groups_eq Ship_Mode Order_ID (records fd) Hone).
  unfold ship_mode_data. by rewrite <- !list_fmap_compose.
Qed.

Lemma ship_mode_orders_add_up_witness :
  sum_list ((λ s, s.2.1) <$> ship_mode_data (load_data Sample.three_orders))
  = total_orders (load_data Sample.three_orders).
Proof.
  assert (H : ∀ r1 r2, r1 ∈ records (load_data Sample.three_orders) →
     r2 ∈ records (load_data Sample.three_orders) →
     eq_cell (Order_ID r1) (Order_ID r2) → eq_cell (Ship_Mode r1) (Ship_Mode r2)).
  { intros r1 r2 H1 H2.
    apply list_elem_of_In in H1, H2. vm_compute in H1, H2.
    destruct H1 as [<-|[<-|[<-|[]]]], H2 as [<-|[<-|[<-|[]]]];
      intros [Hid _]; first [by split|discriminate Hid]. }
  exact (ship_mode_orders_add_up _ H).
Defined.

(** ** Top selections *)

Lemma nlargest_all {A} (by_ : A → Qc) (n : Z) (l : list A) :
  Z.of_nat (length l) ≤ n → nlargest n by_ l ≡ₚ l.
Proof.
  intros Hn. unfold nlargest. rewrite take_ge.
  - apply sort_by_Permutation.
  - rewrite length_sort_by. lia.
Qed.

(** X13: with at most ten states in the view the chart of the top
    states has a bar for every row of the table of the sales by state,
    which has a row for every state of a record of the view that is not
    missing. *)
Theorem top_states_shows_all (fd : DataFrame) :
  (length (state_sales fd) ≤ 10)%nat →
  top_states fd ≡ₚ state_sales fd
  ∧ (∀ s, s ∈ (top_states fd).*1
          ↔ s ≠ EmptyString ∧ ∃ r, r ∈ records fd ∧ State r = s).
Proof.
  intros Hlen.
  assert (Hperm : top_states fd ≡ₚ state_sales fd).
  { apply nlargest_all. lia. }
  split; [done|]. intros s. rewrite Hperm. unfold state_sales.
  rewrite groupby_sum_keys, elem_of_group_keys.
  unfold isna, string_IsNa. rewrite bool_decide_eq_false. done.
Qed.

Lemma top_states_shows_all_witness :
  top_states (load_data More.blank_state) ≡ₚ state_sales (load_data More.blank_state)
  ∧ (∀ s, s ∈ (top_states (load_data More.blank_state)).*1
          ↔ s ≠ EmptyString
            ∧ ∃ r, r ∈ records (load_data More.blank_state) ∧ State r = s).
Proof.
  assert (H : (length (state_sales (load_data More.blank_state)) ≤ 10)%nat).
  { vm_compute. lia. }
  exact (top_states_shows_all _ H).
Defined.

(** ** Sub-categories without sales *)

(** X16: a sub-category whose sales add up to zero has no finite margin: the
    margin is an infinity with the sign of its profit, or NaN when the
    profit is zero as well; nothing is raised. *)
Theorem subcat_margin_without_sales (fd : DataFrame) (row : subcat_row) :
  row ∈ subcat_data fd →
  sc_Sales row = 0%Qc →
  sc_Profit_Margin row
  = (if decide (0 < sc_Profit row)%Qc then PInf
     else if decide (sc_Profit row < 0)%Qc then NInf else NaN)
  ∧ isfinite (sc_Profit_Margin row) = false.
Proof.
  intros Hrow Hsales. unfold subcat_data in Hrow.
  apply list_elem_of_fmap in Hrow as ([k g] & -> & _). simpl in *.
  rewrite Hsales, percent_ratio_zero_sales.
  split; [done|]. by repeat destruct (decide _).
Qed.

Lemma subcat_margin_without_sales_witness :
  {| sc_key := "Phones"; sc_Sales := 0%Qc; sc_Profit := Sample.amount 10;
     sc_Profit_Margin := PInf |}
  ∈ subcat_data (load_data [Sample.order "O-4" 19362 19364 "First Class" "East"
                              "Technology" "Phones" "Ohio" 0 10])
  ∧ 0%Qc = 0%Qc
  ∧ (PInf = (if decide (0 < Sample.amount 10)%Qc then PInf
             else if decide (Sample.amount 10 < 0)%Qc then NInf else NaN)
     ∧ isfinite PInf = false).
Proof.
  assert (H : {| sc_key := "Phones"; sc_Sales := 0%Qc; sc_Profit := Sample.amount 10;
                 sc_Profit_Margin := PInf |}
              ∈ subcat_data (load_data [Sample.order "O-4" 19362 19364 "First Class"
                                          "East" "Technology" "Phones" "Ohio" 0 10])).
  { apply (bool_decide_unpack _). vm_compute. exact I. }
  split; [exact H|]. split; [reflexivity|].
  exact (subcat_margin_without_sales _ _ H eq_refl).
Defined.

(** ** Mean shipping days *)

Lemma int_mean_Fin (l : list Z) :
  l ≠ [] →
  int_mean l = Fin (Q2Qc (inject_Z (foldr Z.add 0%Z l))
                    / Q2Qc (inject_Z (Z.of_nat (length l))))%Qc.
Proof.
  intros Hl. unfold int_mean, Float.of_nat, Float.of_Z. simpl.
  destruct l as [|x l]; [done|]. rewrite decide_False; [done|]. apply of_nat_nonzero.
Qed.

Lemma Q2Qc_nonneg (z : Z) : 0 ≤ z → (0 ≤ Q2Qc (inject_Z z))%Qc.
Proof.
  intros Hz. unfold Qcle. simpl. rewrite !Qred_correct.
  unfold Qle. simpl. lia.
Qed.

Lemma Q2Qc_pos (z : Z) : 0 < z → (0 < Q2Qc (inject_Z z))%Qc.
Proof.
  intros Hz. unfold Qclt. simpl. rewrite !Qred_correct.
  unfold Qlt. simpl. lia.
Qed.

Lemma Qcdiv_nonneg (a b : Qc) : (0 ≤ a)%Qc → (0 < b)%Qc → (0 ≤ a / b)%Qc.
Proof.
  intros Ha Hb. unfold Qcdiv.
  replace 0%Qc with (0 * / b)%Qc by ring.
  apply Qcmult_le_compat_r; [done|].
  by apply Qclt_le_weak, Qcinv_pos.
Qed.

Lemma foldr_add_nonneg (l : list Z) : Forall (λ x, 0 ≤ x) l → 0 ≤ foldr Z.add 0 l.
Proof. induction 1; simpl; lia. Qed.

(** The means by ship mode, mode by mode. *)
Lemma ship_time_by_mode (view : DataFrame) :
  ship_time (with_shipping_days view)
  = inr ((λ k, (k, int_mean ((λ r, timedelta_days (Ship_Date r - Order_Date r))
                             <$> filter (λ r, Ship_Mode r = k) (records view))))
         <$> group_keys Ship_Mode (records view)).
Proof.
  unfold ship_time, with_shipping_days. simpl. f_equal.
  assert (Hzip : ∀ (rows : list Row) (f : Row → Z),
    (λ p : Row * Z, Ship_Mode p.1) <$> zip rows (f <$> rows) = Ship_Mode <$> rows).
  { intros rows f. induction rows as [|r rows IH]; csimpl; by rewrite ?IH. }
  unfold groupby, group_keys, shipping_days.
  rewrite Hzip, <- list_fmap_compose. apply list_fmap_ext. intros _ k _. simpl.
  f_equal. f_equal. apply (filter_zip_fmap Ship_Mode).
Qed.

(** X17: the chart of the mean shipping days has a bar for each ship mode of
    the view that is not missing, and every mean is a finite number: a
    mode is listed only with at least one record. *)
Theorem ship_time_finite (view : DataFrame) :
  ∃ times,
    ship_time (with_shipping_days view) = inr times
    ∧ times.*1 = group_keys Ship_Mode (records view)
    ∧ (∀ k, k ∈ times.*1
            ↔ k ≠ EmptyString ∧ ∃ r, r ∈ records view ∧ Ship_Mode r = k)
    ∧ Forall (λ t, isfinite t.2 = true) times.
Proof.
  rewrite ship_time_by_mode. eexists. split; [done|].
  assert (Hkeys : ((λ k, (k, int_mean ((λ r, timedelta_days (Ship_Date r - Order_Date r))
                             <$> filter (λ r, Ship_Mode r = k) (records view))))
                   <$> group_keys Ship_Mode (records view)).*1
                  = group_keys Ship_Mode (records view)).
  { rewrite <- list_fmap_compose. apply list_fmap_id. }
  split; [done|]. split.
  - intros k. rewrite Hkeys, elem_of_group_keys.
    unfold isna, string_IsNa. by rewrite bool_decide_eq_false.
  - apply Forall_fmap, Forall_forall. intros k Hk. simpl.
    apply elem_of_group_keys in Hk as (_ & r & Hr & Hk).
    rewrite int_mean_Fin; [done|]. intros Hnil. apply fmap_nil_inv in Hnil.
    exact (filter_nil_not_elem_of _ _ r Hnil Hk Hr).
Qed.

(** X18: when no record of the view is shipped before it is ordered, no mean
    of the shipping days is negative. *)
Theorem ship_time_nonnegative (view : DataFrame) (times : list (string * float64)) :
  Forall (λ r, Order_Date r ≤ Ship_Date r) (records view) →
  ship_time (with_shipping_days view) = inr times →
  Forall (λ t, ∃ q, t.2 = Fin q ∧ (0 ≤ q)%Qc) times.
Proof.
  intros Hdates. rewrite ship_time_by_mode. intros [= <-].
  apply Forall_fmap, Forall_forall. intros k Hk. simpl.
  apply elem_of_group_keys in Hk as (_ & r & Hr & Hk).
  rewrite int_mean_Fin.
  - eexists. split; [done|]. apply Qcdiv_nonneg.
    + apply Q2Qc_nonneg, foldr_add_nonneg.
      apply Forall_fmap, Forall_forall. intros r' Hr'. simpl.
      apply list_elem_of_filter in Hr' as [_ Hr'].
      rewrite Forall_forall in Hdates. specialize (Hdates r' Hr').
      unfold timedelta_days, ns_per_day. apply Z.div_pos; lia.
    + apply Q2Qc_pos. rewrite length_fmap.
      destruct (filter _ _) as [|x l] eqn:E; [|simpl; lia].
      exfalso. exact (filter_nil_not_elem_of _ _ r E Hk Hr).
  - intros Hnil. apply fmap_nil_inv in Hnil.
    exact (filter_nil_not_elem_of _ _ r Hnil Hk Hr).
Qed.

Lemma ship_time_nonnegative_witness :
  Forall (λ r, Order_Date r ≤ Ship_Date r) (records Sample.east_view)
  ∧ ship_time (with_shipping_days Sample.east_view)
    = inr [("First Class"%string, Fin (Q2Qc (3 # 2)))]
  ∧ Forall (λ t, ∃ q, t.2 = Fin q ∧ (0 ≤ q)%Qc)
           [("First Class"%string, Fin (Q2Qc (3 # 2)))].
Proof.
  assert (H1 : Forall (λ r, Order_Date r ≤ Ship_Date r) (records Sample.east_view)).
  { apply (bool_decide_unpack _). vm_compute. exact I. }
  assert (H2 : ship_time (with_shipping_days Sample.east_view)
               = inr [("First Class"%string, Fin (Q2Qc (3 # 2)))]).
  { apply (bool_decide_unpack _). vm_compute. exact I. }
  split; [exact H1|]. split; [exact H2|].
  exact (ship_time_nonnegative _ _ H1 H2).
Defined.
(** ** The exported aggregate *)

Lemma int64_wrap_range (z : Z) : - 2 ^ 63 ≤ int64_wrap z < 2 ^ 63.
Proof. unfold int64_wrap. pose proof (Z.mod_pos_bound (z + 2 ^ 63) (2 ^ 64)). lia. Qed.

Lemma int64_sum_range (l : list Z) : - 2 ^ 63 ≤ int64_sum l < 2 ^ 63.
Proof.
  unfold int64_sum.
  assert (Hacc : ∀ acc, - 2 ^ 63 ≤ acc < 2 ^ 63 →
    - 2 ^ 63 ≤ foldl (λ acc x, int64_wrap (acc + x)) acc l < 2 ^ 63).
  { induction l as [|x l IH]; intros acc Hacc; simpl; [done|].
    apply IH, int64_wrap_range. }
  apply Hacc. lia.
Qed.

(** A sum that stays in the range of the type is the sum. *)
Lemma int64_sum_exact (l : list Z) :
  Forall (λ x, 0 ≤ x) l → foldr Z.add 0 l < 2 ^ 63 →
  int64_sum l = foldr Z.add 0 l.
Proof.
  intros Hpos Hsum. unfold int64_sum.
  assert (Hacc : ∀ acc, 0 ≤ acc → acc + foldr Z.add 0 l < 2 ^ 63 →
    foldl (λ acc x, int64_wrap (acc + x)) acc l = acc + foldr Z.add 0 l).
  { clear Hsum. induction Hpos as [|x l Hx Hl IH]; intros acc Hacc Hsum; simpl in *.
    - lia.
    - assert (0 ≤ foldr Z.add 0 l) by (clear -Hl; induction Hl; simpl; lia).
      assert (Hw : int64_wrap (acc + x) = acc + x).
      { unfold int64_wrap. rewrite Z.mod_small; lia. }
      rewrite Hw, IH; lia. }
  rewrite Hacc; lia.
Qed.

(** X20: the third payload has, after its header, a line for each row
    of the aggregate, which has a row for each combination of category,
    sub-category and region of a record of the view in which none of the
    three is missing, each combination once.  The quantity of a row is a
    value of the 64-bit integers, the additions wrapping around, and the
    sum of the quantities of the records of the row when these are not
    negative and their sum is below 2^63. *)
Theorem agg_data_rows (fd : DataFrame) :
  length (agg_csv fd) = S (length (agg_data fd))
  ∧ NoDup (agg_data fd).*1
  ∧ (∀ k, k ∈ (agg_data fd).*1 ↔
       (k.1.1 ≠ EmptyString ∧ k.1.2 ≠ EmptyString ∧ k.2 ≠ EmptyString)
       ∧ ∃ r, r ∈ records fd ∧ (Category r, Sub_Category r, Region r) = k)
  ∧ (∀ a, a ∈ agg_data fd →
       let group := filter (λ r, (Category r, Sub_Category r, Region r) = a.1)
                      (records fd) in
       - 2 ^ 63 ≤ a.2.1.2 < 2 ^ 63
       ∧ (Forall (λ r, 0 ≤ Quantity r) group →
          foldr Z.add 0 (Quantity <$> group) < 2 ^ 63 →
          a.2.1.2 = foldr Z.add 0 (Quantity <$> group))).
Proof.
  assert (Hkeys : (agg_data fd).*1
                  = group_keys (λ r, (Category r, Sub_Category r, Region r))
                      (records fd)).
  { unfold agg_data. rewrite <- groupby_keys, <- list_fmap_compose. done. }
  split; [|split; [|split]].
  - unfold agg_csv, agg_table. simpl. by rewrite length_fmap.
  - rewrite Hkeys. apply NoDup_group_keys.
  - intros k. rewrite Hkeys, elem_of_group_keys.
    assert (Hna : isna k = false
                  ↔ k.1.1 ≠ EmptyString ∧ k.1.2 ≠ EmptyString ∧ k.2 ≠ EmptyString).
    { destruct k as [[c s] r]. unfold isna, prod_IsNa, isna, string_IsNa. simpl.
      rewrite !orb_false_iff, !bool_decide_eq_false. tauto. }
    by rewrite Hna.
  - intros a Ha group. unfold agg_data in Ha.
    apply list_elem_of_fmap in Ha as ([k g] & -> & Hg).
    apply elem_of_groupby in Hg as [Hg _]. simpl in *. subst g. fold group.
    split; [apply int64_sum_range|].
    intros Hpos Hsum. apply int64_sum_exact; [|done].
    by apply Forall_fmap.
Qed.

(** ** Years, months and periods *)

Lemma month_start_step (p : Z) : month_start p < month_start (p + 1).
Proof. unfold month_start. cbv zeta. Z.div_mod_to_equations. lia. Qed.

Lemma month_start_mono (p q : Z) : p ≤ q → month_start p ≤ month_start q.
Proof.
  intros Hpq. replace q with (p + Z.of_nat (Z.to_nat (q - p))) by lia.
  induction (Z.to_nat (q - p)) as [|n IH].
  - replace (p + Z.of_nat 0) with p by lia. lia.
  - pose proof (month_start_step (p + Z.of_nat n)) as Hs.
    replace (p + Z.of_nat (S n)) with (p + Z.of_nat n + 1) by lia. lia.
Qed.

Lemma year_days (era y1 : Z) :
  0 ≤ y1 ≤ 400 →
  365 * (y1 + era * 400) + (y1 + era * 400) `div` 4 - (y1 + era * 400) `div` 100
  + (y1 + era * 400) `div` 400
  = 146097 * era + 365 * y1 + y1 `div` 4 - y1 `div` 100 + y1 `div` 400.
Proof. intros Hy. Z.div_mod_to_equations. lia. Qed.

Lemma month_start_at (y mp : Z) :
  0 ≤ mp ≤ 11 →
  month_start (12 * y + mp)
  = 365 * y + y `div` 4 - y `div` 100 + y `div` 400 + (153 * mp + 2) `div` 5 - 719468.
Proof.
  intros Hmp. unfold month_start. cbv zeta.
  replace ((12 * y + mp) `div` 12) with y by (Z.div_mod_to_equations; lia).
  replace ((12 * y + mp) `mod` 12) with mp by (Z.div_mod_to_equations; lia).
  done.
Qed.

Lemma civil_parts (z : Z) :
  ∃ era yoe doy mp,
    z + 719468 = 146097 * era + 365 * yoe + yoe `div` 4 - yoe `div` 100 + doy
    ∧ 0 ≤ yoe ≤ 399 ∧ 0 ≤ mp ≤ 11
    ∧ 146097 * era + 365 * yoe + yoe `div` 4 - yoe `div` 100 + doy
      < 146097 * era + 365 * (yoe + 1) + (yoe + 1) `div` 4 - (yoe + 1) `div` 100
        + (yoe + 1) `div` 400
    ∧ (153 * mp + 2) `div` 5 ≤ doy
    ∧ (mp < 11 → doy < (153 * (mp + 1) + 2) `div` 5)
    ∧ month_index z = 12 * (yoe + era * 400) + mp.
Proof.
  set (z' := z + 719468). set (era := z' `div` 146097).
  set (doe := z' - era * 146097).
  set (yoe := (doe - doe `div` 1460 + doe `div` 36524 - doe `div` 146096) `div` 365).
  set (doy := doe - (365 * yoe + yoe `div` 4 - yoe `div` 100)).
  set (mp := (5 * doy + 2) `div` 153).
  exists era, yoe, doy, mp.
  assert (Hdoe : 0 ≤ doe ≤ 146096).
  { unfold doe, era. Z.div_mod_to_equations. lia. }
  assert (Hyoe : 0 ≤ yoe ≤ 399
                 ∧ 365 * yoe + yoe `div` 4 - yoe `div` 100 ≤ doe
                 ∧ doe < 365 * (yoe + 1) + (yoe + 1) `div` 4 - (yoe + 1) `div` 100
                         + (yoe + 1) `div` 400).
  { unfold yoe. clearbody doe. clear -Hdoe. Z.div_mod_to_equations. lia. }
  destruct Hyoe as (Hyoe & Hlow & Hnext).
  assert (Hdoy : 0 ≤ doy ≤ 365).
  { unfold doy. clearbody yoe doe. clear -Hyoe Hlow Hnext Hdoe.
    Z.div_mod_to_equations. lia. }
  assert (Hmp : 0 ≤ mp ≤ 11 ∧ (153 * mp + 2) `div` 5 ≤ doy
                ∧ (mp < 11 → doy < (153 * (mp + 1) + 2) `div` 5)).
  { unfold mp. clearbody doy. clear -Hdoy. Z.div_mod_to_equations. lia. }
  destruct Hmp as (Hmp & Hmlow & Hmnext).
  assert (Hidx : month_index z = 12 * (yoe + era * 400) + mp).
  { unfold month_index, civil_from_days. cbv zeta.
    fold z'. fold era. fold doe. fold yoe. fold doy. fold mp.
    clearbody mp yoe era. clear -Hmp.
    repeat destruct (decide _); simpl; lia. }
  repeat split; try lia; try done.
Qed.

Lemma month_start_le (z : Z) : month_start (month_index z) ≤ z.
Proof.
  destruct (civil_parts z) as (era & yoe & doy & mp & Hz & Hyoe & Hmp & _ & Hlow & _ & ->).
  rewrite month_start_at by done.
  pose proof (year_days era yoe ltac:(lia)) as Hy.
  assert (yoe `div` 400 = 0) as H0 by (Z.div_mod_to_equations; lia).
  lia.
Qed.

Lemma month_start_gt (z : Z) : z < month_start (month_index z + 1).
Proof.
  destruct (civil_parts z) as (era & yoe & doy & mp & Hz & Hyoe & Hmp & Hnext & _ & Hmnext & ->).
  destruct (decide (mp < 11)) as [Hlt|Hge].
  - replace (12 * (yoe + era * 400) + mp + 1) with (12 * (yoe + era * 400) + (mp + 1)) by lia.
    rewrite month_start_at by lia.
    pose proof (year_days era yoe ltac:(lia)) as Hy.
    assert (yoe `div` 400 = 0) as H0 by (Z.div_mod_to_equations; lia).
    specialize (Hmnext Hlt). lia.
  - replace (12 * (yoe + era * 400) + mp + 1) with (12 * ((yoe + 1) + era * 400) + 0) by lia.
    rewrite month_start_at by lia.
    pose proof (year_days era (yoe + 1) ltac:(lia)) as Hy.
    change ((153 * 0 + 2) `div` 5) with 0. lia.
Qed.

Lemma month_index_mono (z1 z2 : Z) : z1 ≤ z2 → month_index z1 ≤ month_index z2.
Proof.
  intros Hz. destruct (decide (month_index z1 ≤ month_index z2)) as [|Hn]; [done|].
  pose proof (month_start_mono (month_index z2 + 1) (month_index z1) ltac:(lia)).
  pose proof (month_start_gt z2). pose proof (month_start_le z1). lia.
Qed.


Lemma month_range (z : Z) : 1 ≤ (civil_from_days z).1.2 ≤ 12.
Proof.
  unfold civil_from_days. cbv zeta. simpl.
  destruct (decide _); Z.div_mod_to_equations; lia.
Qed.

Lemma to_period_M_index (t : Z) :
  to_period_M t = month_index (t `div` ns_per_day) - 23638.
Proof. unfold to_period_M, month_index, dt_year, dt_month. lia. Qed.

Lemma to_period_M_mono (t1 t2 : Z) : t1 ≤ t2 → to_period_M t1 ≤ to_period_M t2.
Proof.
  intros Ht. rewrite !to_period_M_index.
  pose proof (month_index_mono (t1 `div` ns_per_day) (t2 `div` ns_per_day)) as Hm.
  assert (t1 `div` ns_per_day ≤ t2 `div` ns_per_day).
  { apply Z.div_le_mono; [done|done]. }
  lia.
Qed.

Lemma period_parts (t : Z) :
  1 ≤ dt_month t ≤ 12
  ∧ period_year (to_period_M t) = dt_year t
  ∧ period_month (to_period_M t) = dt_month t.
Proof.
  pose proof (month_range (t `div` ns_per_day)) as Hm.
  unfold period_year, period_month, to_period_M, dt_month, dt_year in *.
  set (y := (civil_from_days (t `div` ns_per_day)).1.1) in *.
  set (m := (civil_from_days (t `div` ns_per_day)).1.2) in *.
  clearbody y m. split; [done|]. Z.div_mod_to_equations. lia.
Qed.

(** X22: the month of an order is a number from 1 to 12, and the
    month-year period of the order prints its year and its month: the
    label of a point of the monthly trend names the year and the month
    of the orders it sums. *)
Theorem period_names_year_and_month (t : Csv.row) :
  1 ≤ Month (derive t) ≤ 12
  ∧ period_year (Month_Year (derive t)) = Year (derive t)
  ∧ period_month (Month_Year (derive t)) = Month (derive t).
Proof.
  simpl. set (d := to_datetime (Csv.Order_Date t)).
  pose proof (month_range (d `div` ns_per_day)) as Hm.
  unfold period_year, period_month, to_period_M, dt_month, dt_year in *.
  set (y := (civil_from_days (d `div` ns_per_day)).1.1) in *.
  set (m := (civil_from_days (d `div` ns_per_day)).1.2) in *.
  clearbody y m. split; [done|]. Z.div_mod_to_equations. lia.
Qed.

(** X23: an order placed on a later day never falls in an earlier
    month-year period, nor in an earlier year, whatever the dates. *)
Theorem later_orders_later_periods (t1 t2 : Csv.row) :
  Csv.Order_Date t1 ≤ Csv.Order_Date t2 →
  Month_Year (derive t1) ≤ Month_Year (derive t2)
  ∧ Year (derive t1) ≤ Year (derive t2).
Proof.
  intros Hd.
  assert (Hp : Month_Year (derive t1) ≤ Month_Year (derive t2)).
  { simpl. apply to_period_M_mono. unfold to_datetime, ns_per_day. lia. }
  split; [done|].
  destruct (period_parts (to_datetime (Csv.Order_Date t1))) as (_ & Hy1 & _).
  destruct (period_parts (to_datetime (Csv.Order_Date t2))) as (_ & Hy2 & _).
  simpl in *. rewrite <- Hy1, <- Hy2.
  unfold period_year. Z.div_mod_to_equations. lia.
Qed.

Lemma later_orders_later_periods_witness :
  Month_Year (derive january_order) ≤ Month_Year (derive march_order)
  ∧ Year (derive january_order) ≤ Year (derive march_order).
Proof.
  assert (H : Csv.Order_Date january_order ≤ Csv.Order_Date march_order)
    by (vm_compute; discriminate).
  exact (later_orders_later_periods january_order march_order H).
Defined.

Lemma view_rows_loaded (csv : list Csv.row) (c : Criteria) (fd : DataFrame) (r : Row) :
  apply_filters (load_data csv) c = inr fd → r ∈ records fd → r ∈ derive <$> csv.
Proof.
  rewrite apply_filters_select. destruct (decide _); [|done].
  intros [= <-]. unfold records, select. simpl. intros Hr.
  apply list_elem_of_fmap in Hr as ([i r'] & -> & Hr).
  apply list_elem_of_filter in Hr as [_ Hr].
  by apply elem_of_zip_r in Hr.
Qed.

(** X24: in a view of the loaded file the monthly trend lists each
    month-year period once, from the earliest to the latest, and the
    points follow the time: every order of a period was placed before
    every order of a later period. *)
Theorem monthly_trend_chronological (csv : list Csv.row) (c : Criteria)
    (fd : DataFrame) :
  apply_filters (load_data csv) c = inr fd →
  Sorted (λ a b, a.1 < b.1) (monthly_sales fd)
  ∧ (∀ r1 r2, r1 ∈ records fd → r2 ∈ records fd →
       Month_Year r1 < Month_Year r2 → Order_Date r1 < Order_Date r2).
Proof.
  intros Hfd. split.
  - apply (Sorted_fmap_inv Z.lt fst).
    assert (Hkeys : (monthly_sales fd).*1 = group_keys Month_Year (records fd)).
    { unfold monthly_sales. rewrite <- list_fmap_compose.
      rewrite <- (groupby_keys Month_Year (records fd)). done. }
    rewrite Hkeys. unfold group_keys, key_leb, Z_KeyOrd.
    eapply (Sorted_NoDup_strict (λ a b, Z.leb a b = true)).
    + intros a b Hab Hne. apply Z.leb_le in Hab. lia.
    + apply sort_by_Sorted. intros a b.
      destruct (Z.leb_spec a b); [by left|right]. apply Z.leb_le. lia.
    + apply NoDup_sort_by, NoDup_remove_dups.
  - intros r1 r2 Hr1 Hr2 Hlt.
    apply (view_rows_loaded csv c fd) in Hr1; [|done].
    apply (view_rows_loaded csv c fd) in Hr2; [|done].
    apply list_elem_of_fmap in Hr1 as (t1 & -> & _).
    apply list_elem_of_fmap in Hr2 as (t2 & -> & _).
    destruct (decide (Order_Date (derive t1) < Order_Date (derive t2))) as [|Hge];
      [done|].
    pose proof (to_period_M_mono (Order_Date (derive t2)) (Order_Date (derive t1))
                  ltac:(lia)) as Hm.
    simpl in *. lia.
Qed.

Lemma monthly_trend_chronological_witness :
  Sorted (λ a b, a.1 < b.1) (monthly_sales Sample.east_view)
  ∧ (∀ r1 r2, r1 ∈ records Sample.east_view → r2 ∈ records Sample.east_view →
       Month_Year r1 < Month_Year r2 → Order_Date r1 < Order_Date r2).
Proof.
  assert (H : apply_filters (load_data Sample.three_orders) Sample.east_only
              = inr Sample.east_view) by (vm_compute; reflexivity).
  exact (monthly_trend_chronological _ _ _ H).
Defined.
